(** * go-jackett: request addressing, resilient transport, attribute defaults

    A shallow embedding of [http.go] (buildUrl, copyBody, resetBody,
    retryDo, getRawCtx, getCtx, postCtx, postBasicCtx, setCookies) and
    [methods.go] (GetIndexersCtx, GetTorrentsCtx, GetEnclosureCtx, and the
    text of the first two that reads the body whole before it decodes) of
    the go-jackett client, together with the parts of
    the Go standard library ([strings], [path], [net/url], [net/http]) and
    of [github.com/avast/retry-go] v3.0.0 that this code calls.

    Go strings are byte strings: they are modelled by [string], whose
    characters are the 256 values of [ascii]. A Go map is a reference: a
    [map[string]string] is nil or a location of a store of
    [gmap string string]. What a run does to the outside (the calls of the
    HTTP client, the log lines, the sleeps) is recorded in a trace; the
    network, the server and the XML decoder are parameters of a run.

    The file has the definitions first: the library packages, the data of
    package [jackett], [http.go], [methods.go], the attribute extraction
    model, and the inputs used as samples. The properties follow, by
    component: the transport, the methods, the attribute extraction model,
    the address resolver; then the retry loop under any transport, the
    query and the slashes of [buildUrl], the requests that are sent, and
    the methods from the call to the value. The tests of the repository,
    run on the embedding, close the file. *)

From Stdlib Require Import String Ascii ZArith NArith List Sorted Lia Bool.
From Stdlib Require Import Floats.PrimFloat.
From stdpp Require Import gmap strings list.

Local Open Scope string_scope.

(* stdpp keeps [append] folded; the proofs below compute with it. *)
#[local] Arguments String.append !s1 s2 : simpl nomatch.

(** ** Errors and results *)

(** The Go error values that occur in this code. *)
#[warnings="-register-all"]
Inductive error : Type :=
| ErrorString (msg : string)            (* errors.New, fmt.Errorf *)
| EscapeError (s : string)              (* url.EscapeError *)
| InvalidHostError (s : string)         (* url.InvalidHostError *)
| UrlError (op url : string) (e : error) (* *url.Error *)
| ContextError                          (* ctx.Err() of a context that is done *)
| StatusError (code : Z)                (* errors.New("unrecoverable status: %v", code) *)
| Wrapped (msg : string) (e : error)    (* errors.Wrap(e, msg) *)
| Unrecoverable (e : error)             (* retry.Unrecoverable(e) *)
| RetryErrors (log : list (option error)). (* retry.Error, one slot per attempt *)

(** A Go result [(v, err)] whose value is meaningless when [err != nil]. *)
Inductive result (A : Type) : Type :=
| Ok (a : A)
| Err (e : error).
Arguments Ok {A} a.
Arguments Err {A} e.

(** The outcome of a call that may panic. *)
Inductive outcome (A : Type) : Type :=
| Ret (a : A)
| Panic (msg : string).
Arguments Ret {A} a.
Arguments Panic {A} msg.

(** ** Byte classes *)

Definition byte_of (c : ascii) : N := N_of_ascii c.

Definition between (lo hi c : ascii) : bool :=
  (byte_of lo <=? byte_of c)%N && (byte_of c <=? byte_of hi)%N.

Definition is_lower (c : ascii) : bool := between "a" "z" c.
Definition is_upper (c : ascii) : bool := between "A" "Z" c.
Definition is_digit (c : ascii) : bool := between "0" "9" c.
Definition is_alnum (c : ascii) : bool := is_lower c || is_upper c || is_digit c.

(** [c] is one of the bytes of [set]. *)
Fixpoint one_of (set : string) (c : ascii) : bool :=
  match set with
  | EmptyString => false
  | String a rest => Ascii.eqb c a || one_of rest c
  end.

Fixpoint all_bytes (p : ascii -> bool) (s : string) : bool :=
  match s with
  | EmptyString => true
  | String a rest => p a && all_bytes p rest
  end.

Fixpoint any_byte (p : ascii -> bool) (s : string) : bool :=
  match s with
  | EmptyString => false
  | String a rest => p a || any_byte p rest
  end.

Fixpoint map_bytes (f : ascii -> string) (s : string) : string :=
  match s with
  | EmptyString => EmptyString
  | String a rest => f a ++ map_bytes f rest
  end.

(** ** Package [strings] *)

Module strings.

Definition HasPrefix (s pre : string) : bool := String.prefix pre s.

Fixpoint last_byte (s : string) : option ascii :=
  match s with
  | EmptyString => None
  | String a EmptyString => Some a
  | String _ rest => last_byte rest
  end.

(** Only used with one-byte suffixes. *)
Definition HasSuffixByte (s : string) (c : ascii) : bool :=
  match last_byte s with
  | Some a => Ascii.eqb a c
  | None => false
  end.

Definition ContainsByte (s : string) (c : ascii) : bool :=
  any_byte (Ascii.eqb c) s.

Fixpoint CountByte (s : string) (c : ascii) : nat :=
  match s with
  | EmptyString => 0
  | String a rest => (if Ascii.eqb a c then 1 else 0) + CountByte rest c
  end.

(** [break c s] is [(s[:i], s[i:])] for the index [i] of the first [c] in
    [s], and [(s, "")] when [c] does not occur. *)
Fixpoint break (c : ascii) (s : string) : string * string :=
  match s with
  | EmptyString => (EmptyString, EmptyString)
  | String a rest =>
      if Ascii.eqb a c then (EmptyString, s)
      else let '(l, r) := break c rest in (String a l, r)
  end.

(** [strings.Cut(s, sep)] for a one-byte separator. *)
Definition Cut (s : string) (sep : ascii) : string * string * bool :=
  match break sep s with
  | (before, String _ after) => (before, after, true)
  | (_, EmptyString) => (s, EmptyString, false)
  end.

(** [rbreak c s] is [Some (s[:i], s[i:])] for the index [i] of the last
    [c] in [s] ([strings.LastIndex] with a one-byte separator), [None]
    when [c] does not occur. *)
Fixpoint rbreak (c : ascii) (s : string) : option (string * string) :=
  match s with
  | EmptyString => None
  | String a rest =>
      match rbreak c rest with
      | Some (l, r) => Some (String a l, r)
      | None => if Ascii.eqb a c then Some (EmptyString, s) else None
      end
  end.

(** [break_at sub s] is [Some (s[:i], s[i:])] for the index [i] of the
    first occurrence of [sub] in [s] ([strings.Index]). *)
Fixpoint break_at (sub s : string) : option (string * string) :=
  if String.prefix sub s then Some (EmptyString, s)
  else match s with
       | EmptyString => None
       | String a rest =>
           match break_at sub rest with
           | Some (l, r) => Some (String a l, r)
           | None => None
           end
       end.

(** [strings.Contains]. *)
Definition Contains (s sub : string) : bool :=
  match break_at sub s with
  | Some _ => true
  | None => false
  end.

Definition lower_byte (c : ascii) : ascii :=
  if is_upper c then ascii_of_N (byte_of c + 32) else c.

(** [s[n:]]. *)
Fixpoint drop (n : nat) (s : string) : string :=
  match n, s with
  | O, _ => s
  | S n', String _ rest => drop n' rest
  | S _, EmptyString => EmptyString
  end.

(** [strings.ToLower] on ASCII input. *)
Fixpoint ToLower (s : string) : string :=
  match s with
  | EmptyString => EmptyString
  | String a rest => String (lower_byte a) (ToLower rest)
  end.

(** [strings.Split(s, sep)] for a one-byte separator. *)
Fixpoint Split (c : ascii) (s : string) : list string :=
  match s with
  | EmptyString => [EmptyString]
  | String a rest =>
      if Ascii.eqb a c then EmptyString :: Split c rest
      else match Split c rest with
           | x :: xs => String a x :: xs
           | [] => [String a EmptyString]
           end
  end.

(** [strings.Join(elems, sep)]. *)
Fixpoint Join (elems : list string) (sep : string) : string :=
  match elems with
  | [] => EmptyString
  | [x] => x
  | x :: xs => x ++ sep ++ Join xs sep
  end.

End strings.

(** ** Package [path] *)

Module path.

(** One step of [Clean]'s scan over the elements of a path: [out] is the
    output written so far, last element first. An empty element and [.]
    are dropped; [..] removes the last real element of the output, is
    dropped at the root, and is kept in front of a relative path. *)
Definition clean_step (rooted : bool) (out : list string) (elem : string) : list string :=
  if String.eqb elem "" then out
  else if String.eqb elem "." then out
  else if String.eqb elem ".." then
    match out with
    | top :: below => if String.eqb top ".." then elem :: out else below
    | [] => if rooted then out else [elem]
    end
  else elem :: out.

Definition is_rooted (p : string) : bool := strings.HasPrefix p "/".

(** [path.Clean]. *)
Definition Clean (p : string) : string :=
  if String.eqb p "" then "."
  else
    let rooted := is_rooted p in
    let out := rev (fold_left (clean_step rooted) (strings.Split "/" p) []) in
    if rooted then "/" ++ strings.Join out "/"
    else match out with
         | [] => "."
         | _ => strings.Join out "/"
         end.

(** [path.Join]: the non-empty elements joined by slashes, cleaned; the
    empty string when every element is empty. *)
Definition Join (elem : list string) : string :=
  match List.filter (fun e => negb (String.eqb e "")) elem with
  | [] => ""
  | es => Clean (strings.Join es "/")
  end.

End path.

(** ** Package [net/url] (Go 1.19.1 and later) *)

Module url.

Inductive encoding : Type :=
| encodePath
| encodePathSegment
| encodeHost
| encodeZone
| encodeUserPassword
| encodeQueryComponent
| encodeFragment.

Definition is_host_mode (mode : encoding) : bool :=
  match mode with
  | encodeHost | encodeZone => true
  | _ => false
  end.

Definition is_query_mode (mode : encoding) : bool :=
  match mode with
  | encodeQueryComponent => true
  | _ => false
  end.

Definition is_fragment_mode (mode : encoding) : bool :=
  match mode with
  | encodeFragment => true
  | _ => false
  end.

Definition dquote : ascii := ascii_of_N 34.
Definition space : ascii := ascii_of_N 32.

Definition ishex (c : ascii) : bool :=
  is_digit c || between "a" "f" c || between "A" "F" c.

Definition unhex (c : ascii) : N :=
  if is_digit c then (byte_of c - byte_of "0")%N
  else if between "a" "f" c then (byte_of c - byte_of "a" + 10)%N
  else if between "A" "F" c then (byte_of c - byte_of "A" + 10)%N
  else 0%N.

Definition upperhex (n : N) : ascii :=
  match String.get (N.to_nat n) "0123456789ABCDEF" with
  | Some c => c
  | None => "0"%char
  end.

(** [shouldEscape]: whether byte [c] is percent-encoded in the URL
    component [mode]. *)
Definition shouldEscape (c : ascii) (mode : encoding) : bool :=
  if is_alnum c then false
  else if is_host_mode mode
          && (one_of "!$&'()*+,;=:[]<>" c || Ascii.eqb c dquote) then false
  else if one_of "-_.~" c then false
  else if one_of "$&+,/:;=?@" c then
    match mode with
    | encodePath => Ascii.eqb c "?"
    | encodePathSegment => one_of "/;,?" c
    | encodeUserPassword => one_of "@/?:" c
    | encodeQueryComponent => true
    | encodeFragment => false
    | encodeHost | encodeZone => true
    end
  else if is_fragment_mode mode && one_of "!()*" c then false
  else true.

Definition unhex2 (h1 h2 : ascii) : ascii := ascii_of_N (unhex h1 * 16 + unhex h2).

Definition triple (h1 h2 : ascii) : string := String "%" (String h1 (String h2 "")).

(** [s[:3]], the text of an [EscapeError]. *)
Definition first3 (s : string) : string := String.substring 0 3 s.

(** [unescape]: the decoding of [s], or the error of the first malformed
    or forbidden byte. *)
Fixpoint unescape (s : string) (mode : encoding) : result string :=
  match s with
  | EmptyString => Ok EmptyString
  | String c rest =>
      if Ascii.eqb c "%" then
        match rest with
        | String h1 (String h2 rest') =>
            if negb (ishex h1 && ishex h2) then Err (EscapeError (first3 s))
            else if match mode with encodeHost => true | _ => false end
                    && (unhex h1 <? 8)%N && negb (String.eqb (triple h1 h2) "%25")
                 then Err (EscapeError (triple h1 h2))
            else if match mode with encodeZone => true | _ => false end
                    && negb (String.eqb (triple h1 h2) "%25")
                    && negb (Ascii.eqb (unhex2 h1 h2) space)
                    && shouldEscape (unhex2 h1 h2) encodeHost
                 then Err (EscapeError (triple h1 h2))
            else match unescape rest' mode with
                 | Ok t => Ok (String (unhex2 h1 h2) t)
                 | Err e => Err e
                 end
        | _ => Err (EscapeError (first3 s))
        end
      else if Ascii.eqb c "+" then
        match unescape rest mode with
        | Ok t => Ok (String (if is_query_mode mode then space else c) t)
        | Err e => Err e
        end
      else if is_host_mode mode && (byte_of c <? 128)%N && shouldEscape c encodeHost
      then Err (InvalidHostError (String c ""))
      else match unescape rest mode with
           | Ok t => Ok (String c t)
           | Err e => Err e
           end
  end.

Definition escape_byte (mode : encoding) (c : ascii) : string :=
  if shouldEscape c mode then
    if Ascii.eqb c space && is_query_mode mode then "+"
    else String "%" (String (upperhex (byte_of c / 16)) (String (upperhex (byte_of c mod 16)) ""))
  else String c "".

(** [escape]. *)
Definition escape (s : string) (mode : encoding) : string :=
  map_bytes (escape_byte mode) s.

Definition QueryEscape (s : string) : string := escape s encodeQueryComponent.

Record Userinfo : Type := {
  username : string;
  password : string;
  passwordSet : bool
}.

Record URL : Type := {
  Scheme : string;
  Opaque : string;
  User : option Userinfo;
  Host : string;
  Path : string;
  RawPath : string;
  OmitHost : bool;
  ForceQuery : bool;
  RawQuery : string;
  Fragment : string;
  RawFragment : string
}.

(** The zero [URL]. *)
Definition empty : URL :=
  {| Scheme := ""; Opaque := ""; User := None; Host := ""; Path := "";
     RawPath := ""; OmitHost := false; ForceQuery := false; RawQuery := "";
     Fragment := ""; RawFragment := "" |}.

Definition with_path (u : URL) (p raw : string) : URL :=
  {| Scheme := Scheme u; Opaque := Opaque u; User := User u; Host := Host u;
     Path := p; RawPath := raw; OmitHost := OmitHost u;
     ForceQuery := ForceQuery u; RawQuery := RawQuery u;
     Fragment := Fragment u; RawFragment := RawFragment u |}.

Definition with_fragment (u : URL) (f raw : string) : URL :=
  {| Scheme := Scheme u; Opaque := Opaque u; User := User u; Host := Host u;
     Path := Path u; RawPath := RawPath u; OmitHost := OmitHost u;
     ForceQuery := ForceQuery u; RawQuery := RawQuery u;
     Fragment := f; RawFragment := raw |}.

(** The assignment [u.RawQuery = q]. *)
Definition with_query (u : URL) (q : string) : URL :=
  {| Scheme := Scheme u; Opaque := Opaque u; User := User u; Host := Host u;
     Path := Path u; RawPath := RawPath u; OmitHost := OmitHost u;
     ForceQuery := ForceQuery u; RawQuery := q;
     Fragment := Fragment u; RawFragment := RawFragment u |}.

(** The assignment [u.Host = h]. *)
Definition with_host (u : URL) (h : string) : URL :=
  {| Scheme := Scheme u; Opaque := Opaque u; User := User u; Host := h;
     Path := Path u; RawPath := RawPath u; OmitHost := OmitHost u;
     ForceQuery := ForceQuery u; RawQuery := RawQuery u;
     Fragment := Fragment u; RawFragment := RawFragment u |}.

Inductive scheme_scan : Type :=
| NoScheme
| MissingScheme
| SchemeAt (scheme rest : string).

Definition scan_cons (c : ascii) (r : scheme_scan) : scheme_scan :=
  match r with
  | SchemeAt sch rest => SchemeAt (String c sch) rest
  | other => other
  end.

(** The loop of [getScheme]; [at_start] is [i == 0]. *)
Fixpoint scan_scheme (at_start : bool) (s : string) : scheme_scan :=
  match s with
  | EmptyString => NoScheme
  | String c rest =>
      if is_lower c || is_upper c then scan_cons c (scan_scheme false rest)
      else if is_digit c || one_of "+-." c then
        if at_start then NoScheme else scan_cons c (scan_scheme false rest)
      else if Ascii.eqb c ":" then
        if at_start then MissingScheme else SchemeAt EmptyString rest
      else NoScheme
  end.

Definition getScheme (rawURL : string) : result (string * string) :=
  match scan_scheme true rawURL with
  | NoScheme => Ok (EmptyString, rawURL)
  | MissingScheme => Err (ErrorString "missing protocol scheme")
  | SchemeAt sch rest => Ok (sch, rest)
  end.

Definition stringContainsCTLByte (s : string) : bool :=
  any_byte (fun c => (byte_of c <? 32)%N || (byte_of c =? 127)%N) s.

Definition validOptionalPort (port : string) : bool :=
  match port with
  | EmptyString => true
  | String c digits => Ascii.eqb c ":" && all_bytes is_digit digits
  end.

Definition validUserinfo (s : string) : bool :=
  all_bytes (fun c => is_alnum c || one_of "-._:~!$&'()*+,;=%@" c) s.

Definition bind {A B : Type} (r : result A) (k : A -> result B) : result B :=
  match r with
  | Ok a => k a
  | Err e => Err e
  end.

Definition parseHost (host : string) : result string :=
  if strings.HasPrefix host "[" then
    match strings.rbreak "]" host with
    | None => Err (ErrorString "missing ']' in host")
    | Some (lit, closing) =>
        (* [closing] is [host[i:]], which begins with the bracket *)
        if negb (validOptionalPort (strings.drop 1 closing))
        then Err (ErrorString "invalid port after host")
        else match strings.break_at "%25" lit with
             | Some (h1, zone) =>
                 bind (unescape h1 encodeHost) (fun host1 =>
                 bind (unescape zone encodeZone) (fun host2 =>
                 bind (unescape closing encodeHost) (fun host3 =>
                 Ok (host1 ++ host2 ++ host3))))
             | None => unescape host encodeHost
             end
    end
  else
    match strings.rbreak ":" host with
    | Some (_, colonPort) =>
        if negb (validOptionalPort colonPort)
        then Err (ErrorString "invalid port after host")
        else unescape host encodeHost
    | None => unescape host encodeHost
    end.

Definition parseAuthority (authority : string) : result (option Userinfo * string) :=
  match strings.rbreak "@" authority with
  | None => bind (parseHost authority) (fun host => Ok (None, host))
  | Some (userinfo, at_host) =>
      bind (parseHost (strings.drop 1 at_host)) (fun host =>
      if negb (validUserinfo userinfo) then Err (ErrorString "net/url: invalid userinfo")
      else if negb (strings.ContainsByte userinfo ":") then
        bind (unescape userinfo encodeUserPassword) (fun name =>
        Ok (Some {| username := name; password := ""; passwordSet := false |}, host))
      else
        let '(name, pass, _) := strings.Cut userinfo ":" in
        bind (unescape name encodeUserPassword) (fun name' =>
        bind (unescape pass encodeUserPassword) (fun pass' =>
        Ok (Some {| username := name'; password := pass'; passwordSet := true |}, host))))
  end.

(** [URL.setPath]. *)
Definition setPath (u : URL) (p : string) : result URL :=
  bind (unescape p encodePath) (fun path =>
  Ok (with_path u path (if String.eqb p (escape path encodePath) then "" else p))).

(** [URL.setFragment]. *)
Definition setFragment (u : URL) (f : string) : result URL :=
  bind (unescape f encodeFragment) (fun frag =>
  Ok (with_fragment u frag (if String.eqb f (escape frag encodeFragment) then "" else f))).

Definition validEncoded (s : string) (mode : encoding) : bool :=
  all_bytes (fun c => one_of "!$&'()*+,;=:@[]%" c || negb (shouldEscape c mode)) s.

(** [URL.EscapedPath]. *)
Definition EscapedPath (u : URL) : string :=
  if negb (String.eqb (RawPath u) "") && validEncoded (RawPath u) encodePath
     && match unescape (RawPath u) encodePath with
        | Ok p => String.eqb p (Path u)
        | Err _ => false
        end
  then RawPath u
  else if String.eqb (Path u) "*" then "*"
  else escape (Path u) encodePath.

(** [URL.EscapedFragment]. *)
Definition EscapedFragment (u : URL) : string :=
  if negb (String.eqb (RawFragment u) "") && validEncoded (RawFragment u) encodeFragment
     && match unescape (RawFragment u) encodeFragment with
        | Ok f => String.eqb f (Fragment u)
        | Err _ => false
        end
  then RawFragment u
  else escape (Fragment u) encodeFragment.

Definition drop_last (s : string) : string :=
  String.substring 0 (String.length s - 1) s.

Definition nonempty (s : string) : bool := negb (String.eqb s "").

(** [parse(rawURL, viaRequest)] with [viaRequest = false], the only way
    this code reaches it. *)
Definition parse (rawURL : string) : result URL :=
  if stringContainsCTLByte rawURL
  then Err (ErrorString "net/url: invalid control character in URL")
  else if String.eqb rawURL "*" then Ok (with_path empty "*" "")
  else
    bind (getScheme rawURL) (fun '(sch, rest0) =>
    let scheme := strings.ToLower sch in
    let '(rest, query, force) :=
      if strings.HasSuffixByte rest0 "?" && Nat.eqb (strings.CountByte rest0 "?") 1
      then (drop_last rest0, EmptyString, true)
      else let '(r, q, _) := strings.Cut rest0 "?" in (r, q, false) in
    let base :=
      {| Scheme := scheme; Opaque := ""; User := None; Host := ""; Path := "";
         RawPath := ""; OmitHost := false; ForceQuery := force; RawQuery := query;
         Fragment := ""; RawFragment := "" |} in
    if negb (strings.HasPrefix rest "/") && nonempty scheme then
      Ok {| Scheme := scheme; Opaque := rest; User := None; Host := ""; Path := "";
            RawPath := ""; OmitHost := false; ForceQuery := force; RawQuery := query;
            Fragment := ""; RawFragment := "" |}
    else if negb (strings.HasPrefix rest "/")
            && strings.ContainsByte (fst (strings.break "/" rest)) ":"
    then Err (ErrorString "first path segment in URL cannot contain colon")
    else if (nonempty scheme || negb (strings.HasPrefix rest "///"))
            && strings.HasPrefix rest "//" then
      let '(authority, rest') :=
        strings.break "/" (strings.drop 2 rest) in
      bind (parseAuthority authority) (fun '(user, host) =>
      setPath {| Scheme := scheme; Opaque := ""; User := user; Host := host; Path := "";
                 RawPath := ""; OmitHost := false; ForceQuery := force;
                 RawQuery := query; Fragment := ""; RawFragment := "" |} rest')
    else
      setPath {| Scheme := scheme; Opaque := ""; User := None; Host := ""; Path := "";
                 RawPath := ""; OmitHost := nonempty scheme && strings.HasPrefix rest "/";
                 ForceQuery := force; RawQuery := query;
                 Fragment := ""; RawFragment := "" |} rest).

(** [url.Parse]. *)
Definition Parse (rawURL : string) : result URL :=
  let '(u, frag, _) := strings.Cut rawURL "#" in
  match parse u with
  | Err e => Err (UrlError "parse" u e)
  | Ok parsed =>
      if String.eqb frag "" then Ok parsed
      else match setFragment parsed frag with
           | Err e => Err (UrlError "parse" rawURL e)
           | Ok parsed' => Ok parsed'
           end
  end.

Definition Userinfo_String (ui : Userinfo) : string :=
  escape (username ui) encodeUserPassword
  ++ (if passwordSet ui then ":" ++ escape (password ui) encodeUserPassword else "").

Definition is_some {A : Type} (o : option A) : bool :=
  match o with Some _ => true | None => false end.

(** [URL.String]. The text is built in the order of the source: scheme,
    authority, path, query, fragment. *)
Definition String (u : URL) : string :=
  let buf0 := if nonempty (Scheme u) then Scheme u ++ ":" else "" in
  let buf1 :=
    if nonempty (Opaque u) then buf0 ++ Opaque u
    else
      let auth :=
        if nonempty (Scheme u) || nonempty (Host u) || is_some (User u) then
          if OmitHost u && negb (nonempty (Host u)) && negb (is_some (User u)) then ""
          else
            (if nonempty (Host u) || nonempty (Path u) || is_some (User u) then "//" else "")
            ++ match User u with
               | Some ui => Userinfo_String ui ++ "@"
               | None => ""
               end
            ++ (if nonempty (Host u) then escape (Host u) encodeHost else "")
        else "" in
      let path := EscapedPath u in
      let slash :=
        if nonempty path && negb (strings.HasPrefix path "/") && nonempty (Host u)
        then "/" else "" in
      let buf := buf0 ++ auth ++ slash in
      let dot :=
        if String.eqb buf "" && strings.ContainsByte (fst (strings.break "/" path)) ":"
        then "./" else "" in
      buf ++ dot ++ path in
  let buf2 :=
    if ForceQuery u || nonempty (RawQuery u) then buf1 ++ "?" ++ RawQuery u else buf1 in
  if nonempty (Fragment u) then buf2 ++ "#" ++ EscapedFragment u else buf2.

(** [URL.JoinPath]: the result keeps the old path when [setPath]
    rejects the joined one, whose error the source drops. *)
Definition URL_JoinPath (u : URL) (elem : list string) : URL :=
  let first := EscapedPath u in
  let relative := negb (strings.HasPrefix first "/") in
  (* elem = append([]string{u.EscapedPath()}, elem...), and
     elem[0] = "/" + elem[0] for a relative path *)
  let elem' := (if relative then "/" ++ first else first) :: elem in
  let last_elem := List.last elem' EmptyString in
  let p := if relative then strings.drop 1 (path.Join elem') else path.Join elem' in
  let p' :=
    if strings.HasSuffixByte last_elem "/" && negb (strings.HasSuffixByte p "/")
    then p ++ "/" else p in
  match setPath u p' with
  | Ok u' => u'
  | Err _ => u
  end.

(** [url.JoinPath]: the result string is empty when [base] does not
    parse. *)
Definition JoinPath (base : string) (elem : list string) : string * option error :=
  match Parse base with
  | Err e => (EmptyString, Some e)
  | Ok u => (String (URL_JoinPath u elem), None)
  end.

(** [url.Values]. *)
Definition Values : Type := gmap string (list string).

(** [Values.Add]. *)
Definition Add (v : Values) (key value : string) : Values :=
  <[key := (default [] (v !! key) ++ [value])%list]> v.

Fixpoint insert_sorted (k : string) (ks : list string) : list string :=
  match ks with
  | [] => [k]
  | x :: rest => if String.leb k x then k :: ks else x :: insert_sorted k rest
  end.

(** [sort.Strings]: byte-wise lexicographic order. *)
Definition sort_strings (ks : list string) : list string :=
  fold_right insert_sorted [] ks.

(** [Values.Encode]: the pairs [key=value], escaped, sorted by key and
    joined by [&]. *)
Definition Encode (v : Values) : string :=
  strings.Join
    (flat_map
       (fun k => map (fun x => QueryEscape k ++ "=" ++ QueryEscape x) (default [] (v !! k)))
       (sort_strings (map fst (map_to_list v))))
    "&".

End url.

(** ** Package [context] *)

(** A context, as far as this code observes it: [ctx n] tells whether the
    context is done (canceled, or past its deadline) when the [n]-th
    exchange of the run starts. *)
Definition Context : Type := nat -> bool.

(** [context.Background()]. *)
Definition Background : Context := fun _ => false.

(** ** Package [io] *)

(** An [io.ReadCloser]: the bytes still to be read, and the error that ends
    the stream in the place of [io.EOF], if any. *)
Record Reader : Type := {
  pending : string;
  fault : option error
}.

(** [io.NopCloser(bytes.NewBuffer(b))]. *)
Definition NewBuffer (b : string) : Reader := {| pending := b; fault := None |}.

(** [io.ReadAll]: the bytes read, and the error other than [io.EOF]. *)
Definition ReadAll (src : Reader) : string * option error := (pending src, fault src).

(** Reading [k] bytes off [r]. *)
Definition advance (k : nat) (r : Reader) : Reader :=
  {| pending := strings.drop k (pending r); fault := fault r |}.

(** ** Package [net/http] *)

Module http.

Inductive HeaderField : Type :=
| Authorization (user pass : string)   (* set by SetBasicAuth *)
| ContentType (value : string).

Record Request : Type := {
  Method : string;
  URL : url.URL;
  Header : list HeaderField;
  Body : option Reader;
  GetBody : option (unit -> Reader * option error);
  ContentLength : Z;
  Ctx : Context
}.

(** [StatusCode] and [Body] of [http.Response]. *)
Record Response : Type := {
  StatusCode : Z;
  ResponseBody : Reader
}.

Definition with_body (req : Request) (b : option Reader)
    (g : option (unit -> Reader * option error)) : Request :=
  {| Method := Method req; URL := URL req; Header := Header req; Body := b;
     GetBody := g; ContentLength := ContentLength req; Ctx := Ctx req |}.

Definition add_header (req : Request) (h : HeaderField) : Request :=
  {| Method := Method req; URL := URL req; Header := (Header req ++ [h])%list;
     Body := Body req; GetBody := GetBody req;
     ContentLength := ContentLength req; Ctx := Ctx req |}.

(** [removeEmptyPort]. *)
Definition removeEmptyPort (host : string) : string :=
  if strings.HasSuffixByte host ":" then url.drop_last host else host.

(** [http.NewRequestWithContext(ctx, method, url, body)] for the methods
    GET and POST and a body that is absent or a [*strings.Reader]. *)
Definition NewRequestWithContext (ctx : Context) (method rawurl : string)
    (body : option string) : result Request :=
  match url.Parse rawurl with
  | Err e => Err e
  | Ok u =>
      Ok {| Method := method;
            URL := url.with_host u (removeEmptyPort (url.Host u));
            Header := [];
            Body := option_map NewBuffer body;
            GetBody := option_map (fun b _ => (NewBuffer b, None)) body;
            ContentLength := match body with
                             | Some b => Z.of_nat (String.length b)
                             | None => 0
                             end;
            Ctx := ctx |}
  end.

(** [Request.SetBasicAuth]. *)
Definition SetBasicAuth (req : Request) (user pass : string) : Request :=
  add_header req (Authorization user pass).

(** What one call of [Client.Do] meets: [answer] is what the network and
    the server answer, [bodyRead] the number of bytes of the request body
    that the transport has read by then. *)
Inductive DoResult : Type :=
| DoErr (e : error)
| DoResp (r : Response).

Record Exchange : Type := {
  bodyRead : nat;
  answer : DoResult
}.

(** The network as one run sees it: the outcome of the [n]-th call of
    [Do], given the request it is handed. *)
Definition Transport : Type := nat -> Request -> Exchange.

(** The bytes that [req.Body] still holds. *)
Definition payload (req : Request) : string :=
  match Body req with
  | Some r => pending r
  | None => EmptyString
  end.

Definition consume (k : nat) (req : Request) : Request :=
  with_body req (option_map (advance k) (Body req)) (GetBody req).

(** The [Op] of the [*url.Error] that [Do] returns: [Get], [Post]. *)
Definition urlErrorOp (method : string) : string :=
  match method with
  | EmptyString => EmptyString
  | String c rest => String c (strings.ToLower rest)
  end.

(** The [n]-th call [c.http.Do(req)] of a run. A request whose context is
    done is not sent: [Do] returns the context's error. Otherwise the
    transport reads the body from [req.Body], where the previous reads
    have left it: [Do] calls [GetBody] only to follow a redirect or to
    resend on a connection that failed before use, not at the start of a
    call. *)
Definition Do (t : Transport) (n : nat) (req : Request) : Request * DoResult :=
  if Ctx req n then
    (req, DoErr (UrlError (urlErrorOp (Method req)) (url.String (URL req)) ContextError))
  else
    let x := t n req in
    (consume (bodyRead x) req, answer x).

End http.

(** ** The world of one run *)

(** What a run does to the outside: [EvSend] is the [n]-th call of
    [c.http.Do], with the method, the URL and the bytes that the request
    body holds at the call; [EvLog] is the line that [OnRetry] prints;
    [EvSleep] is [time.Sleep] after attempt [n], for [backoff] plus a
    random time below [jitter]; [EvClose] is [resp.Body.Close()]. *)
Inductive Event : Type :=
| EvSend (n : nat) (method target payload : string)
| EvLog (e : error) (n : nat) (target : string)
| EvSleep (n : nat) (backoff jitter : Z)
| EvClose.

(** [calls] counts the calls of [c.http.Do] so far. *)
Record World : Type := {
  calls : nat;
  trace : list Event
}.

Definition genesis : World := {| calls := 0; trace := [] |}.

Definition emit (ev : Event) (w : World) : World :=
  {| calls := calls w; trace := (trace w ++ [ev])%list |}.

Definition tick (w : World) : World :=
  {| calls := S (calls w); trace := trace w |}.

(** ** Package [github.com/avast/retry-go] (v3.0.0) *)

Module retry.

(** [time.Duration], in nanoseconds. *)
Definition Millisecond : Z := 1000000.
Definition Second : Z := 1000 * Millisecond.

Section Do.

(** The state that the retried function and the callbacks act on. *)
Context {S : Type}.

Record Config : Type := {
  attempts : nat;
  delay : Z;
  maxJitter : Z;
  onRetry : nat -> error -> S -> S;
  lastErrorOnly : bool
}.

Definition Option : Type := Config -> Config.

Definition Attempts (n : nat) : Option := fun c =>
  {| attempts := n; delay := delay c; maxJitter := maxJitter c;
     onRetry := onRetry c; lastErrorOnly := lastErrorOnly c |}.

Definition Delay (d : Z) : Option := fun c =>
  {| attempts := attempts c; delay := d; maxJitter := maxJitter c;
     onRetry := onRetry c; lastErrorOnly := lastErrorOnly c |}.

Definition MaxJitter (d : Z) : Option := fun c =>
  {| attempts := attempts c; delay := delay c; maxJitter := d;
     onRetry := onRetry c; lastErrorOnly := lastErrorOnly c |}.

Definition OnRetry (f : nat -> error -> S -> S) : Option := fun c =>
  {| attempts := attempts c; delay := delay c; maxJitter := maxJitter c;
     onRetry := f; lastErrorOnly := lastErrorOnly c |}.

Definition default_config : Config :=
  {| attempts := 10; delay := 100 * Millisecond; maxJitter := 100 * Millisecond;
     onRetry := fun _ _ s => s; lastErrorOnly := false |}.

(** [IsRecoverable], the default [retryIf]. *)
Definition IsRecoverable (e : error) : bool :=
  match e with
  | Unrecoverable _ => false
  | _ => true
  end.

Definition unpackUnrecoverable (e : error) : error :=
  match e with
  | Unrecoverable inner => inner
  | _ => e
  end.

(** [BackOffDelay]: [config.delay * (1 << n)]. *)
Definition BackOffDelay (n : nat) (c : Config) : Z := delay c * 2 ^ Z.of_nat n.

(** What [Do] returns once the loop is left with the error log. *)
Definition report (c : Config) (errorLog : list (option error)) (lastErrIndex : nat)
    : option error :=
  if lastErrorOnly c then mjoin (errorLog !! lastErrIndex)
  else Some (RetryErrors errorLog).

(** [time.Sleep], acting on the state. *)
Variable sleep : nat -> Z -> Z -> S -> S.

(** The loop [for n < config.attempts] of [Do]; [k] is
    [config.attempts - n]. *)
Fixpoint loop (c : Config) (retryableFunc : S -> S * option error)
    (k n lastErrIndex : nat) (errorLog : list (option error)) (s : S)
    : S * option error :=
  match k with
  | O => (s, report c errorLog lastErrIndex)
  | Datatypes.S k' =>
      let '(s1, r) := retryableFunc s in
      match r with
      | None => (s1, None)
      | Some err =>
          let errorLog' := <[lastErrIndex := Some (unpackUnrecoverable err)]> errorLog in
          if negb (IsRecoverable err) then (s1, report c errorLog' lastErrIndex)
          else
            let s2 := onRetry c n err s1 in
            if Nat.eqb n (attempts c - 1) then (s2, report c errorLog' lastErrIndex)
            else
              let s3 := sleep n (BackOffDelay n c) (maxJitter c) s2 in
              loop c retryableFunc k' (Datatypes.S n)
                (if lastErrorOnly c then lastErrIndex else Datatypes.S n) errorLog' s3
      end
  end.

(** [retry.Do(retryableFunc, opts...)]. *)
Definition Do (retryableFunc : S -> S * option error) (opts : list Option) (s : S)
    : S * option error :=
  let c := fold_left (fun c opt => opt c) opts default_config in
  loop c retryableFunc (attempts c) 0 0
    (replicate (if lastErrorOnly c then 1 else attempts c) None) s.

End Do.

End retry.

(** ** Package [jackett]: data *)

(** Modelled from the spec: the declaration of [Config] (jackett.go) is not
    among the sources; these are the fields of the client configuration of
    the data model, under the names the tests and [http.go] use. *)
Record Config : Type := {
  Host : string;
  APIKey : string;
  DirectMode : bool;
  TLSSkipVerify : bool;
  BasicUser : string;
  BasicPass : string;
  Timeout : Z
}.

(** The fields [cfg] and [http] of [Client]; what [c.log] prints goes to
    the trace of the world. *)
Record Client : Type := {
  cfg : Config;
  transport : http.Transport
}.

(** Modelled from the spec: the declarations of [Indexers] and [Rss]
    (domain.go) are not among the sources. [Indexers] is the list of
    indexer records with id, title and description of the wire protocol;
    [Rss] is the structure that the tests of torznab_test.go build. *)
Module Indexer.
Record t : Type := { ID : string; Title : string; Description : string }.
End Indexer.

Record Indexers : Type := { Indexer : list Indexer.t }.

Module Attr.
Record t : Type := { Text : string; Name : string; Value : string }.
End Attr.

Module Enclosure.
Record t : Type := { Text : string; URL : string; Length : string; Type_ : string }.
Definition zero : t := {| Text := ""; URL := ""; Length := ""; Type_ := "" |}.
End Enclosure.

Module Jackettindexer.
Record t : Type := { Text : string; ID : string }.
Definition zero : t := {| Text := ""; ID := "" |}.
End Jackettindexer.

Module Item.
Record t : Type := {
  Text : string;
  Title : string;
  Guid : string;
  Jackettindexer : Jackettindexer.t;
  Type_ : string;
  Comments : string;
  PubDate : string;
  Size : string;
  Files : string;
  Grabs : string;
  Description : string;
  Link : string;
  Category : list string;
  Enclosure : Enclosure.t;
  Attr : list Attr.t
}.
End Item.

Module Link.
Record t : Type := { Text : string; Href : string; Rel : string; Type_ : string }.
Definition zero : t := {| Text := ""; Href := ""; Rel := ""; Type_ := "" |}.
End Link.

Module Channel.
Record t : Type := {
  Text : string;
  Link : Link.t;
  Title : string;
  Description : string;
  Language : string;
  Category : string;
  Item : list Item.t
}.
Definition zero : t :=
  {| Text := ""; Link := Link.zero; Title := ""; Description := "";
     Language := ""; Category := ""; Item := [] |}.
End Channel.

Record Rss : Type := { Channel : Channel.t }.

(** The zero values of [var ind Indexers] and [var rss Rss]. *)
Definition Indexers_zero : Indexers := {| Indexer := [] |}.
Definition Rss_zero : Rss := {| Channel := Channel.zero |}.

(** Package [encoding/xml], as this code uses it:
    [xml.NewDecoder(body).Decode(&v)] reads the document from [body] and
    writes into the value [v] that it is given; it returns that value as it
    has left it, and its error. *)
Record XML : Type := {
  DecodeIndexers : Reader -> Indexers -> Indexers * option error;
  DecodeRss : Reader -> Rss -> Rss * option error
}.

(** A [map[string]string] is nil or a reference into the store of maps. *)
Definition loc : Type := positive.

Record Machine : Type := {
  store : gmap positive (gmap string string);
  world : World
}.

Definition with_world (m : Machine) (w : World) : Machine :=
  {| store := store m; world := w |}.

(** The entries that [range opts] visits: none for the nil map. *)
Definition entries (st : gmap positive (gmap string string)) (opts : option loc)
    : gmap string string :=
  match opts with
  | None => ∅
  | Some l => default ∅ (st !! l)
  end.

(** The assignment [opts[key] = value]: it updates the map that [opts]
    refers to, and panics on the nil map. *)
Definition assign (opts : option loc) (key value : string)
    (st : gmap positive (gmap string string))
    : outcome (gmap positive (gmap string string)) :=
  match opts with
  | None => Panic "assignment to entry in nil map"
  | Some l => Ret (<[l := <[key := value]> (default ∅ (st !! l))]> st)
  end.

(** ** http.go *)

Definition apiBase : string := "/api/v2.0/indexers/".

Definition buildUrl (c : Client) (endpoint : string) (params : gmap string string)
    : outcome string :=
  (* add query params *)
  let queryParams := map_fold (fun key value acc => url.Add acc key value) ∅ params in
  let '(joinedUrl, _) := url.JoinPath (Host (cfg c)) [apiBase; endpoint] in
  match url.Parse joinedUrl with
  | Err _ => Panic "invalid memory address or nil pointer dereference"
  | Ok parsedUrl =>
      (* make into new string and return *)
      Ret (url.String (url.with_query parsedUrl (url.Encode queryParams)))
  end.

Definition copyBody (src : Reader) : string * option error :=
  let '(b, err) := ReadAll src in
  match err with
  | Some e => (EmptyString, Some e)
  | None => (b, None)
  end.

Definition resetBody (request : http.Request) (originalBody : string) : http.Request :=
  http.with_body request (Some (NewBuffer originalBody))
    (Some (fun _ => (NewBuffer originalBody, None))).

(** The variables that the function retried by [retryDo] captures, and the
    world. *)
Record Frame : Type := {
  req : http.Request;
  resp : option http.Response;
  err : option error;
  world_of : World
}.

(** The function literal that [retryDo] hands to [retry.Do]. *)
Definition attempt (c : Client) (f : Frame) : Frame * option error :=
  let n := calls (world_of f) in
  let w := tick (emit (EvSend n (http.Method (req f)) (url.String (http.URL (req f)))
                         (http.payload (req f))) (world_of f)) in
  let '(req', r) := http.Do (transport c) n (req f) in
  match r with
  | http.DoResp rp =>
      let f' := {| req := req'; resp := Some rp; err := None; world_of := w |} in
      if (http.StatusCode rp <? 500)%Z then (f', None)
      else if (http.StatusCode rp >=? 500)%Z
      then (f', Some (Unrecoverable (StatusError (http.StatusCode rp))))
      else
        (* retry.Delay(time.Second * 3) builds an option and drops it *)
        (f', None)
  | http.DoErr e =>
      (* retry.Delay(time.Second * 3) builds an option and drops it *)
      ({| req := req'; resp := None; err := Some e; world_of := w |}, Some e)
  end.

Definition logRetry (n : nat) (e : error) (f : Frame) : Frame :=
  {| req := req f; resp := resp f; err := err f;
     world_of := emit (EvLog e n (url.String (http.URL (req f)))) (world_of f) |}.

Definition sleepFrame (n : nat) (backoff jitter : Z) (f : Frame) : Frame :=
  {| req := req f; resp := resp f; err := err f;
     world_of := emit (EvSleep n backoff jitter) (world_of f) |}.

(** [retryDo] does not read its parameter [ctx]; the context acts through
    the request only. The request is a pointer: its final state is returned
    too. *)
Definition retryDo (c : Client) (ctx : Context) (request : http.Request) (w : World)
    : http.Request * World * (option http.Response * option error) :=
  let '(request1, err0) :=
    match http.Body request with
    | Some body =>
        let '(originalBody, e) := copyBody body in
        (resetBody request originalBody, e)
    | None => (request, None)
    end in
  match err0 with
  | Some e => (request1, w, (None, Some e))
  | None =>
      (* try request and if fail run 10 retries *)
      let '(f, e) :=
        retry.Do sleepFrame (attempt c)
          [retry.OnRetry logRetry; retry.Attempts 5; retry.MaxJitter (retry.Second * 1)]
          {| req := request1; resp := None; err := None; world_of := w |} in
      match e with
      | Some e' => (req f, world_of f, (None, Some (Wrapped "error making request" e')))
      | None => (req f, world_of f, (resp f, None))
      end
  end.

Definition withBasicAuth (c : Client) (request : http.Request) : http.Request :=
  if url.nonempty (BasicUser (cfg c)) && url.nonempty (BasicPass (cfg c))
  then http.SetBasicAuth request (BasicUser (cfg c)) (BasicPass (cfg c))
  else request.

Definition getRawCtx (c : Client) (ctx : Context) (reqUrl : string) (w : World)
    : World * (option http.Response * option error) :=
  match http.NewRequestWithContext ctx "GET" reqUrl None with
  | Err e => (w, (None, Some (Wrapped "could not build request" e)))
  | Ok request =>
      (* try request and if fail run 10 retries *)
      let '(_, w', (r, e)) := retryDo c ctx (withBasicAuth c request) w in
      match e with
      | Some e' => (w', (None, Some (Wrapped ("error making get request: " ++ reqUrl) e')))
      | None => (w', (r, None))
      end
  end.

Definition getCtx (c : Client) (ctx : Context) (endpoint : string)
    (opts : gmap string string) (w : World)
    : outcome (World * (option http.Response * option error)) :=
  match buildUrl c endpoint opts with
  | Panic msg => Panic msg
  | Ret reqUrl => Ret (getRawCtx c ctx reqUrl w)
  end.

Definition postCtx (c : Client) (ctx : Context) (endpoint : string)
    (opts : gmap string string) (w : World)
    : outcome (World * (option http.Response * option error)) :=
  (* add optional parameters that the user wants *)
  let form := map_fold (fun k v acc => url.Add acc k v) ∅ opts in
  match buildUrl c endpoint ∅ with
  | Panic msg => Panic msg
  | Ret reqUrl =>
      match http.NewRequestWithContext ctx "POST" reqUrl (Some (url.Encode form)) with
      | Err e => Ret (w, (None, Some (Wrapped "could not build request" e)))
      | Ok request =>
          (* add the content-type so qbittorrent knows what to expect *)
          let request' :=
            http.add_header (withBasicAuth c request)
              (http.ContentType "application/x-www-form-urlencoded") in
          (* try request and if fail run 10 retries *)
          let '(_, w', (r, e)) := retryDo c ctx request' w in
          match e with
          | Some e' =>
              Ret (w', (None, Some (Wrapped ("error making post request: " ++ reqUrl) e')))
          | None => Ret (w', (r, None))
          end
      end
  end.

(** [postBasicCtx] builds the request of [postCtx] and sends it once, with
    [c.http.Do] itself: there is no retry and no look at the status. *)
Definition postBasicCtx (c : Client) (ctx : Context) (endpoint : string)
    (opts : gmap string string) (w : World)
    : outcome (World * (option http.Response * option error)) :=
  (* add optional parameters that the user wants *)
  let form := map_fold (fun k v acc => url.Add acc k v) ∅ opts in
  match buildUrl c endpoint ∅ with
  | Panic msg => Panic msg
  | Ret reqUrl =>
      match http.NewRequestWithContext ctx "POST" reqUrl (Some (url.Encode form)) with
      | Err e => Ret (w, (None, Some (Wrapped "could not build request" e)))
      | Ok request =>
          (* add the content-type so qbittorrent knows what to expect *)
          let request' :=
            http.add_header (withBasicAuth c request)
              (http.ContentType "application/x-www-form-urlencoded") in
          let n := calls w in
          let w' := tick (emit (EvSend n (http.Method request')
                                  (url.String (http.URL request')) (http.payload request')) w) in
          match snd (http.Do (transport c) n request') with
          | http.DoErr e =>
              Ret (w', (None, Some (Wrapped ("error making post request: " ++ reqUrl) e)))
          | http.DoResp rp => Ret (w', (Some rp, None))
          end
      end
  end.

(** One call [SetCookies(u, cookies)] that a cookie jar receives; [jarURL]
    is [None] for the nil URL. *)
Record JarCall (Cookie : Type) : Type := {
  jarURL : option url.URL;
  jarCookies : list Cookie
}.
Arguments jarURL {Cookie} _.
Arguments jarCookies {Cookie} _.

(** [setCookies]: [jar] is the field [c.http.Jar], [None] for the nil
    interface, else the calls that the jar has received so far. The error
    of [url.Parse] is dropped: the jar is handed the nil URL then. *)
Definition setCookies {Cookie : Type} (c : Client) (jar : option (list (JarCall Cookie)))
    (cookies : list Cookie) : outcome (list (JarCall Cookie)) :=
  match buildUrl c "/" ∅ with
  | Panic msg => Panic msg
  | Ret text =>
      let cookieURL := match url.Parse text with
                       | Ok u => Some u
                       | Err _ => None
                       end in
      match jar with
      | None => Panic "invalid memory address or nil pointer dereference"
      | Some received =>
          Ret (received ++ [{| jarURL := cookieURL; jarCookies := cookies |}])%list
      end
  end.

(** ** methods.go *)

(** [body.Peek(0)] on a fresh [bufio.Reader]: no byte is asked for, none is
    read, and the error is nil. *)
Definition Peek0 (body : Reader) : string * option error := (EmptyString, None).

(** The map [opts] that [GetIndexersCtx] builds; it stays local to the
    call. *)
Definition indexersOptions (c : Client) : gmap string string :=
  let opts : gmap string string := <["t" := "indexers"]> (<["configured" := "true"]> ∅) in
  if url.nonempty (APIKey (cfg c)) then <["apikey" := APIKey (cfg c)]> opts else opts.

(** The methods act on the machine, store and world, and end in a return
    or in a panic; the machine is given as the call leaves it either way. *)
Definition GetIndexersCtx (x : XML) (c : Client) (ctx : Context) (m : Machine)
    : Machine * outcome (Indexers * option error) :=
  let opts := indexersOptions c in
  let ind := Indexers_zero in
  match getCtx c ctx "all/results/torznab/api" opts (world m) with
  | Panic msg => (m, Panic msg)
  | Ret (w, (_, Some e)) => (with_world m w, Ret (ind, Some (Wrapped "all endpoint error" e)))
  | Ret (w, (None, None)) =>
      (with_world m w, Panic "invalid memory address or nil pointer dereference")
  | Ret (w, (Some r, None)) =>
      (* defer resp.Body.Close() *)
      let m' := with_world m (emit EvClose w) in
      match snd (Peek0 (http.ResponseBody r)) with
      | Some e => (m', Ret (ind, Some (Wrapped "unable to read body" e)))
      | None => (m', Ret (DecodeIndexers x (http.ResponseBody r) ind))
      end
  end.

Definition GetIndexers (x : XML) (c : Client) (m : Machine)
    : Machine * outcome (Indexers * option error) :=
  GetIndexersCtx x c Background m.

Definition GetTorrentsCtx (x : XML) (c : Client) (ctx : Context) (indexer : string)
    (opts : option loc) (m : Machine)
    : Machine * outcome (Rss * option error) :=
  match (if url.nonempty (APIKey (cfg c))
         then assign opts "apikey" (APIKey (cfg c)) (store m)
         else Ret (store m)) with
  | Panic msg => (m, Panic msg)
  | Ret st =>
      let rss := Rss_zero in
      match getCtx c ctx (indexer ++ "/results/torznab/api") (entries st opts) (world m) with
      | Panic msg => ({| store := st; world := world m |}, Panic msg)
      | Ret (w, (_, Some e)) =>
          ({| store := st; world := w |},
           Ret (rss, Some (Wrapped (indexer ++ " endpoint error") e)))
      | Ret (w, (None, None)) =>
          ({| store := st; world := w |},
           Panic "invalid memory address or nil pointer dereference")
      | Ret (w, (Some r, None)) =>
          (* defer resp.Body.Close() *)
          let m' := {| store := st; world := emit EvClose w |} in
          match snd (Peek0 (http.ResponseBody r)) with
          | Some e => (m', Ret (rss, Some (Wrapped "unable to read body" e)))
          | None => (m', Ret (DecodeRss x (http.ResponseBody r) rss))
          end
      end
  end.

Definition GetTorrents (x : XML) (c : Client) (indexer : string) (opts : option loc)
    (m : Machine) : Machine * outcome (Rss * option error) :=
  GetTorrentsCtx x c Background indexer opts m.

(** [GetEnclosureCtx] requests the URL it is given, as it is, and returns
    what [io.ReadAll] reads of the body; the byte slice is [None] for nil. *)
Definition GetEnclosureCtx (c : Client) (ctx : Context) (enclosure : string) (m : Machine)
    : Machine * outcome (option string * option error) :=
  match getRawCtx c ctx enclosure (world m) with
  | (w, (_, Some e)) => (with_world m w, Ret (None, Some (Wrapped enclosure e)))
  | (w, (None, None)) =>
      (with_world m w, Panic "invalid memory address or nil pointer dereference")
  | (w, (Some r, None)) =>
      (* defer resp.Body.Close() *)
      let '(b, e) := ReadAll (http.ResponseBody r) in
      (with_world m (emit EvClose w), Ret (Some b, e))
  end.

Definition GetEnclosure (c : Client) (enclosure : string) (m : Machine)
    : Machine * outcome (option string * option error) :=
  GetEnclosureCtx c Background enclosure m.

(** The second text of methods.go among the sources reads the body whole
    and decodes the bytes: [io.ReadAll], then [xml.Unmarshal], which is
    [NewDecoder(bytes.NewReader(data)).Decode(v)]. *)
Module whole_body.

Definition GetIndexersCtx (x : XML) (c : Client) (ctx : Context) (m : Machine)
    : Machine * outcome (Indexers * option error) :=
  let opts := indexersOptions c in
  let ind := Indexers_zero in
  match getCtx c ctx "all/results/torznab/api" opts (world m) with
  | Panic msg => (m, Panic msg)
  | Ret (w, (_, Some e)) => (with_world m w, Ret (ind, Some (Wrapped "all endpoint error" e)))
  | Ret (w, (None, None)) =>
      (with_world m w, Panic "invalid memory address or nil pointer dereference")
  | Ret (w, (Some r, None)) =>
      (* defer resp.Body.Close() *)
      let m' := with_world m (emit EvClose w) in
      match ReadAll (http.ResponseBody r) with
      | (_, Some e) => (m', Ret (ind, Some e))
      | (bodyBytes, None) => (m', Ret (DecodeIndexers x (NewBuffer bodyBytes) ind))
      end
  end.

Definition GetTorrentsCtx (x : XML) (c : Client) (ctx : Context) (indexer : string)
    (opts : option loc) (m : Machine)
    : Machine * outcome (Rss * option error) :=
  match (if url.nonempty (APIKey (cfg c))
         then assign opts "apikey" (APIKey (cfg c)) (store m)
         else Ret (store m)) with
  | Panic msg => (m, Panic msg)
  | Ret st =>
      let rss := Rss_zero in
      match getCtx c ctx (indexer ++ "/results/torznab/api") (entries st opts) (world m) with
      | Panic msg => ({| store := st; world := world m |}, Panic msg)
      | Ret (w, (_, Some e)) =>
          ({| store := st; world := w |},
           Ret (rss, Some (Wrapped (indexer ++ " endpoint error") e)))
      | Ret (w, (None, None)) =>
          ({| store := st; world := w |},
           Panic "invalid memory address or nil pointer dereference")
      | Ret (w, (Some r, None)) =>
          (* defer resp.Body.Close() *)
          let m' := {| store := st; world := emit EvClose w |} in
          match ReadAll (http.ResponseBody r) with
          | (_, Some e) => (m', Ret (rss, Some e))
          | (bodyBytes, None) => (m', Ret (DecodeRss x (NewBuffer bodyBytes) rss))
          end
      end
  end.

End whole_body.

(** ** The attribute extraction model (torznab.go) *)

Module torznab.

(** Modelled from the spec: torznab.go, which declares [TorznabItem],
    [ToTorznabItems] and the accessors, is not among the sources (its
    tests are). The typed item view is a read-only wrapper around one raw
    item and its attribute index; the field [Attributes] has the name and
    the type that the tests use. *)
Record TorznabItem : Type := {
  raw : Item.t;
  Attributes : gmap string (list string)
}.

Definition index_step (idx : gmap string (list string)) (a : Attr.t)
    : gmap string (list string) :=
  <[Attr.Name a := (default [] (idx !! Attr.Name a) ++ [Attr.Value a])%list]> idx.

(** Modelled from the spec: the attribute index, a mapping from attribute
    name to the ordered sequence of its values, built once from the
    attribute list of the raw item; the values of a name keep wire order. *)
Definition AttributeIndex (attrs : list Attr.t) : gmap string (list string) :=
  fold_left index_step attrs ∅.

(** Modelled from the spec: the wrapper of one raw item. *)
Definition NewTorznabItem (it : Item.t) : TorznabItem :=
  {| raw := it; Attributes := AttributeIndex (Item.Attr it) |}.

(** Modelled from the spec: each decoded item is wrapped. *)
Definition ToTorznabItems (r : Rss) : list TorznabItem :=
  map NewTorznabItem (Channel.Item (Channel r)).

(** Modelled from the spec: every value of an attribute, in wire order;
    the empty sequence if there is none. *)
Definition GetAttrValues (t : TorznabItem) (name : string) : list string :=
  default [] (Attributes t !! name).

(** The first value of an attribute, if the attribute is present. *)
Definition first_value (t : TorznabItem) (name : string) : option string :=
  head (GetAttrValues t name).

(** Modelled from the spec: the first value, the empty string on absence. *)
Definition GetAttr (t : TorznabItem) (name : string) : string :=
  default EmptyString (first_value t name).

Fixpoint digits_value (acc : Z) (s : string) : option Z :=
  match s with
  | EmptyString => Some acc
  | String c rest =>
      if is_digit c
      then digits_value (acc * 10 + Z.of_N (byte_of c - 48)) rest
      else None
  end.

(** [strconv.ParseInt(s, 10, 64)], which [strconv.Atoi] agrees with on a
    64-bit platform: an optional sign and decimal digits, within the
    range of [int64]. *)
Definition ParseInt (s : string) : option Z :=
  let '(neg, body) :=
    match s with
    | String c rest =>
        if Ascii.eqb c "+" then (false, rest)
        else if Ascii.eqb c "-" then (true, rest)
        else (false, s)
    | EmptyString => (false, s)
    end in
  if String.eqb body "" then None
  else match digits_value 0 body with
       | None => None
       | Some v =>
           let v' := (if neg then - v else v)%Z in
           if ((- 2 ^ 63 <=? v') && (v' <? 2 ^ 63))%Z then Some v' else None
       end.

(** Modelled from the spec: an integer accessor looks up the first value
    and parses it; on absence or on parse failure it returns zero. *)
Definition GetAttrInt (t : TorznabItem) (name : string) : Z :=
  match first_value t name with
  | Some v => default 0%Z (ParseInt v)
  | None => 0%Z
  end.

(** Modelled from the spec: the same rule for 64-bit integers. *)
Definition GetAttrInt64 (t : TorznabItem) (name : string) : Z := GetAttrInt t name.

(** Go's [int] addition, which wraps around at 64 bits. *)
Definition add_int (a b : Z) : Z := ((a + b + 2 ^ 63) mod 2 ^ 64 - 2 ^ 63)%Z.

(** Modelled from the spec: seeders and leechers are integer accessors. *)
Definition Seeders (t : TorznabItem) : Z := GetAttrInt t "seeders".
Definition Leechers (t : TorznabItem) : Z := GetAttrInt t "leechers".

(** Modelled from the spec: if a [peers] attribute is present, use it;
    otherwise the sum of seeders and leechers. *)
Definition Peers (t : TorznabItem) : Z :=
  match first_value t "peers" with
  | Some _ => GetAttrInt t "peers"
  | None => add_int (Seeders t) (Leechers t)
  end.

(** Modelled from the spec: every value of the [tag] attribute, in wire
    order. *)
Definition Tags (t : TorznabItem) : list string := GetAttrValues t "tag".

(** Modelled from the spec: the values of the [category] attribute if there
    are any, else the RSS-level category list of the raw item; the two are
    never merged. *)
Definition Categories (t : TorznabItem) : list string :=
  match GetAttrValues t "category" with
  | [] => Item.Category (raw t)
  | cats => cats
  end.

Section Floats.

(** [strconv.ParseFloat(s, 64)]: the value, or [None] for an error. *)
Variable ParseFloat : string -> option float.

(** Modelled from the spec: a float accessor looks up the first value and
    parses it; on absence or on parse failure it returns 0.0. *)
Definition GetAttrFloat (t : TorznabItem) (name : string) : float :=
  match first_value t name with
  | Some v => default 0%float (ParseFloat v)
  | None => 0%float
  end.

(** Modelled from the spec: absence of a volume factor attribute defaults
    to 1.0, not zero. *)
Definition volume_factor (t : TorznabItem) (name : string) : float :=
  match first_value t name with
  | Some _ => GetAttrFloat t name
  | None => 1%float
  end.

Definition DownloadVolumeFactor (t : TorznabItem) : float :=
  volume_factor t "downloadvolumefactor".

Definition UploadVolumeFactor (t : TorznabItem) : float :=
  volume_factor t "uploadvolumefactor".

End Floats.

End torznab.


(** ** Plain hosts and path elements *)

(** A byte that stands for itself in a path element: [escape] leaves it
    alone in a path, and it is not the slash. These are the letters, the
    digits and [-_.~$&+,:;=@]. *)
Definition element_byte (c : ascii) : bool :=
  negb (url.shouldEscape c url.encodePath) && negb (Ascii.eqb c "/").

(** A path element that [path.Clean] keeps: not empty, not [.] and not
    [..], made of element bytes. *)
Definition plain_element (s : string) : bool :=
  url.nonempty s && all_bytes element_byte s
  && negb (String.eqb s ".") && negb (String.eqb s "..").

(** A byte of a host name. *)
Definition name_byte (c : ascii) : bool := is_alnum c || one_of "-." c.

(** A byte that [escape] leaves alone in a path: an element byte or the
    slash. *)
Definition path_byte (c : ascii) : bool := negb (url.shouldEscape c url.encodePath).

(** A byte of [name] or [name:port]. *)
Definition authority_byte (c : ascii) : bool := name_byte c || Ascii.eqb c ":".

(** What lies between two slashes of a joined path: nothing, or a plain
    element. *)
Definition token (s : string) : bool := String.eqb s "" || plain_element s.

(** The elements of [apiBase]. *)
Definition apiElements : list string := ["api"; "v2.0"; "indexers"].

(** A host of the form [scheme://name], [scheme://name:port] or either
    with a path of plain elements behind it. *)
Record PlainHost : Type := {
  scheme : string;
  name : string;
  port : string;
  segments : list string
}.

Definition plain (h : PlainHost) : bool :=
  url.nonempty (scheme h) && all_bytes is_lower (scheme h)
  && url.nonempty (name h) && all_bytes name_byte (name h)
  && all_bytes is_digit (port h)
  && forallb plain_element (segments h).

Definition port_suffix (p : string) : string :=
  if url.nonempty p then ":" ++ p else "".

(** The elements, each behind a slash. *)
Fixpoint path_of (elems : list string) : string :=
  match elems with
  | [] => ""
  | e :: rest => "/" ++ e ++ path_of rest
  end.

Definition authority_of (h : PlainHost) : string := name h ++ port_suffix (port h).

Definition host_of (h : PlainHost) : string :=
  scheme h ++ "://" ++ authority_of h ++ path_of (segments h).

(** The query string that [buildUrl] makes of the parameters. *)
Definition query_of (params : gmap string string) : string :=
  url.Encode (map_fold (fun key value acc => url.Add acc key value) ∅ params).

(** The query as [URL.String] writes it behind the path. *)
Definition query_suffix (q : string) : string :=
  if url.nonempty q then "?" ++ q else "".

(** The URL that [url.Parse] makes of a plain host, with path [p]. *)
Definition plain_url (h : PlainHost) (p : string) : url.URL :=
  {| url.Scheme := scheme h; url.Opaque := ""; url.User := None;
     url.Host := authority_of h; url.Path := p; url.RawPath := "";
     url.OmitHost := false; url.ForceQuery := false; url.RawQuery := "";
     url.Fragment := ""; url.RawFragment := "" |}.

(** The text of a plain host up to its path. *)
Definition origin_of (h : PlainHost) : string := scheme h ++ "://" ++ authority_of h.

(** The slash that [URL.JoinPath] keeps at the end of the path when the
    last element ends in one. *)
Definition trailing_slash (endpoint : string) : string :=
  if strings.HasSuffixByte endpoint "/" then "/" else "".

(** The keys of the parameters in the order of [Values.Encode]. *)
Definition sorted_keys (params : gmap string string) : list string :=
  url.sort_strings (map fst (map_to_list params)).

(** One parameter as [Values.Encode] writes it. *)
Definition pair_text (key value : string) : string :=
  url.QueryEscape key ++ "=" ++ url.QueryEscape value.

(** A byte that [QueryEscape] can write: an unreserved byte, the percent
    sign of an escape, or the plus sign that stands for a space. *)
Definition escaped_byte (c : ascii) : bool := is_alnum c || one_of "-_.~%+" c.

(** A byte of a query: a byte of an escaped key or value, or one of the
    two separators. *)
Definition query_byte (c : ascii) : bool := escaped_byte c || one_of "=&" c.

(** The query of [GetIndexersCtx]. *)
Definition indexersQuery (c : Client) : string :=
  (if url.nonempty (APIKey (cfg c))
   then "apikey=" ++ url.QueryEscape (APIKey (cfg c)) ++ "&" else "")
  ++ "configured=true&t=indexers".

(** The request that [postCtx] and [postBasicCtx] build for a plain host
    and an endpoint of the elements [es]. *)
Definition formRequest (c : Client) (ctx : Context) (h : PlainHost) (es : list string)
    (opts : gmap string string) : http.Request :=
  http.add_header
    (withBasicAuth c
       {| http.Method := "POST";
          http.URL := url.with_query
                        (plain_url h (path_of (segments h) ++ apiBase ++ strings.Join es "/")) "";
          http.Header := [];
          http.Body := Some (NewBuffer (query_of opts));
          http.GetBody := Some (fun _ => (NewBuffer (query_of opts), None));
          http.ContentLength := Z.of_nat (String.length (query_of opts));
          http.Ctx := ctx |})
    (http.ContentType "application/x-www-form-urlencoded").

(** ** Observations on a run *)

Definition is_send (ev : Event) : bool :=
  match ev with EvSend _ _ _ _ => true | _ => false end.

Definition is_sleep (ev : Event) : bool :=
  match ev with EvSleep _ _ _ => true | _ => false end.

(** The number of attempts, that is of calls of [c.http.Do], on a trace. *)
Definition attempts_of (tr : list Event) : nat := length (List.filter is_send tr).


(** The request bodies that the attempts of a trace could read, in order. *)
Definition payloads_of (tr : list Event) : list string :=
  flat_map (fun ev => match ev with EvSend _ _ _ p => [p] | _ => [] end) tr.


(** The configuration that [retryDo] runs [retry.Do] with. *)
Definition retryConfig : @retry.Config Frame :=
  {| retry.attempts := 5;
     retry.delay := 100 * retry.Millisecond;
     retry.maxJitter := retry.Second * 1;
     retry.onRetry := logRetry;
     retry.lastErrorOnly := false |}.

(** A request body that [io.ReadAll] reads to its end. *)
Definition readable (request : http.Request) : Prop :=
  forall b, http.Body request = Some b -> fault b = None.

(** The request as [retryDo] leaves it before the first attempt. *)
Definition prepared (request : http.Request) : http.Request :=
  match http.Body request with
  | Some body => resetBody request (fst (copyBody body))
  | None => request
  end.

(** The delays of [retryDo] after the attempts [n], [n + 1], ..., [k] of
    them: the back-off doubles from 100 ms, the jitter stays below 1 s. *)
Definition backoffs (n k : nat) : list Event :=
  map (fun i => EvSleep i (100 * retry.Millisecond * 2 ^ Z.of_nat i) (retry.Second * 1))
    (seq n k).

(** The error log of [retry.Do] after [n] failed attempts with the errors
    [errs 0], ..., [errs (n - 1)]: one slot per attempt, five slots. *)
Definition errorLog (errs : nat -> error) (n : nat) : list (option error) :=
  (map (fun i => Some (errs i)) (seq 0 n) ++ replicate (5 - n) None)%list.

(** The error of a call that was answered with a status from 500 on. *)
Definition statusFailure (code : Z) : error :=
  Wrapped "error making request"
    (RetryErrors [Some (StatusError code); None; None; None; None]).

(** An event of a call that sends the request [rq]: an attempt carries its
    method and its URL, and an empty body if the request has none; a log
    line names its URL. The call closes nothing. *)
Definition about (rq : http.Request) (ev : Event) : Prop :=
  match ev with
  | EvSend _ method target body =>
      method = http.Method rq /\ target = url.String (http.URL rq)
      /\ (http.Body rq = None -> body = "")
  | EvLog _ _ target => target = url.String (http.URL rq)
  | EvSleep _ _ _ => True
  | EvClose => False
  end.

(** An attempt with the request line [method target]. *)
Definition request_line (method target : string) (ev : Event) : Prop :=
  match ev with
  | EvSend _ m t _ => m = method /\ t = target
  | _ => True
  end.

(** An attempt that has no request body to send. *)
Definition without_body (ev : Event) : Prop :=
  match ev with
  | EvSend _ _ _ body => body = ""
  | _ => True
  end.

(** The world after one GET of [target]. *)
Definition fetched (target : string) (w : World) : World :=
  tick (emit (EvSend (calls w) "GET" target "") w).

(** The world after one attempt to post the form [opts] to the endpoint of
    the elements [es]. *)
Definition posted (h : PlainHost) (es : list string) (opts : gmap string string) (w : World)
    : World :=
  tick (emit (EvSend (calls w) "POST" (host_of h ++ apiBase ++ strings.Join es "/")
                (query_of opts)) w).

(** What a call hands back: a response and no error, or an error and no
    response. *)
Definition response_or_error (r : option http.Response * option error) : Prop :=
  match r with
  | (Some _, None) | (None, Some _) => True
  | _ => False
  end.

(** The response that a frame holds is an answer of the transport. *)
Definition answered_by (c : Client) (f : Frame) : Prop :=
  forall rp, resp f = Some rp ->
    exists n rq, http.answer (transport c n rq) = http.DoResp rp.

(** The header field is the [Authorization] of [user] and [pass]. *)
Definition is_auth (user pass : string) (hf : http.HeaderField) : bool :=
  match hf with
  | http.Authorization u p => String.eqb u user && String.eqb p pass
  | http.ContentType _ => false
  end.


(** The header holds the credentials [user], [pass]. *)
Definition with_credentials (user pass : string) (hs : list http.HeaderField) : bool :=
  existsb (is_auth user pass) hs.


(** A server behind a check of the request header: it answers 401 to a
    request whose header fails [check], and as [t] does to any other. *)
Definition guarded (check : list http.HeaderField -> bool) (t : http.Transport)
    : http.Transport :=
  fun n rq =>
    if check (http.Header rq) then t n rq
    else {| http.bodyRead := 0;
            http.answer := http.DoResp {| http.StatusCode := 401;
                                          http.ResponseBody := NewBuffer "" |} |}.

(** The client [c] with its server behind [check]. *)
Definition behind (check : list http.HeaderField -> bool) (c : Client) : Client :=
  {| cfg := cfg c; transport := guarded check (transport c) |}.

(** ** Sample clients, servers and requests *)

Definition sampleConfig (host key : string) (direct : bool) : Config :=
  {| Host := host; APIKey := key; DirectMode := direct; TLSSkipVerify := false;
     BasicUser := ""; BasicPass := ""; Timeout := 60 |}.

Definition reply (code : Z) (body : string) : http.Exchange :=
  {| http.bodyRead := 0;
     http.answer := http.DoResp {| http.StatusCode := code; http.ResponseBody := NewBuffer body |} |}.

(** A server that answers 503 to the first two requests and 200 from the
    third on (TestRetryOn5xxError). *)
Definition flakyServer : http.Transport :=
  fun n _ => if Nat.ltb n 2 then reply 503 "" else reply 200 "<rss></rss>".

(** A server that answers 404 to every request. *)
Definition notFoundServer : http.Transport := fun _ _ => reply 404 "".

(** A connection that takes the request body whole and then breaks. *)
Definition brokenPipe : http.Transport :=
  fun _ request =>
    {| http.bodyRead := String.length (http.payload request);
       http.answer := http.DoErr (ErrorString "connection reset by peer") |}.


Definition sampleClient (host : string) (direct : bool) (t : http.Transport) : Client :=
  {| cfg := sampleConfig host "test-key" direct; transport := t |}.

Definition sampleRequest (ctx : Context) : http.Request :=
  {| http.Method := "GET";
     http.URL :=
       {| url.Scheme := "http"; url.Opaque := ""; url.User := None;
          url.Host := "localhost:9117";
          url.Path := "/api/v2.0/indexers/all/results/torznab/api";
          url.RawPath := ""; url.OmitHost := false; url.ForceQuery := false;
          url.RawQuery := "t=search"; url.Fragment := ""; url.RawFragment := "" |};
     http.Header := [];
     http.Body := None;
     http.GetBody := None;
     http.ContentLength := 0;
     http.Ctx := ctx |}.

(** A server that answers 200 with the given document. *)
Definition documentServer (doc : string) : http.Transport := fun _ _ => reply 200 doc.

(** Two documents that end in the middle of their second element. *)
Definition truncatedIndexers : string :=
  "<indexers><indexer id='a'><title>A</title></indexer><indexer id='b'".

Definition truncatedRss : string :=
  "<rss><channel><item><title>Ubuntu</title></item><item><title>Deb".

Definition firstIndexer : Indexer.t :=
  {| Indexer.ID := "a"; Indexer.Title := "A"; Indexer.Description := "" |}.

Definition firstItem : Item.t :=
  {| Item.Text := ""; Item.Title := "Ubuntu"; Item.Guid := "";
     Item.Jackettindexer := Jackettindexer.zero; Item.Type_ := ""; Item.Comments := "";
     Item.PubDate := ""; Item.Size := ""; Item.Files := ""; Item.Grabs := "";
     Item.Description := ""; Item.Link := ""; Item.Category := [];
     Item.Enclosure := Enclosure.zero; Item.Attr := [] |}.

Definition add_item (r : Rss) (it : Item.t) : Rss :=
  let ch := Channel r in
  {| Channel :=
       {| Channel.Text := Channel.Text ch; Channel.Link := Channel.Link ch;
          Channel.Title := Channel.Title ch; Channel.Description := Channel.Description ch;
          Channel.Language := Channel.Language ch; Channel.Category := Channel.Category ch;
          Channel.Item := (Channel.Item ch ++ [it])%list |} |}.

(** What [encoding/xml] makes of the two truncated documents: the element
    that is complete is appended to the value, the element that breaks off
    is not, and the error is the syntax error at the end of the input. On
    any other input this table reports the end of the input and leaves the
    value alone, as the decoder does on an empty body. *)
Definition sampleXML : XML :=
  {| DecodeIndexers := fun body ind =>
       if String.eqb (pending body) truncatedIndexers
       then ({| Indexer := (Indexer ind ++ [firstIndexer])%list |},
             Some (ErrorString "XML syntax error on line 1: unexpected EOF"))
       else (ind, Some (ErrorString "EOF"));
     DecodeRss := fun body r =>
       if String.eqb (pending body) truncatedRss
       then (add_item r firstItem,
             Some (ErrorString "XML syntax error on line 1: unexpected EOF"))
       else (r, Some (ErrorString "EOF")) |}.

(** A machine whose store holds the caller's options at location 1. *)
Definition sampleMachine (opts : gmap string string) : Machine :=
  {| store := {[ 1%positive := opts ]}; world := genesis |}.

(** The item of TestTorznabItemDefaults: a title, one RSS-level category,
    no extension attribute. *)
Definition plainItem : Item.t :=
  {| Item.Text := ""; Item.Title := "Test Item"; Item.Guid := "";
     Item.Jackettindexer := Jackettindexer.zero; Item.Type_ := ""; Item.Comments := "";
     Item.PubDate := ""; Item.Size := ""; Item.Files := ""; Item.Grabs := "";
     Item.Description := ""; Item.Link := ""; Item.Category := ["5000"];
     Item.Enclosure := Enclosure.zero; Item.Attr := [] |}.

Definition plainRss : Rss := add_item Rss_zero plainItem.

Definition attr (name value : string) : Attr.t :=
  {| Attr.Text := ""; Attr.Name := name; Attr.Value := value |}.

(** An item with the given RSS-level categories and extension attributes. *)
Definition itemWith (categories : list string) (attrs : list Attr.t) : Item.t :=
  {| Item.Text := ""; Item.Title := "Test"; Item.Guid := "";
     Item.Jackettindexer := Jackettindexer.zero; Item.Type_ := ""; Item.Comments := "";
     Item.PubDate := ""; Item.Size := ""; Item.Files := ""; Item.Grabs := "";
     Item.Description := ""; Item.Link := ""; Item.Category := categories;
     Item.Enclosure := Enclosure.zero; Item.Attr := attrs |}.

(** A connection that breaks on the first [n] requests; from then on the
    server answers with the status [code]. *)
Definition dropsThenAnswers (n : nat) (code : Z) : http.Transport :=
  fun i _ =>
    if Nat.ltb i n
    then {| http.bodyRead := 0;
            http.answer := http.DoErr (ErrorString "connection reset by peer") |}
    else reply code "".

(** A server that answers every request with [rp], and a connection that
    fails every request with [e]. *)
Definition answers (rp : http.Response) : http.Transport :=
  fun _ _ => {| http.bodyRead := 0; http.answer := http.DoResp rp |}.

Definition refuses (e : error) : http.Transport :=
  fun _ _ => {| http.bodyRead := 0; http.answer := http.DoErr e |}.

Definition notFound : http.Response :=
  {| http.StatusCode := 404; http.ResponseBody := NewBuffer "not found" |}.

Definition unavailable : http.Response :=
  {| http.StatusCode := 503; http.ResponseBody := NewBuffer "" |}.


(** A request body that fails while it is read. *)
Definition brokenUpload : Reader :=
  {| pending := "q=ub"; fault := Some (ErrorString "unexpected EOF") |}.

Definition uploadRequest (body : Reader) : http.Request :=
  http.with_body (sampleRequest Background) (Some body) None.

Definition localhost : PlainHost :=
  {| scheme := "http"; name := "localhost"; port := "9117"; segments := [] |}.

Definition behindProxy : PlainHost :=
  {| scheme := "https"; name := "example.org"; port := ""; segments := ["jackett"] |}.

(** A client with the credentials of basic authentication, and a client
    without an API key. *)
Definition authClient (user pass : string) (t : http.Transport) : Client :=
  {| cfg := {| Host := "http://localhost:9117"; APIKey := "test-key"; DirectMode := false;
               TLSSkipVerify := false; BasicUser := user; BasicPass := pass; Timeout := 60 |};
     transport := t |}.

Definition keyless (t : http.Transport) : Client :=
  {| cfg := sampleConfig "http://localhost:9117" "" false; transport := t |}.

(** * Properties of the transport *)

Lemma retry_options :
  fold_left (fun c (opt : @retry.Option Frame) => opt c)
    [retry.OnRetry logRetry; retry.Attempts 5; retry.MaxJitter (retry.Second * 1)]
    retry.default_config = retryConfig.
Proof. reflexivity. Qed.

Lemma prepared_ctx request : http.Ctx (prepared request) = http.Ctx request.
Proof. unfold prepared. destruct (http.Body request); reflexivity. Qed.

Lemma prepared_url request : http.URL (prepared request) = http.URL request.
Proof. unfold prepared. destruct (http.Body request); reflexivity. Qed.

Lemma prepared_method request : http.Method (prepared request) = http.Method request.
Proof. unfold prepared. destruct (http.Body request); reflexivity. Qed.

(** [retryDo] on a readable body is the retry loop on the prepared
    request. *)
Lemma retryDo_unfold c ctx request w :
  readable request ->
  retryDo c ctx request w =
    let '(f, e) :=
      retry.loop sleepFrame retryConfig (attempt c) 5 0 0 (replicate 5 None)
        {| req := prepared request; resp := None; err := None; world_of := w |} in
    match e with
    | Some e' => (req f, world_of f, (None, Some (Wrapped "error making request" e')))
    | None => (req f, world_of f, (resp f, None))
    end.
Proof.
  intros Hr. unfold retryDo, prepared, readable in *.
  destruct (http.Body request) as [b|] eqn:Hb.
  - specialize (Hr b eq_refl). unfold copyBody, ReadAll. rewrite Hr. reflexivity.
  - reflexivity.
Qed.

(** An unreadable body ends [retryDo] before any attempt. *)
Lemma retryDo_unreadable c ctx request w b e :
  http.Body request = Some b -> fault b = Some e ->
  retryDo c ctx request w = (resetBody request "", w, (None, Some e)).
Proof.
  intros Hb Hf. unfold retryDo, copyBody, ReadAll. rewrite Hb, Hf. reflexivity.
Qed.

Lemma Do_ctx t n rq : http.Ctx (fst (http.Do t n rq)) = http.Ctx rq.
Proof. unfold http.Do. destruct (http.Ctx rq n); reflexivity. Qed.

Lemma Do_url t n rq : http.URL (fst (http.Do t n rq)) = http.URL rq.
Proof. unfold http.Do. destruct (http.Ctx rq n); reflexivity. Qed.

Lemma Do_method t n rq : http.Method (fst (http.Do t n rq)) = http.Method rq.
Proof. unfold http.Do. destruct (http.Ctx rq n); reflexivity. Qed.


Definition sent (f : Frame) : World :=
  tick (emit (EvSend (calls (world_of f)) (http.Method (req f))
                (url.String (http.URL (req f))) (http.payload (req f))) (world_of f)).

Lemma attempt_below_500 c f rq' rp :
  http.Do (transport c) (calls (world_of f)) (req f) = (rq', http.DoResp rp) ->
  (http.StatusCode rp < 500)%Z ->
  attempt c f = ({| req := rq'; resp := Some rp; err := None; world_of := sent f |}, None).
Proof.
  intros HD Hs. unfold attempt. rewrite HD.
  destruct (Z.ltb_spec (http.StatusCode rp) 500); [reflexivity | lia].
Qed.

Lemma attempt_from_500 c f rq' rp :
  http.Do (transport c) (calls (world_of f)) (req f) = (rq', http.DoResp rp) ->
  (500 <= http.StatusCode rp)%Z ->
  attempt c f = ({| req := rq'; resp := Some rp; err := None; world_of := sent f |},
                 Some (Unrecoverable (StatusError (http.StatusCode rp)))).
Proof.
  intros HD Hs. unfold attempt. rewrite HD.
  destruct (Z.ltb_spec (http.StatusCode rp) 500); [lia |].
  destruct (Z.geb_spec (http.StatusCode rp) 500); [reflexivity | lia].
Qed.

Lemma attempt_error c f rq' e :
  http.Do (transport c) (calls (world_of f)) (req f) = (rq', http.DoErr e) ->
  attempt c f = ({| req := rq'; resp := None; err := Some e; world_of := sent f |}, Some e).
Proof. intros HD. unfold attempt. rewrite HD. reflexivity. Qed.

Lemma attempts_of_app tr1 tr2 : attempts_of (tr1 ++ tr2) = attempts_of tr1 + attempts_of tr2.
Proof. unfold attempts_of. rewrite List.filter_app, length_app. reflexivity. Qed.


(** *** The four ways through one round of the retry loop *)

Lemma loop_done c f f' k n idx log :
  attempt c f = (f', None) ->
  retry.loop sleepFrame retryConfig (attempt c) (S k) n idx log f = (f', None).
Proof. intros H. cbn [retry.loop]. rewrite H. reflexivity. Qed.

Lemma loop_unrecoverable c f f' e k n idx log :
  attempt c f = (f', Some (Unrecoverable e)) ->
  retry.loop sleepFrame retryConfig (attempt c) (S k) n idx log f =
    (f', Some (RetryErrors (<[idx := Some e]> log))).
Proof. intros H. cbn [retry.loop]. rewrite H. reflexivity. Qed.

Lemma unpack_recoverable e :
  retry.IsRecoverable e = true -> retry.unpackUnrecoverable e = e.
Proof. destruct e; cbn; congruence. Qed.

Lemma loop_last c f f' e k idx log :
  attempt c f = (f', Some e) -> retry.IsRecoverable e = true ->
  retry.loop sleepFrame retryConfig (attempt c) (S k) 4 idx log f =
    (logRetry 4 e f', Some (RetryErrors (<[idx := Some e]> log))).
Proof.
  intros H Hr. cbn [retry.loop]. rewrite H, Hr, (unpack_recoverable e Hr). reflexivity.
Qed.

Lemma loop_again c f f' e k n idx log :
  attempt c f = (f', Some e) -> retry.IsRecoverable e = true -> n <> 4 ->
  retry.loop sleepFrame retryConfig (attempt c) (S k) n idx log f =
    retry.loop sleepFrame retryConfig (attempt c) k (S n) (S n) (<[idx := Some e]> log)
      (sleepFrame n (retry.BackOffDelay n retryConfig) (retry.Second * 1) (logRetry n e f')).
Proof.
  intros H Hr Hn. cbn [retry.loop]. rewrite H, Hr, (unpack_recoverable e Hr).
  cbn [negb retry.onRetry retry.attempts retryConfig retry.lastErrorOnly retry.maxJitter].
  destruct (Nat.eqb_spec n (5 - 1)) as [E|E]; [cbn in E; lia | reflexivity].
Qed.

(** An attempt hands the request on with its context, and counts one call. *)
Lemma attempt_ctx c f : http.Ctx (req (fst (attempt c f))) = http.Ctx (req f).
Proof.
  unfold attempt.
  pose proof (Do_ctx (transport c) (calls (world_of f)) (req f)) as H.
  destruct (http.Do (transport c) (calls (world_of f)) (req f)) as [rq' [e|rp]]; cbn in *.
  - exact H.
  - destruct (http.StatusCode rp <? 500)%Z; [exact H|].
    destruct (http.StatusCode rp >=? 500)%Z; exact H.
Qed.

Lemma attempt_calls c f : calls (world_of (fst (attempt c f))) = S (calls (world_of f)).
Proof.
  unfold attempt.
  destruct (http.Do (transport c) (calls (world_of f)) (req f)) as [rq' [e|rp]]; cbn.
  - reflexivity.
  - destruct (http.StatusCode rp <? 500)%Z; [reflexivity|].
    destruct (http.StatusCode rp >=? 500)%Z; reflexivity.
Qed.

(** After [j] attempts that fail in the transport, an answer below 500 ends
    the loop with that answer, at the attempt that received it. *)
Lemma loop_answer_below_500 c ctx0 rp :
  (http.StatusCode rp < 500)%Z ->
  forall j k n log f base,
    n + k = 5 -> j < k ->
    http.Ctx (req f) = ctx0 -> calls (world_of f) = base ->
    (forall i rq, i < j -> http.Ctx rq = ctx0 ->
       exists e, snd (http.Do (transport c) (base + i) rq) = http.DoErr e
                 /\ retry.IsRecoverable e = true) ->
    (forall rq, http.Ctx rq = ctx0 ->
       snd (http.Do (transport c) (base + j) rq) = http.DoResp rp) ->
    exists f',
      retry.loop sleepFrame retryConfig (attempt c) k n n log f = (f', None)
      /\ resp f' = Some rp
      /\ calls (world_of f') = base + j + 1.
Proof.
  intros Hs. induction j as [|j IH]; intros k n log f base Hk Hj Hctx Hcalls Hfail Hok.
  - destruct k as [|k]; [lia|].
    specialize (Hok (req f) Hctx). rewrite Nat.add_0_r, <- Hcalls in Hok.
    destruct (http.Do (transport c) (calls (world_of f)) (req f)) as [rq' r] eqn:HD.
    cbn in Hok. subst r.
    eexists. split; [apply loop_done; apply (attempt_below_500 _ _ _ _ HD Hs)|].
    split; [reflexivity|]. cbn. lia.
  - destruct k as [|k]; [lia|].
    destruct (Hfail 0 (req f)) as (e & He & Hrec); [lia | exact Hctx |].
    rewrite Nat.add_0_r, <- Hcalls in He.
    destruct (http.Do (transport c) (calls (world_of f)) (req f)) as [rq' r] eqn:HD.
    cbn in He. subst r.
    pose proof (attempt_error _ _ _ _ HD) as Ha.
    rewrite (loop_again _ _ _ _ _ _ _ _ Ha Hrec) by lia.
    destruct (IH k (S n) (<[n := Some e]> log)
                (sleepFrame n (retry.BackOffDelay n retryConfig) (retry.Second * 1)
                   (logRetry n e {| req := rq'; resp := None; err := Some e; world_of := sent f |}))
                (S base))
      as (f' & Hl & Hr & Hc).
    + lia.
    + lia.
    + cbn. pose proof (Do_ctx (transport c) (calls (world_of f)) (req f)) as H.
      rewrite HD in H. cbn in H. congruence.
    + cbn. congruence.
    + intros i rq Hi Hrq. destruct (Hfail (S i) rq) as (e' & He' & Hrec'); [lia | exact Hrq |].
      exists e'. split; [|exact Hrec'].
      rewrite <- He'. f_equal. f_equal. lia.
    + intros rq Hrq. rewrite <- (Hok rq Hrq). f_equal. f_equal. lia.
    + exists f'. split; [exact Hl|]. split; [exact Hr|]. rewrite Hc. lia.
Qed.

(** C5. A response with a status code below 500 completes the call: when
    the attempts before it have failed in the transport and attempt [n + 1]
    (within the five) receives the response [rp], [retryDo] returns [rp]
    with a nil error and has made exactly [n + 1] calls of [Do]; with
    [n = 0], a 404 is returned by the first attempt. *)
Theorem retryDo_below_500_completes c ctx request w n rp :
  readable request ->
  n < 5 ->
  (http.StatusCode rp < 500)%Z ->
  (forall i rq, i < n -> http.Ctx rq = http.Ctx request ->
     exists e, snd (http.Do (transport c) (calls w + i) rq) = http.DoErr e
               /\ retry.IsRecoverable e = true) ->
  (forall rq, http.Ctx rq = http.Ctx request ->
     snd (http.Do (transport c) (calls w + n) rq) = http.DoResp rp) ->
  exists rq' w',
    retryDo c ctx request w = (rq', w', (Some rp, None))
    /\ calls w' = calls w + n + 1.
Proof.
  intros Hread Hn Hs Hfail Hok.
  rewrite (retryDo_unfold _ _ _ _ Hread).
  destruct (loop_answer_below_500 c (http.Ctx request) rp Hs n 5 0 (replicate 5 None)
              {| req := prepared request; resp := None; err := None; world_of := w |} (calls w))
    as (f' & Hl & Hr & Hc); try lia; try reflexivity; try assumption.
  - apply prepared_ctx.
  - rewrite Hl. exists (req f'), (world_of f'). rewrite Hr. split; [reflexivity | exact Hc].
Qed.

(** C5, at a sample: the 404 of [notFoundServer] is returned by the first
    attempt. *)
Lemma retryDo_below_500_completes_witness :
  exists rq' w',
    retryDo (sampleClient "http://localhost:9117" false notFoundServer) Background
      (sampleRequest Background) genesis
    = (rq', w', (Some {| http.StatusCode := 404; http.ResponseBody := NewBuffer "" |}, None))
    /\ calls w' = 1.
Proof.
  apply (retryDo_below_500_completes
           (sampleClient "http://localhost:9117" false notFoundServer) Background
           (sampleRequest Background) genesis 0
           {| http.StatusCode := 404; http.ResponseBody := NewBuffer "" |}).
  - intros b Hb. discriminate Hb.
  - lia.
  - cbn. lia.
  - intros i rq Hi. lia.
  - intros rq Hrq. unfold http.Do. rewrite Hrq. reflexivity.
Defined.

(** *** Server errors *)

(** A first answer of 500 or above ends [retryDo] at once: the function
    retried marks it unrecoverable. *)
Lemma retryDo_from_500_fails_fast c ctx request w rp :
  readable request ->
  (500 <= http.StatusCode rp)%Z ->
  snd (http.Do (transport c) (calls w) (prepared request)) = http.DoResp rp ->
  exists rq' w',
    retryDo c ctx request w =
      (rq', w',
       (None, Some (Wrapped "error making request"
                      (RetryErrors [Some (StatusError (http.StatusCode rp)); None; None; None; None]))))
    /\ calls w' = calls w + 1.
Proof.
  intros Hread Hs HD. rewrite (retryDo_unfold _ _ _ _ Hread).
  destruct (http.Do (transport c) (calls w) (prepared request)) as [rq' r] eqn:HD'.
  cbn in HD. subst r.
  pose proof (attempt_from_500 c
                {| req := prepared request; resp := None; err := None; world_of := w |}
                rq' rp HD' Hs) as Ha.
  rewrite (loop_unrecoverable _ _ _ _ 4 0 0 (replicate 5 None) Ha).
  eexists _, _. split; [reflexivity|]. cbn. lia.
Qed.

(** C1, at the failing input: against the server of TestRetryOn5xxError
    (503, 503, then 200) [retryDo] makes one attempt and returns no
    response, with the error of the first 503; a search through
    [GetTorrents] fails likewise after one attempt. *)
Theorem retryDo_503_not_retried :
  (exists rq' w',
     retryDo (sampleClient "http://localhost:9117" false flakyServer) Background
       (sampleRequest Background) genesis
     = (rq', w',
        (None, Some (Wrapped "error making request"
                       (RetryErrors [Some (StatusError 503); None; None; None; None]))))
     /\ attempts_of (trace w') = 1)
  /\ (exists m' e,
        GetTorrents sampleXML (sampleClient "http://localhost:9117" false flakyServer)
          "all" (Some 1%positive) (sampleMachine {[ "t" := "search" ]})
        = (m', Ret (Rss_zero, Some e))
        /\ attempts_of (trace (world m')) = 1).
Proof.
  split.
  - eexists _, _. split; [vm_compute; reflexivity | reflexivity].
  - eexists _, _. split; vm_compute; reflexivity.
Qed.

(** *** Replay of the request body *)

(** The first attempt can read the whole of the body that the request came
    with. *)
Lemma prepared_payload request b :
  http.Body request = Some b -> fault b = None ->
  http.payload (prepared request) = pending b.
Proof.
  intros Hb Hf. unfold prepared, copyBody, ReadAll. rewrite Hb, Hf. reflexivity.
Qed.

(** A call of [Do] leaves in the body what the transport has not read. *)
Lemma Do_payload t n rq :
  http.Ctx rq n = false ->
  http.payload (fst (http.Do t n rq))
  = strings.drop (http.bodyRead (t n rq)) (http.payload rq).
Proof.
  intros H. unfold http.Do, http.payload. rewrite H. cbn.
  destruct (http.Body rq); [reflexivity|]. cbn.
  destruct (http.bodyRead (t n rq)); reflexivity.
Qed.

(** The function retried hands the request on as [Do] has left it: nothing
    in it rebuilds the body. *)
Lemma attempt_request c f :
  req (fst (attempt c f)) = fst (http.Do (transport c) (calls (world_of f)) (req f)).
Proof.
  unfold attempt.
  destruct (http.Do (transport c) (calls (world_of f)) (req f)) as [rq' [e|rp]]; cbn.
  - reflexivity.
  - destruct (http.StatusCode rp <? 500)%Z; [reflexivity|].
    destruct (http.StatusCode rp >=? 500)%Z; reflexivity.
Qed.

(** C3, at the failing input: a POST of the form [q=ubuntu] over a
    connection that reads the body and then breaks. The body is rebuilt
    once, before the loop: the first attempt carries the form, and each of
    the four retries finds the body at its end, with nothing of the form
    left to send. *)
Theorem postCtx_retries_carry_drained_body :
  exists w' e,
    postCtx (sampleClient "http://localhost:9117" false brokenPipe) Background
      "all/results/torznab/api" (<["q" := "ubuntu"]> ∅) genesis
    = Ret (w', (None, Some e))
    /\ payloads_of (trace w') = ["q=ubuntu"; ""; ""; ""; ""].
Proof. eexists _, _. split; vm_compute; reflexivity. Qed.

(** *** Cancellation *)





(** * Properties of the methods *)

Lemma nonempty_true s : s <> "" -> url.nonempty s = true.
Proof.
  intros H. unfold url.nonempty. destruct (String.eqb_spec s ""); [contradiction | reflexivity].
Qed.

(** The assignment [opts["apikey"] = c.cfg.APIKey] is the first statement
    of [GetTorrentsCtx]: on the nil map it panics. *)
Lemma GetTorrentsCtx_nil_opts_panics x c ctx indexer m :
  APIKey (cfg c) <> "" ->
  GetTorrentsCtx x c ctx indexer None m = (m, Panic "assignment to entry in nil map").
Proof.
  intros Hk. unfold GetTorrentsCtx. rewrite (nonempty_true _ Hk). reflexivity.
Qed.

Lemma GetTorrentsCtx_store x c ctx indexer opts m st :
  (if url.nonempty (APIKey (cfg c))
   then assign opts "apikey" (APIKey (cfg c)) (store m)
   else Ret (store m)) = Ret st ->
  store (fst (GetTorrentsCtx x c ctx indexer opts m)) = st.
Proof.
  intros H. unfold GetTorrentsCtx. rewrite H.
  destruct (getCtx c ctx (indexer ++ "/results/torznab/api") (entries st opts) (world m))
    as [[w [[r|] [e|]]]|msg]; reflexivity.
Qed.






(** * Properties of the attribute extraction model *)

Lemma no_attributes_first_value it name :
  Item.Attr it = [] -> torznab.first_value (torznab.NewTorznabItem it) name = None.
Proof.
  intros H. unfold torznab.first_value, torznab.GetAttrValues, torznab.NewTorznabItem.
  cbn. rewrite H. cbn. rewrite lookup_empty. reflexivity.
Qed.

(** C8. The view that [ToTorznabItems] makes of an item without extension
    attributes has no seeders, leechers or peers, volume factors 1.0, no
    tags, and the categories of the RSS item. *)
Theorem defaults_without_attributes (ParseFloat : string -> option float) r i it :
  Channel.Item (Channel r) !! i = Some it ->
  Item.Attr it = [] ->
  exists t,
    torznab.ToTorznabItems r !! i = Some t
    /\ torznab.Seeders t = 0%Z
    /\ torznab.Leechers t = 0%Z
    /\ torznab.Peers t = 0%Z
    /\ torznab.DownloadVolumeFactor ParseFloat t = 1%float
    /\ torznab.UploadVolumeFactor ParseFloat t = 1%float
    /\ torznab.Tags t = []
    /\ torznab.Categories t = Item.Category it.
Proof.
  intros Hi Ha. exists (torznab.NewTorznabItem it).
  split.
  { unfold torznab.ToTorznabItems.
    change (map torznab.NewTorznabItem (Channel.Item (Channel r)))
      with (torznab.NewTorznabItem <$> Channel.Item (Channel r)).
    rewrite list_lookup_fmap, Hi. reflexivity. }
  pose proof (fun name => no_attributes_first_value it name Ha) as Hf.
  assert (forall name, torznab.GetAttrValues (torznab.NewTorznabItem it) name = []) as Hv.
  { intros name. unfold torznab.GetAttrValues, torznab.NewTorznabItem. cbn.
    rewrite Ha. cbn. rewrite lookup_empty. reflexivity. }
  unfold torznab.Peers, torznab.Seeders, torznab.Leechers, torznab.GetAttrInt,
    torznab.DownloadVolumeFactor, torznab.UploadVolumeFactor, torznab.volume_factor,
    torznab.Tags, torznab.Categories.
  rewrite !Hf, !Hv. cbn. repeat split; reflexivity.
Qed.

(** C8, at a sample: the item of TestTorznabItemDefaults. *)
Lemma defaults_without_attributes_witness :
  exists t,
    torznab.ToTorznabItems plainRss !! 0 = Some t
    /\ torznab.Seeders t = 0%Z
    /\ torznab.Leechers t = 0%Z
    /\ torznab.Peers t = 0%Z
    /\ torznab.DownloadVolumeFactor (fun _ => None) t = 1%float
    /\ torznab.UploadVolumeFactor (fun _ => None) t = 1%float
    /\ torznab.Tags t = []
    /\ torznab.Categories t = ["5000"].
Proof.
  apply (defaults_without_attributes (fun _ => None) plainRss 0 plainItem);
    reflexivity.
Defined.

(** * Properties of the address resolver *)

(** ** Strings *)

Lemma app_assoc_s (a b c : string) : (a ++ b) ++ c = a ++ (b ++ c).
Proof. induction a as [|x a IH]; cbn; [reflexivity | rewrite IH; reflexivity]. Qed.

Lemma app_nil_r_s (a : string) : a ++ "" = a.
Proof. induction a as [|x a IH]; cbn; [reflexivity | rewrite IH; reflexivity]. Qed.

Lemma all_bytes_app p a b : all_bytes p (a ++ b) = all_bytes p a && all_bytes p b.
Proof.
  induction a as [|x a IH]; cbn; [reflexivity|]. rewrite IH. apply andb_assoc.
Qed.

Lemma any_byte_app p a b : any_byte p (a ++ b) = any_byte p a || any_byte p b.
Proof.
  induction a as [|x a IH]; cbn; [reflexivity|]. rewrite IH. apply orb_assoc.
Qed.

Lemma all_bytes_impl (p q : ascii -> bool) s :
  (forall c, p c = true -> q c = true) -> all_bytes p s = true -> all_bytes q s = true.
Proof.
  intros Hpq. induction s as [|x s IH]; cbn; [reflexivity|].
  intros [Hx Hs]%andb_prop. rewrite (Hpq _ Hx), (IH Hs). reflexivity.
Qed.

Lemma all_bytes_none (p q : ascii -> bool) s :
  (forall c, p c = true -> q c = false) -> all_bytes p s = true -> any_byte q s = false.
Proof.
  intros Hpq. induction s as [|x s IH]; cbn; [reflexivity|].
  intros [Hx Hs]%andb_prop. rewrite (Hpq _ Hx), (IH Hs). reflexivity.
Qed.

Lemma map_bytes_id (p : ascii -> bool) f s :
  (forall c, p c = true -> f c = String c "") ->
  all_bytes p s = true -> map_bytes f s = s.
Proof.
  intros Hf. induction s as [|x s IH]; cbn; [reflexivity|].
  intros [Hx Hs]%andb_prop. rewrite (Hf _ Hx), (IH Hs). reflexivity.
Qed.

(** A string without the byte [c] breaks at the start of what follows it,
    when that is empty or starts with [c]. *)
Lemma break_app c a b :
  any_byte (Ascii.eqb c) a = false ->
  (b = "" \/ exists b', b = String c b') ->
  strings.break c (a ++ b) = (a, b).
Proof.
  intros Ha Hb. induction a as [|x a IH]; cbn.
  - destruct Hb as [->|[b' ->]]; cbn; [reflexivity|].
    rewrite Ascii.eqb_refl. reflexivity.
  - cbn in Ha. apply orb_false_elim in Ha as [Hx Ha].
    rewrite Ascii.eqb_sym, Hx, (IH Ha). reflexivity.
Qed.

Lemma break_none c a :
  any_byte (Ascii.eqb c) a = false -> strings.break c a = (a, "").
Proof.
  intros Ha. rewrite <- (app_nil_r_s a) at 1. apply break_app; auto.
Qed.

Lemma Cut_none c s :
  any_byte (Ascii.eqb c) s = false -> strings.Cut s c = (s, "", false).
Proof. intros H. unfold strings.Cut. rewrite (break_none _ _ H). reflexivity. Qed.

Lemma rbreak_none c s :
  any_byte (Ascii.eqb c) s = false -> strings.rbreak c s = None.
Proof.
  induction s as [|x s IH]; cbn; [reflexivity|].
  intros [Hx Hs]%orb_false_elim. rewrite (IH Hs), Ascii.eqb_sym, Hx. reflexivity.
Qed.

Lemma rbreak_app c a b :
  any_byte (Ascii.eqb c) b = false ->
  strings.rbreak c (a ++ String c b) = Some (a, String c b).
Proof.
  intros Hb. induction a as [|x a IH]; cbn.
  - rewrite (rbreak_none _ _ Hb), Ascii.eqb_refl. reflexivity.
  - cbn in IH. rewrite IH. reflexivity.
Qed.

Lemma HasSuffixByte_none c s :
  any_byte (Ascii.eqb c) s = false -> strings.HasSuffixByte s c = false.
Proof.
  unfold strings.HasSuffixByte.
  induction s as [|x s IH]; cbn; [reflexivity|].
  intros [Hx Hs]%orb_false_elim. destruct s as [|y s].
  - rewrite Ascii.eqb_sym. exact Hx.
  - apply IH, Hs.
Qed.

Lemma ToLower_lower s : all_bytes is_lower s = true -> strings.ToLower s = s.
Proof.
  induction s as [|x s IH]; cbn; [reflexivity|].
  intros [Hx Hs]%andb_prop. rewrite (IH Hs). f_equal.
  unfold strings.lower_byte.
  destruct (is_upper x) eqn:Hu; [|reflexivity].
  exfalso. revert Hx Hu. unfold is_lower, is_upper, between, byte_of.
  destruct x as [[] [] [] [] [] [] [] []]; vm_compute; congruence.
Qed.

Lemma nonempty_cons c s : url.nonempty (String c s) = true.
Proof. reflexivity. Qed.

Lemma nonempty_inv s : url.nonempty s = true -> exists c s', s = String c s'.
Proof. destruct s as [|c s]; [discriminate | eauto]. Qed.

(** ** Byte classes *)

Ltac by_bytes c :=
  destruct c as [[] [] [] [] [] [] [] []]; vm_compute; intuition congruence.

Lemma lower_path_byte c : is_lower c = true -> path_byte c = true.
Proof. by_bytes c. Qed.

Lemma digit_name_byte c : is_digit c = true -> name_byte c = true.
Proof. by_bytes c. Qed.

Lemma name_authority_byte c : name_byte c = true -> authority_byte c = true.
Proof. unfold authority_byte. intros ->. reflexivity. Qed.

Lemma authority_path_byte c : authority_byte c = true -> path_byte c = true.
Proof. by_bytes c. Qed.

Lemma element_path_byte c : element_byte c = true -> path_byte c = true.
Proof. by_bytes c. Qed.

Lemma element_not_slash c : element_byte c = true -> Ascii.eqb "/" c = false.
Proof. by_bytes c. Qed.

Lemma authority_not_slash c : authority_byte c = true -> Ascii.eqb "/" c = false.
Proof. by_bytes c. Qed.

Lemma authority_not_at c : authority_byte c = true -> Ascii.eqb "@" c = false.
Proof. by_bytes c. Qed.

Lemma name_not_colon c : name_byte c = true -> Ascii.eqb ":" c = false.
Proof. by_bytes c. Qed.

Lemma digit_not_colon c : is_digit c = true -> Ascii.eqb ":" c = false.
Proof. by_bytes c. Qed.

Lemma name_not_bracket c : name_byte c = true -> Ascii.eqb c "[" = false.
Proof. by_bytes c. Qed.

Lemma lower_not_star c : is_lower c = true -> c <> "*"%char.
Proof. by_bytes c. Qed.

Lemma path_byte_not_ctl c :
  path_byte c = true -> ((byte_of c <? 32)%N || (byte_of c =? 127)%N) = false.
Proof. by_bytes c. Qed.

Lemma path_byte_not_hash c : path_byte c = true -> Ascii.eqb "#" c = false.
Proof. by_bytes c. Qed.

Lemma path_byte_not_question c : path_byte c = true -> Ascii.eqb "?" c = false.
Proof. by_bytes c. Qed.

Lemma path_byte_not_percent c : path_byte c = true -> Ascii.eqb c "%" = false.
Proof. by_bytes c. Qed.

Lemma path_byte_escape c : path_byte c = true -> url.escape_byte url.encodePath c = String c "".
Proof.
  unfold path_byte, url.escape_byte. intros H.
  destruct (url.shouldEscape c url.encodePath); [discriminate | reflexivity].
Qed.

Lemma authority_byte_not_percent c : authority_byte c = true -> Ascii.eqb c "%" = false.
Proof. by_bytes c. Qed.

Lemma authority_byte_host c :
  authority_byte c = true -> url.shouldEscape c url.encodeHost = false.
Proof. by_bytes c. Qed.

Lemma authority_byte_escape c :
  authority_byte c = true -> url.escape_byte url.encodeHost c = String c "".
Proof.
  intros H. unfold url.escape_byte. rewrite (authority_byte_host _ H). reflexivity.
Qed.

(** ** Escaping *)

Lemma unescape_path_id p :
  all_bytes path_byte p = true -> url.unescape p url.encodePath = Ok p.
Proof.
  induction p as [|c p IH]; cbn [all_bytes url.unescape]; [reflexivity|].
  intros [Hc Hp]%andb_prop.
  rewrite (path_byte_not_percent _ Hc), (IH Hp). cbn.
  destruct (Ascii.eqb c "+"); reflexivity.
Qed.

Lemma escape_path_id p :
  all_bytes path_byte p = true -> url.escape p url.encodePath = p.
Proof. apply map_bytes_id. apply path_byte_escape. Qed.

Lemma unescape_host_id a :
  all_bytes authority_byte a = true -> url.unescape a url.encodeHost = Ok a.
Proof.
  induction a as [|c a IH]; cbn [all_bytes url.unescape]; [reflexivity|].
  intros [Hc Ha]%andb_prop.
  rewrite (authority_byte_not_percent _ Hc), (IH Ha), (authority_byte_host _ Hc). cbn.
  rewrite andb_false_r.
  destruct (Ascii.eqb c "+"); reflexivity.
Qed.

Lemma escape_host_id a :
  all_bytes authority_byte a = true -> url.escape a url.encodeHost = a.
Proof. apply map_bytes_id. apply authority_byte_escape. Qed.

Lemma setPath_plain u p :
  all_bytes path_byte p = true -> url.setPath u p = Ok (url.with_path u p "").
Proof.
  intros Hp. unfold url.setPath. rewrite (unescape_path_id _ Hp). cbn.
  rewrite (escape_path_id _ Hp), String.eqb_refl. reflexivity.
Qed.

(** ** The scheme *)

Lemma scan_scheme_lower s r :
  all_bytes is_lower s = true ->
  url.scan_scheme false (s ++ String ":" r) = url.SchemeAt s r.
Proof.
  induction s as [|c s IH]; cbn [append all_bytes url.scan_scheme].
  - intros _. reflexivity.
  - intros [Hc Hs]%andb_prop. rewrite Hc, (IH Hs). reflexivity.
Qed.

Lemma getScheme_lower s r :
  url.nonempty s = true -> all_bytes is_lower s = true ->
  url.getScheme (s ++ String ":" r) = Ok (s, r).
Proof.
  intros Hn Hs. destruct (nonempty_inv _ Hn) as (c & s' & ->).
  cbn [all_bytes] in Hs. apply andb_prop in Hs as [Hc Hs].
  unfold url.getScheme. cbn [append url.scan_scheme].
  rewrite Hc, (scan_scheme_lower _ _ Hs). reflexivity.
Qed.

(** ** Prefixes *)

Lemma prefix_bracket_name s :
  url.nonempty s = true -> all_bytes name_byte s = true ->
  forall t, strings.HasPrefix (s ++ t) "[" = false.
Proof.
  intros Hn Hs t. destruct (nonempty_inv _ Hn) as (c & s' & ->).
  cbn [all_bytes] in Hs. apply andb_prop in Hs as [Hc _].
  unfold strings.HasPrefix. cbn [append String.prefix].
  destruct (ascii_dec "[" c) as [<-|]; [|reflexivity].
  discriminate (name_not_bracket _ Hc).
Qed.

Lemma HasPrefix_slash s : strings.HasPrefix (String "/" s) "/" = true.
Proof. destruct s; reflexivity. Qed.

Lemma HasPrefix_slashes s : strings.HasPrefix ("//" ++ s) "//" = true.
Proof. destruct s; reflexivity. Qed.

Lemma HasPrefix_slashes1 s : strings.HasPrefix ("//" ++ s) "/" = true.
Proof. reflexivity. Qed.

Lemma path_bytes_not_star p : all_bytes path_byte p = true -> String.eqb p "*" = false.
Proof.
  intros Hp. apply String.eqb_neq. intros ->. discriminate Hp.
Qed.

Lemma eqb_app_colon_empty a b : String.eqb (a ++ String ":" b) "" = false.
Proof. destruct a; reflexivity. Qed.

(** ** Joining and cleaning paths *)

Lemma Join_cons x y ys sep :
  strings.Join (x :: y :: ys) sep = x ++ sep ++ strings.Join (y :: ys) sep.
Proof. reflexivity. Qed.

Lemma Join_app (A B : list string) sep :
  A <> [] -> B <> [] ->
  strings.Join (A ++ B) sep = strings.Join A sep ++ sep ++ strings.Join B sep.
Proof.
  intros HA HB. induction A as [|x A IH]; [contradiction|].
  destruct A as [|y A].
  - destruct B as [|b B]; [contradiction|]. reflexivity.
  - change ((x :: y :: A) ++ B)%list with (x :: y :: (A ++ B))%list.
    rewrite !Join_cons. change (y :: (A ++ B))%list with ((y :: A) ++ B)%list.
    rewrite IH by discriminate. rewrite !app_assoc_s. reflexivity.
Qed.

Lemma Split_free c e :
  any_byte (Ascii.eqb c) e = false -> strings.Split c e = [e].
Proof.
  induction e as [|x e IH]; cbn; [reflexivity|].
  intros [Hx He]%orb_false_elim. rewrite Ascii.eqb_sym, Hx, (IH He). reflexivity.
Qed.

Lemma Split_app c e rest :
  any_byte (Ascii.eqb c) e = false ->
  strings.Split c (e ++ String c rest) = e :: strings.Split c rest.
Proof.
  induction e as [|x e IH]; cbn.
  - intros _. rewrite Ascii.eqb_refl. reflexivity.
  - intros [Hx He]%orb_false_elim. rewrite Ascii.eqb_sym, Hx, (IH He). reflexivity.
Qed.

Lemma token_no_slash t : token t = true -> any_byte (Ascii.eqb "/") t = false.
Proof.
  unfold token, plain_element. intros [H|H]%orb_prop.
  - apply String.eqb_eq in H as ->. reflexivity.
  - repeat (apply andb_prop in H as [H ?]).
    apply (all_bytes_none element_byte); [apply element_not_slash | assumption].
Qed.

Lemma Split_Join L :
  L <> [] -> forallb token L = true ->
  strings.Split "/" (strings.Join L "/") = L.
Proof.
  induction L as [|x L IH]; [contradiction|]. intros _ H.
  cbn [forallb] in H. apply andb_prop in H as [Hx HL].
  destruct L as [|y L].
  - apply Split_free, token_no_slash, Hx.
  - rewrite Join_cons. change ("/" ++ strings.Join (y :: L) "/")
      with (String "/" (strings.Join (y :: L) "/")).
    rewrite Split_app by (apply token_no_slash, Hx).
    rewrite IH by (discriminate || exact HL). reflexivity.
Qed.

Lemma clean_step_token rooted out t :
  token t = true ->
  path.clean_step rooted out t = if url.nonempty t then t :: out else out.
Proof.
  unfold token, plain_element, path.clean_step, url.nonempty.
  destruct (String.eqb t "") eqn:E; [reflexivity|]. cbn.
  intros H. repeat (apply andb_prop in H as [H ?]).
  destruct (String.eqb t "."); [discriminate|].
  destruct (String.eqb t ".."); [discriminate|]. reflexivity.
Qed.

Lemma clean_fold rooted L :
  forallb token L = true ->
  forall out,
    fold_left (path.clean_step rooted) L out = (rev (List.filter url.nonempty L) ++ out)%list.
Proof.
  induction L as [|t L IH]; intros H out; [reflexivity|].
  cbn [forallb] in H. apply andb_prop in H as [Ht HL].
  cbn [fold_left List.filter]. rewrite (clean_step_token _ _ _ Ht), (IH HL).
  destruct (url.nonempty t); [|reflexivity].
  cbn [rev]. rewrite <- app_assoc. reflexivity.
Qed.

(** [path.Clean] of the tokens joined behind a leading slash: the empty
    tokens go, the elements stay. *)
Lemma Clean_tokens L :
  L <> [] -> forallb token L = true ->
  path.Clean (strings.Join ("" :: L) "/") = "/" ++ strings.Join (List.filter url.nonempty L) "/".
Proof.
  intros HL Htok. destruct L as [|y L]; [contradiction|].
  unfold path.Clean. rewrite Join_cons.
  change ("" ++ "/" ++ strings.Join (y :: L) "/") with (String "/" (strings.Join (y :: L) "/")).
  change (String.eqb (String "/" (strings.Join (y :: L) "/")) "") with false.
  unfold path.is_rooted. rewrite HasPrefix_slash.
  change (String "/" (strings.Join (y :: L) "/")) with ("" ++ "/" ++ strings.Join (y :: L) "/").
  rewrite <- Join_cons.
  rewrite Split_Join by (discriminate || exact Htok).
  rewrite clean_fold by exact Htok.
  rewrite app_nil_r, rev_involutive. reflexivity.
Qed.

Lemma plain_element_inv e :
  plain_element e = true ->
  url.nonempty e = true /\ all_bytes element_byte e = true /\ token e = true.
Proof.
  intros H. unfold token. rewrite H, orb_true_r.
  unfold plain_element in H. repeat (apply andb_prop in H as [H ?]). auto.
Qed.

Lemma plain_tokens L : forallb plain_element L = true -> forallb token L = true.
Proof.
  induction L as [|e L IH]; cbn; [reflexivity|].
  intros [He HL]%andb_prop. destruct (plain_element_inv _ He) as (_ & _ & ->). exact (IH HL).
Qed.

Lemma plain_filter L :
  forallb plain_element L = true -> List.filter url.nonempty L = L.
Proof.
  induction L as [|e L IH]; cbn; [reflexivity|].
  intros [He HL]%andb_prop. destruct (plain_element_inv _ He) as (-> & _).
  rewrite (IH HL). reflexivity.
Qed.

Lemma Join_path_bytes L :
  forallb plain_element L = true -> all_bytes path_byte (strings.Join L "/") = true.
Proof.
  induction L as [|e L IH]; [reflexivity|].
  cbn [forallb]. intros [He HL]%andb_prop.
  destruct (plain_element_inv _ He) as (_ & Hb & _).
  pose proof (all_bytes_impl _ _ _ element_path_byte Hb) as Hp.
  destruct L as [|y L]; [exact Hp|].
  rewrite Join_cons, all_bytes_app, Hp. cbn [andb append all_bytes].
  change (path_byte "/") with true. cbn [andb]. exact (IH HL).
Qed.

Lemma path_of_Join L :
  L <> [] -> path_of L = "/" ++ strings.Join L "/".
Proof.
  induction L as [|e L IH]; [contradiction|]. intros _.
  destruct L as [|y L].
  - cbn. rewrite app_nil_r_s. reflexivity.
  - change (path_of (e :: y :: L)) with ("/" ++ e ++ path_of (y :: L)).
    rewrite IH by discriminate. rewrite Join_cons. reflexivity.
Qed.

Lemma path_of_bytes L :
  forallb plain_element L = true -> all_bytes path_byte (path_of L) = true.
Proof.
  intros H. destruct L as [|e L]; [reflexivity|].
  rewrite path_of_Join by discriminate. cbn [append all_bytes].
  change (path_byte "/") with true. cbn [andb]. apply Join_path_bytes, H.
Qed.

Lemma path_of_shape L : path_of L = "" \/ exists p', path_of L = String "/" p'.
Proof. destruct L as [|e L]; [left; reflexivity | right; cbn; eauto]. Qed.

Lemma Join_nonempty e L sep : url.nonempty e = true -> url.nonempty (strings.Join (e :: L) sep) = true.
Proof.
  intros He. destruct (nonempty_inv _ He) as (c & s & ->).
  destruct L; reflexivity.
Qed.

Lemma last_byte_app a c b :
  strings.last_byte (a ++ String c b) = strings.last_byte (String c b).
Proof.
  induction a as [|x a IH]; [reflexivity|].
  cbn [append]. destruct a; cbn [append] in *; exact IH.
Qed.

(** An endpoint made of plain elements does not end in a slash. *)
Lemma Join_no_trailing_slash L :
  forallb plain_element L = true -> strings.HasSuffixByte (strings.Join L "/") "/" = false.
Proof.
  induction L as [|e L IH]; [reflexivity|].
  cbn [forallb]. intros [He HL]%andb_prop.
  destruct (plain_element_inv _ He) as (_ & Hb & _).
  destruct L as [|y L].
  - apply HasSuffixByte_none.
    apply (all_bytes_none element_byte); [apply element_not_slash | exact Hb].
  - rewrite Join_cons. unfold strings.HasSuffixByte in *.
    change ("/" ++ strings.Join (y :: L) "/") with (String "/" (strings.Join (y :: L) "/")).
    rewrite last_byte_app.
    cbn [forallb] in HL. apply andb_prop in HL as [Hy HL'].
    destruct (plain_element_inv _ Hy) as (Hyn & _).
    pose proof (Join_nonempty y L "/" Hyn) as Hne.
    destruct (nonempty_inv _ Hne) as (c & s & E).
    cbn [strings.last_byte]. rewrite E. rewrite <- E.
    apply IH. cbn [forallb]. rewrite Hy, HL'. reflexivity.
Qed.

(** The three arguments of [path.Join] in [JoinPath], for a host with the
    elements [elems] and an endpoint with the elements [es]: the host path
    (or the slash that stands for an empty one), [apiBase], the endpoint. *)
Lemma Join_api elems es :
  forallb plain_element elems = true ->
  es <> [] -> forallb plain_element es = true ->
  path.Join [(if url.nonempty (path_of elems) then path_of elems else "/");
             apiBase; strings.Join es "/"]
  = "/" ++ strings.Join (elems ++ apiElements ++ es) "/".
Proof.
  intros Helems Hne Hes.
  destruct es as [|e es]; [contradiction|].
  assert (url.nonempty (strings.Join (e :: es) "/") = true) as Hend.
  { cbn [forallb] in Hes. apply andb_prop in Hes as [He _].
    apply Join_nonempty. apply (plain_element_inv _ He). }
  set (endpoint := strings.Join (e :: es) "/") in *.
  pose (B := [""; "api"; "v2.0"; "indexers"; ""]).
  assert (forallb token B = true) as HB by (vm_compute; reflexivity).
  assert (strings.Join B "/" = apiBase) as HBs by reflexivity.
  unfold path.Join. cbn [List.filter].
  fold (url.nonempty endpoint). rewrite Hend.
  change (negb (String.eqb apiBase "")) with true.
  destruct elems as [|x elems].
  - cbn [path_of]. change (url.nonempty "") with false. cbn [negb String.eqb].
    assert (strings.Join ["/"; apiBase; endpoint] "/"
            = strings.Join ("" :: (("" :: B) ++ e :: es))%list "/") as ->.
    { change ("" :: (("" :: B) ++ e :: es))%list with (("" :: "" :: B) ++ (e :: es))%list.
      rewrite Join_app by discriminate. reflexivity. }
    rewrite Clean_tokens.
    + rewrite List.filter_app. cbn [app].
      rewrite (plain_filter _ Hes). reflexivity.
    + discriminate.
    + rewrite forallb_app, (plain_tokens _ Hes). reflexivity.
  - assert (url.nonempty (path_of (x :: elems)) = true) as -> by reflexivity.
    assert (negb (String.eqb (path_of (x :: elems)) "") = true) as -> by reflexivity.
    assert (strings.Join [path_of (x :: elems); apiBase; endpoint] "/"
            = strings.Join ("" :: ((x :: elems) ++ B ++ e :: es))%list "/") as ->.
    { rewrite path_of_Join by discriminate.
      change ("" :: ((x :: elems) ++ B ++ e :: es))%list
        with ("" :: x :: (elems ++ B ++ e :: es))%list.
      rewrite (Join_cons "").
      change (x :: (elems ++ B ++ e :: es))%list with ((x :: elems) ++ (B ++ e :: es))%list.
      rewrite (Join_app (x :: elems) (B ++ e :: es)) by discriminate.
      rewrite (Join_app B (e :: es)) by discriminate.
      rewrite HBs. cbn [strings.Join]. rewrite !app_assoc_s. reflexivity. }
    rewrite Clean_tokens.
    + rewrite !List.filter_app. rewrite (plain_filter _ Helems), (plain_filter _ Hes).
      reflexivity.
    + discriminate.
    + rewrite !forallb_app, (plain_tokens _ Helems), (plain_tokens _ Hes), HB. reflexivity.
Qed.

(** The path of the joined URL. *)
Lemma joined_path_bytes elems es :
  forallb plain_element elems = true -> forallb plain_element es = true ->
  all_bytes path_byte (strings.Join (elems ++ apiElements ++ es) "/") = true.
Proof.
  intros He Hs. apply Join_path_bytes.
  rewrite !forallb_app, He, Hs. reflexivity.
Qed.

Lemma joined_text elems es :
  es <> [] ->
  "/" ++ strings.Join (elems ++ apiElements ++ es) "/"
  = path_of elems ++ apiBase ++ strings.Join es "/".
Proof.
  intros Hne. destruct elems as [|x elems].
  - cbn [app path_of append]. rewrite Join_app by (discriminate || exact Hne). reflexivity.
  - rewrite (Join_app (x :: elems)) by discriminate.
    rewrite Join_app by (discriminate || exact Hne).
    rewrite path_of_Join by discriminate.
    change (strings.Join apiElements "/") with "api/v2.0/indexers".
    rewrite !app_assoc_s. reflexivity.
Qed.

(** ** A plain host, from [url.Parse] to [buildUrl] *)

Section PlainHost.

Variable h : PlainHost.
Hypothesis plain_h : plain h = true.

Lemma plain_parts :
  url.nonempty (scheme h) = true /\ all_bytes is_lower (scheme h) = true
  /\ url.nonempty (name h) = true /\ all_bytes name_byte (name h) = true
  /\ all_bytes is_digit (port h) = true
  /\ forallb plain_element (segments h) = true.
Proof.
  pose proof plain_h as H. unfold plain in H.
  repeat (apply andb_prop in H as [H ?]). auto 10.
Qed.

Lemma authority_bytes : all_bytes authority_byte (authority_of h) = true.
Proof.
  destruct plain_parts as (_ & _ & _ & Hn & Hp & _).
  unfold authority_of, port_suffix. rewrite all_bytes_app.
  rewrite (all_bytes_impl _ _ _ name_authority_byte Hn). cbn.
  destruct (url.nonempty (port h)); [|reflexivity]. cbn.
  apply (all_bytes_impl is_digit); [|exact Hp].
  intros c Hc. apply name_authority_byte, digit_name_byte, Hc.
Qed.

Lemma authority_nonempty : url.nonempty (authority_of h) = true.
Proof.
  destruct plain_parts as (_ & _ & Hn & _). destruct (nonempty_inv _ Hn) as (c & s & E).
  unfold authority_of. rewrite E. reflexivity.
Qed.

Lemma parseHost_plain : url.parseHost (authority_of h) = Ok (authority_of h).
Proof.
  pose proof authority_bytes as Hb.
  destruct plain_parts as (_ & _ & Hnn & Hn & Hp & _).
  unfold url.parseHost.
  unfold authority_of at 1. rewrite (prefix_bracket_name _ Hnn Hn).
  unfold authority_of at 1, port_suffix.
  destruct (url.nonempty (port h)) eqn:Hport.
  - cbn [append].
    rewrite rbreak_app by (apply (all_bytes_none is_digit); [apply digit_not_colon | exact Hp]).
    cbn [url.validOptionalPort]. rewrite Ascii.eqb_refl, Hp. cbn.
    apply unescape_host_id, Hb.
  - rewrite app_nil_r_s.
    rewrite rbreak_none by (apply (all_bytes_none name_byte); [apply name_not_colon | exact Hn]).
    apply unescape_host_id, Hb.
Qed.

Lemma parseAuthority_plain : url.parseAuthority (authority_of h) = Ok (None, authority_of h).
Proof.
  unfold url.parseAuthority.
  rewrite rbreak_none
    by (apply (all_bytes_none authority_byte); [apply authority_not_at | apply authority_bytes]).
  rewrite parseHost_plain. reflexivity.
Qed.

(** The text of a plain host, with any path of path bytes behind the
    authority, is made of path bytes. *)
Lemma host_text_bytes p :
  all_bytes path_byte p = true ->
  all_bytes path_byte (scheme h ++ String ":" ("//" ++ authority_of h ++ p)) = true.
Proof.
  intros Hp. destruct plain_parts as (_ & Hs & _).
  rewrite all_bytes_app, (all_bytes_impl _ _ _ lower_path_byte Hs).
  cbn [all_bytes append andb]. change (path_byte ":") with true. change (path_byte "/") with true.
  cbn [andb]. rewrite all_bytes_app, Hp, andb_true_r.
  apply (all_bytes_impl authority_byte); [apply authority_path_byte | apply authority_bytes].
Qed.

(** [parse] on the text of a plain host with a path: step by step through
    the source, no control byte, the scheme, no query, the authority, the
    path. *)
Lemma parse_plain p :
  all_bytes path_byte p = true ->
  (p = "" \/ exists p', p = String "/" p') ->
  url.parse (scheme h ++ String ":" ("//" ++ authority_of h ++ p)) = Ok (plain_url h p).
Proof.
  intros Hp Hshape.
  pose proof (host_text_bytes p Hp) as Hall.
  destruct plain_parts as (Hsn & Hs & _).
  assert (all_bytes path_byte ("//" ++ authority_of h ++ p) = true) as Hrest.
  { rewrite all_bytes_app in Hall. apply andb_prop in Hall as [_ Hall].
    cbn [all_bytes] in Hall. apply andb_prop in Hall as [_ Hall]. exact Hall. }
  unfold url.parse.
  unfold url.stringContainsCTLByte.
  rewrite (all_bytes_none _ _ _ path_byte_not_ctl Hall).
  assert (String.eqb (scheme h ++ String ":" ("//" ++ authority_of h ++ p)) "*" = false) as ->.
  { apply String.eqb_neq. destruct (nonempty_inv _ Hsn) as (c & s' & E). rewrite E.
    cbn [append]. intros Heq. injection Heq as Hc _.
    rewrite E in Hs. cbn [all_bytes] in Hs. apply andb_prop in Hs as [Hc' _].
    exact (lower_not_star _ Hc' Hc). }
  rewrite (getScheme_lower _ _ Hsn Hs). cbn [url.bind].
  rewrite (ToLower_lower _ Hs).
  rewrite (HasSuffixByte_none "?" _ (all_bytes_none _ _ _ path_byte_not_question Hrest)).
  cbn [andb].
  rewrite (Cut_none "?" _ (all_bytes_none _ _ _ path_byte_not_question Hrest)).
  rewrite !HasPrefix_slashes, !HasPrefix_slashes1.
  cbn [negb andb]. rewrite Hsn. cbn [orb andb].
  change (strings.drop 2 ("//" ++ authority_of h ++ p)) with (authority_of h ++ p).
  rewrite (break_app "/" (authority_of h) p);
    [| apply (all_bytes_none authority_byte); [apply authority_not_slash | apply authority_bytes]
     | exact Hshape].
  rewrite parseAuthority_plain. cbn [url.bind].
  rewrite setPath_plain by exact Hp. reflexivity.
Qed.

Lemma Parse_plain p :
  all_bytes path_byte p = true ->
  (p = "" \/ exists p', p = String "/" p') ->
  url.Parse (scheme h ++ "://" ++ authority_of h ++ p) = Ok (plain_url h p).
Proof.
  intros Hp Hshape.
  change (scheme h ++ "://" ++ authority_of h ++ p)
    with (scheme h ++ String ":" ("//" ++ authority_of h ++ p)).
  unfold url.Parse.
  rewrite (Cut_none "#" _ (all_bytes_none _ _ _ path_byte_not_hash (host_text_bytes p Hp))).
  rewrite (parse_plain p Hp Hshape). reflexivity.
Qed.

Lemma EscapedPath_plain p :
  all_bytes path_byte p = true -> url.EscapedPath (plain_url h p) = p.
Proof.
  intros Hp. unfold url.EscapedPath. cbn.
  rewrite (path_bytes_not_star _ Hp). apply escape_path_id, Hp.
Qed.

(** [URL.String] of a plain URL: a relative path is written behind a
    slash. *)
Lemma String_plain p q :
  all_bytes path_byte p = true ->
  url.String (url.with_query (plain_url h p) q)
  = scheme h ++ "://" ++ authority_of h
    ++ (if url.nonempty p && negb (strings.HasPrefix p "/") then "/" else "")
    ++ p ++ query_suffix q.
Proof.
  intros Hp. destruct plain_parts as (Hsn & _).
  unfold url.String.
  change (url.EscapedPath (url.with_query (plain_url h p) q))
    with (url.EscapedPath (plain_url h p)).
  rewrite (EscapedPath_plain _ Hp).
  cbn [url.Scheme url.Opaque url.User url.Host url.Path url.OmitHost url.ForceQuery
       url.RawQuery url.Fragment url.with_query plain_url url.is_some].
  rewrite Hsn, authority_nonempty, (escape_host_id _ authority_bytes).
  change (url.nonempty "") with false. cbn [orb andb negb append].
  rewrite andb_true_r.
  set (slash := if url.nonempty p && negb (strings.HasPrefix p "/") then "/" else "").
  rewrite !app_assoc_s. cbn [append]. rewrite eqb_app_colon_empty. cbn [andb append].
  unfold query_suffix. destruct (url.nonempty q).
  - rewrite !app_assoc_s. reflexivity.
  - rewrite !app_assoc_s, !app_nil_r_s. reflexivity.
Qed.

(** [URL.JoinPath] with [apiBase] and an endpoint of plain elements: the
    path of a host without one comes out relative. *)
Lemma URL_JoinPath_plain es :
  es <> [] -> forallb plain_element es = true ->
  url.URL_JoinPath (plain_url h (path_of (segments h))) [apiBase; strings.Join es "/"]
  = plain_url h
      ((if url.nonempty (path_of (segments h)) then "/" else "")
       ++ strings.Join (segments h ++ apiElements ++ es) "/").
Proof.
  intros Hne Hes. destruct plain_parts as (_ & _ & _ & _ & _ & Helems).
  pose proof (joined_path_bytes _ _ Helems Hes) as Hjb.
  unfold url.URL_JoinPath.
  rewrite (EscapedPath_plain _ (path_of_bytes _ Helems)).
  pose proof (Join_api (segments h) es Helems Hne Hes) as HJ.
  destruct (segments h) as [|x elems] eqn:E.
  - cbn [path_of] in *. change (url.nonempty "") with false in *.
    change (strings.HasPrefix "" "/") with false. cbn [negb].
    change ("/" ++ "") with "/". cbn [List.last].
    rewrite (Join_no_trailing_slash _ Hes). cbn [andb].
    rewrite HJ.
    change (strings.drop 1 ("/" ++ strings.Join ([] ++ apiElements ++ es) "/"))
      with (strings.Join ([] ++ apiElements ++ es) "/").
    rewrite setPath_plain by exact Hjb. reflexivity.
  - assert (url.nonempty (path_of (x :: elems)) = true) as Hn by reflexivity.
    rewrite Hn in *.
    assert (strings.HasPrefix (path_of (x :: elems)) "/" = true) as ->
      by (apply (HasPrefix_slash (x ++ path_of elems))).
    cbn [negb List.last].
    rewrite (Join_no_trailing_slash _ Hes). cbn [andb].
    rewrite HJ.
    rewrite setPath_plain.
    + reflexivity.
    + cbn [append all_bytes]. change (path_byte "/") with true. exact Hjb.
Qed.

(** The URL that [buildUrl] resolves for a plain host and an endpoint made
    of plain elements: the host, [apiBase], the endpoint, the query. *)
Lemma buildUrl_plain c es params :
  Host (cfg c) = host_of h ->
  es <> [] -> forallb plain_element es = true ->
  buildUrl c (strings.Join es "/") params
  = Ret (host_of h ++ apiBase ++ strings.Join es "/" ++ query_suffix (query_of params)).
Proof.
  intros Hhost Hne Hes.
  destruct plain_parts as (_ & _ & _ & _ & _ & Hsegs).
  pose proof (joined_path_bytes _ _ Hsegs Hes) as Hjb.
  set (J := strings.Join (segments h ++ apiElements ++ es) "/") in *.
  assert (all_bytes path_byte ("/" ++ J) = true) as Hjb'.
  { cbn [append all_bytes]. change (path_byte "/") with true. exact Hjb. }
  unfold buildUrl, url.JoinPath. rewrite Hhost. unfold host_of.
  rewrite (Parse_plain _ (path_of_bytes _ Hsegs) (path_of_shape _)).
  rewrite (URL_JoinPath_plain es Hne Hes). fold J.
  assert (url.String
            (plain_url h ((if url.nonempty (path_of (segments h)) then "/" else "") ++ J))
          = scheme h ++ "://" ++ authority_of h ++ "/" ++ J) as ->.
  { match goal with |- url.String ?u = _ =>
      change (url.String u) with (url.String (url.with_query u "")) end.
    assert (url.nonempty J = true) as HJn.
    { unfold J. destruct (segments h) as [|x elems].
      - reflexivity.
      - cbn [forallb] in Hsegs. apply andb_prop in Hsegs as [Hx _].
        apply Join_nonempty, (plain_element_inv _ Hx). }
    destruct (url.nonempty (path_of (segments h))) eqn:Hp.
    - rewrite String_plain by assumption.
      assert (strings.HasPrefix ("/" ++ J) "/" = true) as -> by apply HasPrefix_slash.
      rewrite andb_false_r.
      change (query_suffix "") with "". rewrite app_nil_r_s. reflexivity.
    - cbn [append]. rewrite String_plain by assumption.
      rewrite HJn.
      assert (strings.HasPrefix J "/" = false) as ->.
      { unfold J. destruct (segments h); [reflexivity | discriminate Hp]. }
      cbn [andb negb].
      change (query_suffix "") with "". rewrite app_nil_r_s. reflexivity. }
  rewrite (Parse_plain ("/" ++ J) Hjb') by (right; cbn; eauto).
  fold (query_of params).
  rewrite (String_plain _ _ Hjb').
  assert (strings.HasPrefix ("/" ++ J) "/" = true) as -> by apply HasPrefix_slash.
  rewrite andb_false_r. unfold J.
  rewrite (joined_text _ _ Hne).
  repeat rewrite app_assoc_s. cbn [append]. repeat rewrite app_assoc_s. reflexivity.
Qed.

End PlainHost.

(** ** A host that does not parse *)


(** ** The claims on the address resolver *)

(** C2, at the failing inputs: the two direct-mode cases of TestBuildURL.
    [buildUrl] does not read [DirectMode]: with the host
    [https://tracker.example.com/api/torznab] the suffix [search] resolves
    to a path with [apiBase] between the host path and the suffix, and the
    empty suffix does not leave the host path as it is. *)
Theorem buildUrl_direct_mode_injects_apiBase :
  buildUrl (sampleClient "https://tracker.example.com/api/torznab" true notFoundServer)
    "search" {[ "t" := "search" ]}
  = Ret "https://tracker.example.com/api/torznab/api/v2.0/indexers/search?t=search"
  /\ buildUrl (sampleClient "https://tracker.example.com/api/torznab" true notFoundServer)
       "" {[ "t" := "caps" ]}
     = Ret "https://tracker.example.com/api/torznab/api/v2.0/indexers?t=caps"
  /\ strings.Contains
       "https://tracker.example.com/api/torznab/api/v2.0/indexers/search?t=search"
       "/api/torznab/search" = false.
Proof. repeat split; vm_compute; reflexivity. Qed.







(** * The retry loop, whatever the transport does *)

Lemma attempt_world c f : world_of (fst (attempt c f)) = sent f.
Proof.
  unfold attempt, sent.
  destruct (http.Do (transport c) (calls (world_of f)) (req f)) as [rq' [e|rp]]; cbn.
  - reflexivity.
  - destruct (http.StatusCode rp <? 500)%Z; [reflexivity|].
    destruct (http.StatusCode rp >=? 500)%Z; reflexivity.
Qed.

(** The function retried returns a nil error with a response below 500
    only. *)
Lemma attempt_nil_error c f :
  snd (attempt c f) = None ->
  exists rp, resp (fst (attempt c f)) = Some rp /\ (http.StatusCode rp < 500)%Z.
Proof.
  unfold attempt.
  destruct (http.Do (transport c) (calls (world_of f)) (req f)) as [rq' [e|rp]]; cbn.
  - discriminate.
  - destruct (Z.ltb_spec (http.StatusCode rp) 500).
    + intros _. exists rp. split; [reflexivity | assumption].
    + destruct (Z.geb_spec (http.StatusCode rp) 500); [discriminate | lia].
Qed.

Lemma backoffs_cons n k :
  backoffs n (S k)
  = EvSleep n (100 * retry.Millisecond * 2 ^ Z.of_nat n) (retry.Second * 1) :: backoffs (S n) k.
Proof. reflexivity. Qed.

Lemma readable_no_body request : http.Body request = None -> readable request.
Proof. intros H b Hb. congruence. Qed.

(** One run of the loop of [retry.Do] inside [retryDo], from attempt [n]
    on: what it appends to the trace, how many attempts it makes, when it
    sleeps, and what it returns. *)
Lemma loop_run c :
  forall k n log f,
    n + S k = 5 ->
    exists f' r tr,
      retry.loop sleepFrame retryConfig (attempt c) (S k) n n log f = (f', r)
      /\ trace (world_of f') = (trace (world_of f) ++ tr)%list
      /\ calls (world_of f') = calls (world_of f) + attempts_of tr
      /\ 1 <= attempts_of tr <= S k
      /\ List.filter is_sleep tr = backoffs n (attempts_of tr - 1)
      /\ (r = None -> exists rp, resp f' = Some rp /\ (http.StatusCode rp < 500)%Z)
      /\ (forall e, r = Some e -> exists log', e = RetryErrors log' /\ length log' = length log).
Proof.
  induction k as [|k IH]; intros n log f Hn.
  - destruct (attempt c f) as [f1 r] eqn:Ha.
    pose proof (attempt_world c f) as Hw. pose proof (attempt_nil_error c f) as Hnil.
    rewrite Ha in Hw, Hnil. cbn [fst snd] in Hw, Hnil.
    destruct r as [e|].
    + destruct (retry.IsRecoverable e) eqn:Hrec.
      * assert (n = 4) as -> by lia.
        rewrite (loop_last _ _ _ _ _ _ _ Ha Hrec).
        eexists _, _, [_; _]. split; [reflexivity|].
        split; [cbn; rewrite Hw; unfold sent, tick, emit; cbn; rewrite <- app_assoc; reflexivity|].
        split; [cbn; rewrite Hw; unfold sent, tick, emit; cbn; lia|].
        split; [cbn; lia|]. split; [reflexivity|].
        split; [discriminate|]. intros e' [= <-]. eexists. split; [reflexivity|].
        apply length_insert.
      * destruct e; try discriminate Hrec.
        rewrite (loop_unrecoverable _ _ _ _ _ _ _ _ Ha).
        eexists _, _, [_]. split; [reflexivity|].
        split; [rewrite Hw; reflexivity|].
        split; [rewrite Hw; cbn; lia|].
        split; [cbn; lia|]. split; [reflexivity|].
        split; [discriminate|]. intros e' [= <-]. eexists. split; [reflexivity|].
        apply length_insert.
    + rewrite (loop_done _ _ _ _ _ _ _ Ha).
      eexists _, _, [_]. split; [reflexivity|].
      split; [rewrite Hw; reflexivity|].
      split; [rewrite Hw; cbn; lia|].
      split; [cbn; lia|]. split; [reflexivity|].
      split; [intros _; apply Hnil; reflexivity|]. discriminate.
  - destruct (attempt c f) as [f1 r] eqn:Ha.
    pose proof (attempt_world c f) as Hw. pose proof (attempt_nil_error c f) as Hnil.
    rewrite Ha in Hw, Hnil. cbn [fst snd] in Hw, Hnil.
    destruct r as [e|].
    + destruct (retry.IsRecoverable e) eqn:Hrec.
      * rewrite (loop_again _ _ _ _ _ _ _ _ Ha Hrec) by lia.
        match goal with
        | |- context [retry.loop _ _ _ _ _ _ ?l ?g] =>
            destruct (IH (S n) l g) as (f' & r' & tr & Hl & Ht & Hc & Hb & Hs & Hr & He); [lia|]
        end.
        exists f', r'.
        exists (EvSend (calls (world_of f)) (http.Method (req f))
                  (url.String (http.URL (req f))) (http.payload (req f))
                :: EvLog e n (url.String (http.URL (req f1)))
                :: EvSleep n (retry.BackOffDelay n retryConfig) (retry.Second * 1) :: tr).
        split; [exact Hl|].
        unfold sleepFrame, logRetry, emit in Ht, Hc. cbn [world_of trace calls] in Ht, Hc.
        rewrite Hw in Ht, Hc. unfold sent, tick, emit in Ht, Hc. cbn [trace calls] in Ht, Hc.
        split; [rewrite Ht, <- !app_assoc; reflexivity|].
        change (attempts_of (?a :: ?b :: ?c :: tr)) with (S (attempts_of tr)).
        split; [lia|]. split; [lia|].
        split.
        { cbn [List.filter is_sleep]. rewrite Hs.
          destruct (attempts_of tr) as [|a]; [lia|].
          cbn [Nat.sub]. rewrite Nat.sub_0_r. rewrite backoffs_cons. reflexivity. }
        split; [exact Hr|].
        intros e' He'. destruct (He e' He') as (log' & -> & Hlen).
        exists log'. split; [reflexivity|]. rewrite Hlen. apply length_insert.
      * destruct e; try discriminate Hrec.
        rewrite (loop_unrecoverable _ _ _ _ _ _ _ _ Ha).
        eexists _, _, [_]. split; [reflexivity|].
        split; [rewrite Hw; reflexivity|].
        split; [rewrite Hw; cbn; lia|].
        split; [cbn; lia|]. split; [reflexivity|].
        split; [discriminate|]. intros e' [= <-]. eexists. split; [reflexivity|].
        apply length_insert.
    + rewrite (loop_done _ _ _ _ _ _ _ Ha).
      eexists _, _, [_]. split; [reflexivity|].
      split; [rewrite Hw; reflexivity|].
      split; [rewrite Hw; cbn; lia|].
      split; [cbn; lia|]. split; [reflexivity|].
      split; [intros _; apply Hnil; reflexivity|]. discriminate.
Qed.

(** One call of [retryDo] on a readable body. *)
Lemma retryDo_run c ctx request w :
  readable request ->
  exists f' r tr,
    retryDo c ctx request w =
      (req f', world_of f',
       match r with
       | Some e' => (None, Some (Wrapped "error making request" e'))
       | None => (resp f', None)
       end)
    /\ trace (world_of f') = (trace w ++ tr)%list
    /\ calls (world_of f') = calls w + attempts_of tr
    /\ 1 <= attempts_of tr <= 5
    /\ List.filter is_sleep tr = backoffs 0 (attempts_of tr - 1)
    /\ (r = None -> exists rp, resp f' = Some rp /\ (http.StatusCode rp < 500)%Z)
    /\ (forall e, r = Some e -> exists log', e = RetryErrors log' /\ length log' = 5).
Proof.
  intros Hread. rewrite (retryDo_unfold _ _ _ _ Hread).
  destruct (loop_run c 4 0 (replicate 5 None)
              {| req := prepared request; resp := None; err := None; world_of := w |} eq_refl)
    as (f' & r & tr & Hl & Ht & Hc & Hb & Hs & Hr & He).
  rewrite Hl. exists f', r, tr. cbn [world_of] in *.
  split; [destruct r; reflexivity|]. auto 10.
Qed.

(** X1. Whatever the transport does, a call of [retryDo] with a readable
    request body makes at least one and at most five attempts, and each
    attempt is one call of [c.http.Do]. *)
Theorem retryDo_makes_one_to_five_attempts c ctx request w :
  readable request ->
  exists rq' w' r tr,
    retryDo c ctx request w = (rq', w', r)
    /\ trace w' = (trace w ++ tr)%list
    /\ 1 <= attempts_of tr <= 5
    /\ calls w' = calls w + attempts_of tr.
Proof.
  intros Hread.
  destruct (retryDo_run c ctx request w Hread) as (f' & r & tr & E & Ht & Hc & Hb & _).
  eexists _, _, _, tr. split; [exact E|]. auto.
Qed.

(** X1, at a sample: a connection that breaks twice before the server
    answers. *)
Lemma retryDo_makes_one_to_five_attempts_witness :
  exists rq' w' r tr,
    retryDo (sampleClient "http://localhost:9117" false (dropsThenAnswers 2 200)) Background
      (sampleRequest Background) genesis = (rq', w', r)
    /\ trace w' = (trace genesis ++ tr)%list
    /\ 1 <= attempts_of tr <= 5
    /\ calls w' = calls genesis + attempts_of tr.
Proof.
  apply (retryDo_makes_one_to_five_attempts
           (sampleClient "http://localhost:9117" false (dropsThenAnswers 2 200)) Background
           (sampleRequest Background) genesis).
  intros b Hb. discriminate Hb.
Defined.



(** [retryDo] returns a response with a status below 500 and no error, or
    an error and no response. *)
Lemma retryDo_shape c ctx request w :
  match snd (retryDo c ctx request w) with
  | (Some rp, None) => (http.StatusCode rp < 500)%Z
  | (None, Some _) => True
  | _ => False
  end.
Proof.
  destruct (http.Body request) as [b|] eqn:Hb.
  - destruct (fault b) as [e|] eqn:Hf.
    + rewrite (retryDo_unreadable _ _ _ _ _ _ Hb Hf). exact I.
    + assert (readable request) as Hread by (intros b' Hb'; congruence).
      destruct (retryDo_run c ctx request w Hread) as (f' & r & tr & E & _ & _ & _ & _ & Hr & _).
      rewrite E. cbn [snd]. destruct r as [e|]; [exact I|].
      destruct (Hr eq_refl) as (rp & -> & Hs). exact Hs.
  - destruct (retryDo_run c ctx request w (readable_no_body _ Hb))
      as (f' & r & tr & E & _ & _ & _ & _ & Hr & _).
    rewrite E. cbn [snd]. destruct r as [e|]; [exact I|].
    destruct (Hr eq_refl) as (rp & -> & Hs). exact Hs.
Qed.

(** X3. Every call of [retryDo] returns either a response and a nil
    error, and then the status of the response is below 500, or a nil
    response and an error; it returns neither both nor none. *)
Theorem retryDo_returns_response_or_error c ctx request w :
  match snd (retryDo c ctx request w) with
  | (Some rp, None) => (http.StatusCode rp < 500)%Z
  | (None, Some _) => True
  | _ => False
  end.
Proof. apply retryDo_shape. Qed.

(** X4. When the request body cannot be read to its end, [retryDo] makes
    no attempt: it returns the error of the read as it is, not wrapped,
    and leaves the request with an empty body. *)
Theorem retryDo_unreadable_body_sends_nothing c ctx request w b e :
  http.Body request = Some b -> fault b = Some e ->
  retryDo c ctx request w = (resetBody request "", w, (None, Some e)).
Proof.
  intros Hb Hf. unfold retryDo, copyBody, ReadAll. rewrite Hb, Hf. reflexivity.
Qed.

(** X4, at a sample: a body that fails after four bytes. *)
Lemma retryDo_unreadable_body_sends_nothing_witness :
  retryDo (sampleClient "http://localhost:9117" false notFoundServer) Background
    (uploadRequest brokenUpload) genesis
  = (resetBody (uploadRequest brokenUpload) "", genesis,
     (None, Some (ErrorString "unexpected EOF"))).
Proof.
  apply (retryDo_unreadable_body_sends_nothing
           (sampleClient "http://localhost:9117" false notFoundServer) Background
           (uploadRequest brokenUpload) genesis brokenUpload (ErrorString "unexpected EOF"));
    reflexivity.
Defined.

(** *** Failures of the transport, one after the other *)

Lemma errorLog_insert errs n x :
  n < 5 ->
  <[n := x]> (errorLog errs n)
  = (map (fun i => Some (errs i)) (seq 0 n) ++ x :: replicate (4 - n) None)%list.
Proof.
  intros Hn. unfold errorLog.
  rewrite insert_app_r_alt by (rewrite length_map, length_seq; lia).
  rewrite length_map, length_seq, Nat.sub_diag.
  replace (5 - n) with (S (4 - n)) by lia. reflexivity.
Qed.

Lemma errorLog_step errs n :
  n < 5 -> <[n := Some (errs n)]> (errorLog errs n) = errorLog errs (S n).
Proof.
  intros Hn. rewrite errorLog_insert by exact Hn. unfold errorLog.
  rewrite seq_S, map_app, <- app_assoc. cbn [map app].
  replace (5 - S n) with (4 - n) by lia. reflexivity.
Qed.

(** [j] attempts that fail in the transport, none of them the last of the
    five: the loop goes on from attempt [n + j]. *)
Lemma loop_failures c ctx0 errs base :
  forall j n f,
    n + j < 5 ->
    http.Ctx (req f) = ctx0 -> calls (world_of f) = base + n ->
    (forall i rq, n <= i < n + j -> http.Ctx rq = ctx0 ->
       snd (http.Do (transport c) (base + i) rq) = http.DoErr (errs i)) ->
    (forall i, n <= i < n + j -> retry.IsRecoverable (errs i) = true) ->
    exists f',
      retry.loop sleepFrame retryConfig (attempt c) (5 - n) n n (errorLog errs n) f
      = retry.loop sleepFrame retryConfig (attempt c) (5 - (n + j)) (n + j) (n + j)
          (errorLog errs (n + j)) f'
      /\ http.Ctx (req f') = ctx0
      /\ calls (world_of f') = base + n + j
      /\ attempts_of (trace (world_of f')) = attempts_of (trace (world_of f)) + j.
Proof.
  induction j as [|j IH]; intros n f Hn Hctx Hcalls Hfail Hrec.
  - exists f. rewrite !Nat.add_0_r. auto.
  - pose proof (Hfail n (req f) ltac:(lia) Hctx) as He.
    rewrite <- Hcalls in He.
    destruct (http.Do (transport c) (calls (world_of f)) (req f)) as [rq' r] eqn:HD.
    cbn in He. subst r.
    pose proof (attempt_error _ _ _ _ HD) as Ha.
    replace (5 - n) with (S (4 - n)) by lia.
    rewrite (loop_again _ _ _ _ _ _ _ _ Ha (Hrec n ltac:(lia))) by lia.
    rewrite errorLog_step by lia.
    replace (4 - n) with (5 - S n) by lia.
    match goal with
    | |- context [retry.loop _ _ _ _ _ _ _ ?g] =>
        destruct (IH (S n) g) as (f' & Hl & Hc' & Hcalls' & Hatt)
    end.
    + lia.
    + cbn. pose proof (Do_ctx (transport c) (calls (world_of f)) (req f)) as H.
      rewrite HD in H. cbn in H. congruence.
    + cbn. lia.
    + intros i rq Hi. apply Hfail. lia.
    + intros i Hi. apply Hrec. lia.
    + exists f'. replace (n + S j) with (S n + j) by lia.
      split; [exact Hl|]. split; [exact Hc'|]. split; [lia|].
      rewrite Hatt. unfold sleepFrame, logRetry, sent, emit, tick. cbn [world_of trace calls].
      rewrite !attempts_of_app. cbn. lia.
Qed.

(** X5. A response with a status of 500 or above ends the call at the
    attempt that receives it: after [n] attempts that failed in the
    transport, attempt [n + 1] is the last, the response is dropped, and
    the error lists the [n] transport errors and then the status, with the
    mark of [retry.Unrecoverable] taken off. *)
Theorem retryDo_status_from_500_ends_the_call c ctx request w n errs rp :
  readable request ->
  n < 5 ->
  (500 <= http.StatusCode rp)%Z ->
  (forall i rq, i < n -> http.Ctx rq = http.Ctx request ->
     snd (http.Do (transport c) (calls w + i) rq) = http.DoErr (errs i)) ->
  (forall i, i < n -> retry.IsRecoverable (errs i) = true) ->
  (forall rq, http.Ctx rq = http.Ctx request ->
     snd (http.Do (transport c) (calls w + n) rq) = http.DoResp rp) ->
  exists rq' w',
    retryDo c ctx request w =
      (rq', w',
       (None, Some (Wrapped "error making request"
                      (RetryErrors
                         (map (fun i => Some (errs i)) (seq 0 n)
                          ++ Some (StatusError (http.StatusCode rp))
                             :: replicate (4 - n) None)))))
    /\ calls w' = calls w + n + 1
    /\ attempts_of (trace w') = attempts_of (trace w) + n + 1.
Proof.
  intros Hread Hn Hs Hfail Hrec Hok.
  rewrite (retryDo_unfold _ _ _ _ Hread).
  destruct (loop_failures c (http.Ctx request) errs (calls w) n 0
              {| req := prepared request; resp := None; err := None; world_of := w |})
    as (f' & Hl & Hctx & Hcalls & Hatt).
  - lia.
  - apply prepared_ctx.
  - cbn. lia.
  - intros i rq Hi. apply Hfail. lia.
  - intros i Hi. apply Hrec. lia.
  - change (errorLog errs 0) with (replicate 5 (@None error)) in Hl.
    change (5 - 0) with 5 in Hl. rewrite Hl. cbn [Nat.add] in *.
    pose proof (Hok (req f') Hctx) as HD. rewrite Nat.add_0_r in Hcalls.
    rewrite <- Hcalls in HD.
    destruct (http.Do (transport c) (calls (world_of f')) (req f')) as [rq' r] eqn:HD'.
    cbn in HD. subst r.
    pose proof (attempt_from_500 c f' rq' rp HD' Hs) as Ha.
    replace (5 - n) with (S (4 - n)) by lia.
    rewrite (loop_unrecoverable _ _ _ _ _ _ _ _ Ha).
    rewrite errorLog_insert by exact Hn.
    eexists _, _. split; [reflexivity|].
    cbn [world_of] in *. unfold sent, tick, emit. cbn [calls trace].
    rewrite attempts_of_app. cbn. lia.
Qed.

(** X5, at a sample: the connection breaks twice, then the server answers
    503. *)
Lemma retryDo_status_from_500_ends_the_call_witness :
  exists rq' w',
    retryDo (sampleClient "http://localhost:9117" false (dropsThenAnswers 2 503)) Background
      (sampleRequest Background) genesis =
      (rq', w',
       (None, Some (Wrapped "error making request"
                      (RetryErrors
                         (map (fun i => Some (ErrorString "connection reset by peer")) (seq 0 2)
                          ++ Some (StatusError 503) :: replicate (4 - 2) None)))))
    /\ calls w' = calls genesis + 2 + 1
    /\ attempts_of (trace w') = attempts_of (trace genesis) + 2 + 1.
Proof.
  apply (retryDo_status_from_500_ends_the_call
           (sampleClient "http://localhost:9117" false (dropsThenAnswers 2 503)) Background
           (sampleRequest Background) genesis 2
           (fun _ => ErrorString "connection reset by peer")
           {| http.StatusCode := 503; http.ResponseBody := NewBuffer "" |}).
  - intros b Hb. discriminate Hb.
  - lia.
  - cbn. lia.
  - intros i rq Hi Hrq. unfold http.Do. rewrite Hrq. cbn.
    unfold dropsThenAnswers. destruct (Nat.ltb_spec i 2); [reflexivity | lia].
  - reflexivity.
  - intros rq Hrq. unfold http.Do. rewrite Hrq. reflexivity.
Defined.

(** X6. When all five attempts fail in the transport, [retryDo] returns
    after the fifth, and its error lists the error of each attempt, in the
    order of the attempts. *)
Theorem retryDo_five_failures_list_each_error c ctx request w errs :
  readable request ->
  (forall i rq, i < 5 -> http.Ctx rq = http.Ctx request ->
     snd (http.Do (transport c) (calls w + i) rq) = http.DoErr (errs i)) ->
  (forall i, i < 5 -> retry.IsRecoverable (errs i) = true) ->
  exists rq' w',
    retryDo c ctx request w =
      (rq', w',
       (None, Some (Wrapped "error making request"
                      (RetryErrors [Some (errs 0); Some (errs 1); Some (errs 2);
                                    Some (errs 3); Some (errs 4)]))))
    /\ calls w' = calls w + 5
    /\ attempts_of (trace w') = attempts_of (trace w) + 5.
Proof.
  intros Hread Hfail Hrec.
  rewrite (retryDo_unfold _ _ _ _ Hread).
  destruct (loop_failures c (http.Ctx request) errs (calls w) 4 0
              {| req := prepared request; resp := None; err := None; world_of := w |})
    as (f' & Hl & Hctx & Hcalls & Hatt).
  - lia.
  - apply prepared_ctx.
  - cbn. lia.
  - intros i rq Hi. apply Hfail. lia.
  - intros i Hi. apply Hrec. lia.
  - change (errorLog errs 0) with (replicate 5 (@None error)) in Hl.
    change (5 - 0) with 5 in Hl. rewrite Hl. cbn [Nat.add Nat.sub] in *.
    pose proof (Hfail 4 (req f') ltac:(lia) Hctx) as HD. rewrite Nat.add_0_r in Hcalls.
    rewrite <- Hcalls in HD.
    destruct (http.Do (transport c) (calls (world_of f')) (req f')) as [rq' r] eqn:HD'.
    cbn in HD. subst r.
    pose proof (attempt_error _ _ _ _ HD') as Ha.
    rewrite (loop_last _ _ _ _ _ _ _ Ha (Hrec 4 ltac:(lia))).
    eexists _, _. split; [reflexivity|].
    cbn [world_of] in *. unfold logRetry, sent, tick, emit. cbn [calls trace world_of].
    rewrite !attempts_of_app. cbn. lia.
Qed.

(** X6, at a sample: a connection that is reset every time. *)
Lemma retryDo_five_failures_list_each_error_witness :
  exists rq' w',
    retryDo (sampleClient "http://localhost:9117" false
               (refuses (ErrorString "connection reset by peer")))
      Background (sampleRequest Background) genesis =
      (rq', w',
       (None, Some (Wrapped "error making request"
                      (RetryErrors [Some (ErrorString "connection reset by peer");
                                    Some (ErrorString "connection reset by peer");
                                    Some (ErrorString "connection reset by peer");
                                    Some (ErrorString "connection reset by peer");
                                    Some (ErrorString "connection reset by peer")]))))
    /\ calls w' = calls genesis + 5
    /\ attempts_of (trace w') = attempts_of (trace genesis) + 5.
Proof.
  apply (retryDo_five_failures_list_each_error
           (sampleClient "http://localhost:9117" false
              (refuses (ErrorString "connection reset by peer")))
           Background (sampleRequest Background) genesis
           (fun _ => ErrorString "connection reset by peer")).
  - intros b Hb. discriminate Hb.
  - intros i rq _ Hrq. unfold http.Do. rewrite Hrq. reflexivity.
  - reflexivity.
Defined.

(** *** What every attempt of a call sends *)

Lemma Do_body t n rq : http.Body rq = None -> http.Body (fst (http.Do t n rq)) = None.
Proof.
  intros H. unfold http.Do. destruct (http.Ctx rq n); [exact H|].
  cbn. rewrite H. reflexivity.
Qed.

Lemma Do_header t n rq : http.Header (fst (http.Do t n rq)) = http.Header rq.
Proof. unfold http.Do. destruct (http.Ctx rq n); reflexivity. Qed.

Lemma about_ext rq rq' ev :
  http.Method rq' = http.Method rq -> http.URL rq' = http.URL rq ->
  (http.Body rq = None -> http.Body rq' = None) ->
  about rq' ev -> about rq ev.
Proof.
  intros Hm Hu Hb. destruct ev; cbn; rewrite ?Hm, ?Hu; [|auto..].
  intros (? & ? & Hp). auto.
Qed.

Lemma about_request_line rq ev :
  about rq ev -> request_line (http.Method rq) (url.String (http.URL rq)) ev.
Proof. destruct ev; cbn; tauto. Qed.

Lemma about_without_body rq ev :
  http.Body rq = None -> about rq ev -> without_body ev.
Proof. destruct ev; cbn; tauto. Qed.

(** Every attempt of one run of the loop sends the same request line, and
    the first event of the run is the first attempt. *)
Lemma loop_sends c :
  forall k n log f,
    n + S k = 5 ->
    exists tr,
      trace (world_of (fst (retry.loop sleepFrame retryConfig (attempt c) (S k) n n log f)))
      = (trace (world_of f)
         ++ EvSend (calls (world_of f)) (http.Method (req f)) (url.String (http.URL (req f)))
              (http.payload (req f)) :: tr)%list
      /\ Forall (about (req f)) tr.
Proof.
  induction k as [|k IH]; intros n log f Hn.
  - destruct (attempt c f) as [f1 r] eqn:Ha.
    pose proof (attempt_world c f) as Hw. pose proof (attempt_request c f) as Hrq.
    rewrite Ha in Hw, Hrq. cbn [fst] in Hw, Hrq.
    destruct r as [e|].
    + destruct (retry.IsRecoverable e) eqn:Hrec.
      * assert (n = 4) as -> by lia.
        rewrite (loop_last _ _ _ _ _ _ _ Ha Hrec). cbn [fst logRetry world_of].
        rewrite Hw. unfold sent, tick, emit. cbn [trace]. rewrite <- app_assoc.
        eexists. split; [reflexivity|]. constructor; [|constructor].
        cbn. rewrite Hrq, Do_url. reflexivity.
      * destruct e; try discriminate Hrec.
        rewrite (loop_unrecoverable _ _ _ _ _ _ _ _ Ha). cbn [fst]. rewrite Hw.
        exists []. split; [reflexivity | constructor].
    + rewrite (loop_done _ _ _ _ _ _ _ Ha). cbn [fst]. rewrite Hw.
      exists []. split; [reflexivity | constructor].
  - destruct (attempt c f) as [f1 r] eqn:Ha.
    pose proof (attempt_world c f) as Hw. pose proof (attempt_request c f) as Hrq.
    rewrite Ha in Hw, Hrq. cbn [fst] in Hw, Hrq.
    destruct r as [e|].
    + destruct (retry.IsRecoverable e) eqn:Hrec.
      * rewrite (loop_again _ _ _ _ _ _ _ _ Ha Hrec) by lia.
        match goal with
        | |- context [retry.loop _ _ _ _ _ _ ?l ?g] =>
            destruct (IH (S n) l g) as (tr & Ht & Hf); [lia|]
        end.
        rewrite Ht. cbn [sleepFrame logRetry world_of req].
        rewrite Hw. unfold sent, tick, emit. cbn [trace calls].
        rewrite <- !app_assoc. cbn [app].
        eexists. split; [reflexivity|].
        assert (http.Method (req f1) = http.Method (req f)) as Hm
          by (rewrite Hrq; apply Do_method).
        assert (http.URL (req f1) = http.URL (req f)) as Hu by (rewrite Hrq; apply Do_url).
        assert (http.Body (req f) = None -> http.Body (req f1) = None) as Hb
          by (rewrite Hrq; apply Do_body).
        constructor; [cbn; rewrite Hu; reflexivity|].
        constructor; [exact I|].
        constructor.
        { cbn. rewrite Hm, Hu. split; [reflexivity|]. split; [reflexivity|].
          intros H. unfold http.payload. rewrite (Hb H). reflexivity. }
        apply (Forall_impl _ _ _ Hf). intros ev. cbn [sleepFrame logRetry req].
        apply about_ext; assumption.
      * destruct e; try discriminate Hrec.
        rewrite (loop_unrecoverable _ _ _ _ _ _ _ _ Ha). cbn [fst]. rewrite Hw.
        exists []. split; [reflexivity | constructor].
    + rewrite (loop_done _ _ _ _ _ _ _ Ha). cbn [fst]. rewrite Hw.
      exists []. split; [reflexivity | constructor].
Qed.

(** One call of [retryDo], as the trace shows it. *)
Lemma retryDo_sends c ctx request w :
  readable request ->
  exists tr,
    trace (snd (fst (retryDo c ctx request w)))
    = (trace w ++ EvSend (calls w) (http.Method request) (url.String (http.URL request))
                    (http.payload (prepared request)) :: tr)%list
    /\ Forall (about (prepared request)) tr.
Proof.
  intros Hread. rewrite (retryDo_unfold _ _ _ _ Hread).
  destruct (loop_sends c 4 0 (replicate 5 None)
              {| req := prepared request; resp := None; err := None; world_of := w |} eq_refl)
    as (tr & Ht & Hf).
  cbn [req world_of] in Ht, Hf. rewrite prepared_method, prepared_url in Ht.
  destruct (retry.loop _ _ _ _ _ _ _ _) as [f' [e|]]; cbn [fst snd] in *; eauto.
Qed.

(** *** A server that checks the header *)

Lemma Do_guarded check t n rq :
  check (http.Header rq) = true -> http.Do (guarded check t) n rq = http.Do t n rq.
Proof. intros H. unfold http.Do, guarded. rewrite H. reflexivity. Qed.

Lemma attempt_guarded check c f :
  check (http.Header (req f)) = true -> attempt (behind check c) f = attempt c f.
Proof.
  intros H. unfold attempt. cbn [transport behind]. rewrite (Do_guarded _ _ _ _ H). reflexivity.
Qed.

Lemma attempt_header c f : http.Header (req (fst (attempt c f))) = http.Header (req f).
Proof. rewrite attempt_request. apply Do_header. Qed.

Lemma loop_guarded check c :
  forall k n idx log f,
    check (http.Header (req f)) = true ->
    retry.loop sleepFrame retryConfig (attempt (behind check c)) k n idx log f
    = retry.loop sleepFrame retryConfig (attempt c) k n idx log f.
Proof.
  induction k as [|k IH]; intros n idx log f H; [reflexivity|].
  cbn [retry.loop]. rewrite (attempt_guarded _ _ _ H).
  pose proof (attempt_header c f) as Hh.
  destruct (attempt c f) as [f1 [e|]]; [|reflexivity]. cbn [fst] in Hh.
  destruct (negb (retry.IsRecoverable e)); [reflexivity|].
  destruct (Nat.eqb n (retry.attempts retryConfig - 1)); [reflexivity|].
  apply IH. cbn. rewrite Hh. exact H.
Qed.

(** A server that checks the header of every request does not change a
    call of [retryDo] whose request passes the check: no attempt of the
    call sends another header. *)
Lemma retryDo_guarded check c ctx request w :
  check (http.Header request) = true ->
  retryDo (behind check c) ctx request w = retryDo c ctx request w.
Proof.
  intros H. unfold retryDo.
  destruct (match http.Body request with
            | Some body => let '(originalBody, e) := copyBody body in
                           (resetBody request originalBody, e)
            | None => (request, None)
            end) as [request1 [e|]] eqn:E; [reflexivity|].
  assert (http.Header request1 = http.Header request) as Hh.
  { destruct (http.Body request) as [b|].
    - destruct (copyBody b) as [ob e']. inversion E. reflexivity.
    - inversion E. reflexivity. }
  unfold retry.Do.
  change (fold_left (fun c0 (opt : @retry.Option Frame) => opt c0)
            [retry.OnRetry logRetry; retry.Attempts 5; retry.MaxJitter (retry.Second * 1)]
            retry.default_config) with retryConfig.
  rewrite loop_guarded by (cbn [req]; rewrite Hh; exact H). reflexivity.
Qed.

(** *** Where a response comes from *)

Lemma Do_answer t n rq rp :
  snd (http.Do t n rq) = http.DoResp rp -> http.answer (t n rq) = http.DoResp rp.
Proof. unfold http.Do. destruct (http.Ctx rq n); [discriminate | auto]. Qed.

Lemma attempt_answered c f : answered_by c (fst (attempt c f)).
Proof.
  unfold attempt, answered_by.
  destruct (http.Do (transport c) (calls (world_of f)) (req f)) as [rq' [e|rp]] eqn:HD.
  - cbn. discriminate.
  - assert (http.answer (transport c (calls (world_of f)) (req f)) = http.DoResp rp) as Ha
      by (apply Do_answer; rewrite HD; reflexivity).
    destruct (http.StatusCode rp <? 500)%Z; [|destruct (http.StatusCode rp >=? 500)%Z];
      cbn; intros rp' [= <-]; eauto.
Qed.

Lemma loop_answered c :
  forall k n idx log f,
    answered_by c f ->
    answered_by c (fst (retry.loop sleepFrame retryConfig (attempt c) k n idx log f)).
Proof.
  induction k as [|k IH]; intros n idx log f H; [exact H|].
  cbn [retry.loop]. pose proof (attempt_answered c f) as Ha.
  destruct (attempt c f) as [f1 [e|]]; [|exact Ha]. cbn [fst] in Ha.
  destruct (negb (retry.IsRecoverable e)); [exact Ha|].
  destruct (Nat.eqb n (retry.attempts retryConfig - 1)); [exact Ha|].
  apply IH. exact Ha.
Qed.

(** A response that [retryDo] returns is an answer of the transport. *)
Lemma retryDo_answered c ctx request w rq' w' rp e :
  retryDo c ctx request w = (rq', w', (Some rp, e)) ->
  exists n rq, http.answer (transport c n rq) = http.DoResp rp.
Proof.
  unfold retryDo.
  destruct (match http.Body request with
            | Some body => let '(originalBody, e) := copyBody body in
                           (resetBody request originalBody, e)
            | None => (request, None)
            end) as [request1 [e0|]]; [discriminate|].
  unfold retry.Do.
  change (fold_left (fun c0 (opt : @retry.Option Frame) => opt c0)
            [retry.OnRetry logRetry; retry.Attempts 5; retry.MaxJitter (retry.Second * 1)]
            retry.default_config) with retryConfig.
  cbn [retry.attempts retryConfig retry.lastErrorOnly].
  pose proof (loop_answered c 5 0 0 (replicate 5 None)
                {| req := request1; resp := None; err := None; world_of := w |}) as H.
  destruct (retry.loop _ _ _ _ _ _ _ _) as [f' [e'|]]; [discriminate|].
  intros [= _ _ Hr _]. apply H; [|exact Hr]. intros rp' Hrp'. discriminate Hrp'.
Qed.

(** * The query that [buildUrl] writes *)

(** [buildUrl] adds each parameter to [url.Values] once: every key gets
    the one-element list of its value. *)
Lemma queryParams_fmap (params : gmap string string) :
  map_fold (fun key value acc => url.Add acc key value) ∅ params
  = (fun v => [v]) <$> params.
Proof.
  apply (map_fold_weak_ind
           (fun r (m : gmap string string) => r = (fun v => [v]) <$> m)).
  - rewrite fmap_empty. reflexivity.
  - intros k v m r Hk ->. unfold url.Add, url.Values.
    rewrite lookup_fmap, Hk. cbn. rewrite fmap_insert. reflexivity.
Qed.

Lemma insert_sorted_perm k l : Permutation (url.insert_sorted k l) (k :: l).
Proof.
  induction l as [|x l IH]; cbn; [reflexivity|].
  destruct (String.leb k x); [reflexivity|].
  rewrite IH. apply perm_swap.
Qed.

Lemma sort_strings_perm l : Permutation (url.sort_strings l) l.
Proof.
  induction l as [|x l IH]; cbn; [reflexivity|].
  rewrite insert_sorted_perm, IH. reflexivity.
Qed.

Lemma insert_sorted_sorted k l :
  Sorted (fun a b => String.leb a b = true) l ->
  Sorted (fun a b => String.leb a b = true) (url.insert_sorted k l).
Proof.
  induction l as [|x l IH]; intros Hs; cbn.
  - repeat constructor.
  - destruct (String.leb k x) eqn:E.
    + constructor; [exact Hs|]. constructor. exact E.
    + apply Sorted_inv in Hs as [Hs Hd]. constructor; [apply IH, Hs|].
      destruct l as [|y l]; cbn.
      * constructor. destruct (String.leb_total k x) as [H|H]; congruence.
      * apply HdRel_inv in Hd. destruct (String.leb k y).
        -- constructor. destruct (String.leb_total k x) as [H|H]; congruence.
        -- constructor. exact Hd.
Qed.

Lemma sort_strings_sorted l : Sorted (fun a b => String.leb a b = true) (url.sort_strings l).
Proof.
  induction l as [|x l IH]; cbn; [constructor|]. apply insert_sorted_sorted, IH.
Qed.

Lemma sorted_keys_elem params k : k ∈ sorted_keys params <-> is_Some (params !! k).
Proof.
  unfold sorted_keys. rewrite sort_strings_perm.
  change (map fst (map_to_list params)) with ((map_to_list params).*1).
  rewrite list_elem_of_fmap. split.
  - intros ([k' v] & -> & H). apply elem_of_map_to_list in H. eauto.
  - intros [v H]. exists (k, v). split; [reflexivity|]. apply elem_of_map_to_list, H.
Qed.

Lemma sorted_keys_length params : length (sorted_keys params) = size params.
Proof.
  unfold sorted_keys. rewrite (Permutation_length (sort_strings_perm _)).
  rewrite length_map. apply length_map_to_list.
Qed.

Lemma flat_map_singletons {A B} (f : A -> list B) (g : A -> B) l :
  (forall a, a ∈ l -> f a = [g a]) -> flat_map f l = map g l.
Proof.
  induction l as [|a l IH]; intros H; cbn; [reflexivity|].
  rewrite (H a) by left. rewrite IH; [reflexivity|].
  intros b Hb. apply H. right. exact Hb.
Qed.

(** The query, pair by pair. *)
Lemma query_of_pairs params :
  query_of params
  = strings.Join
      (map (fun k => pair_text k (default "" (params !! k))) (sorted_keys params)) "&".
Proof.
  unfold query_of, url.Encode, url.Values. rewrite queryParams_fmap.
  rewrite map_to_list_fmap.
  assert (map fst (prod_map id (fun v : string => [v]) <$> map_to_list params)
          = map fst (map_to_list params)) as ->.
  { change (prod_map id (fun v : string => [v]) <$> map_to_list params)
      with (map (prod_map id (fun v : string => [v])) (map_to_list params)).
    rewrite map_map. apply map_ext. intros [k v]. reflexivity. }
  fold (sorted_keys params). f_equal.
  apply flat_map_singletons. intros k Hk.
  apply sorted_keys_elem in Hk as [v Hv].
  rewrite lookup_fmap, Hv. reflexivity.
Qed.

Lemma query_of_empty : query_of ∅ = "".
Proof. reflexivity. Qed.

(** ** Escaping *)

Lemma escape_byte_query_bytes c :
  all_bytes escaped_byte (url.escape_byte url.encodeQueryComponent c) = true.
Proof. destruct c as [[] [] [] [] [] [] [] []]; vm_compute; reflexivity. Qed.

Lemma QueryEscape_bytes s : all_bytes escaped_byte (url.QueryEscape s) = true.
Proof.
  unfold url.QueryEscape, url.escape.
  induction s as [|c s IH]; cbn [map_bytes]; [reflexivity|].
  rewrite all_bytes_app, escape_byte_query_bytes, IH. reflexivity.
Qed.

(** [unescape] reads back what [escape] has written for one byte. *)
Lemma unescape_escape_byte c t :
  url.unescape (url.escape_byte url.encodeQueryComponent c ++ t) url.encodeQueryComponent
  = match url.unescape t url.encodeQueryComponent with
    | Ok t' => Ok (String c t')
    | Err e => Err e
    end.
Proof. destruct c as [[] [] [] [] [] [] [] []]; reflexivity. Qed.

Lemma QueryEscape_unescape s :
  url.unescape (url.QueryEscape s) url.encodeQueryComponent = Ok s.
Proof.
  unfold url.QueryEscape, url.escape.
  induction s as [|c s IH]; cbn [map_bytes]; [reflexivity|].
  rewrite unescape_escape_byte, IH. reflexivity.
Qed.

Lemma CountByte_app a b c :
  strings.CountByte (a ++ b) c = strings.CountByte a c + strings.CountByte b c.
Proof.
  induction a as [|x a IH]; cbn; [reflexivity|]. rewrite IH. lia.
Qed.

Lemma CountByte_none (p : ascii -> bool) s c :
  p c = false -> all_bytes p s = true -> strings.CountByte s c = 0.
Proof.
  intros Hc. induction s as [|x s IH]; cbn; [reflexivity|].
  intros [Hx Hs]%andb_prop. rewrite (IH Hs).
  destruct (Ascii.eqb_spec x c) as [->|]; [congruence | reflexivity].
Qed.

Lemma Join_count L sep c a :
  (forall p, In p L -> strings.CountByte p c = a) ->
  strings.CountByte (strings.Join L (String sep "")) c
  = a * length L + (if Ascii.eqb sep c then length L - 1 else 0).
Proof.
  induction L as [|x L IH]; intros H.
  - cbn. destruct (Ascii.eqb sep c); lia.
  - destruct L as [|y L].
    + cbn [strings.Join length]. rewrite (H x) by (left; reflexivity).
      destruct (Ascii.eqb sep c); cbn; lia.
    + rewrite Join_cons, CountByte_app, (H x) by (left; reflexivity).
      cbn [append strings.CountByte].
      rewrite IH by (intros p Hp; apply H; right; exact Hp).
      cbn [length]. destruct (Ascii.eqb sep c); lia.
Qed.

Lemma Join_bytes (p : ascii -> bool) L sep :
  p sep = true -> (forall x, In x L -> all_bytes p x = true) ->
  all_bytes p (strings.Join L (String sep "")) = true.
Proof.
  intros Hsep. induction L as [|x L IH]; intros H; [reflexivity|].
  destruct L as [|y L].
  - apply H. left. reflexivity.
  - rewrite Join_cons, all_bytes_app, (H x) by (left; reflexivity).
    cbn [append all_bytes]. rewrite Hsep. cbn [andb].
    apply IH. intros z Hz. apply H. right. exact Hz.
Qed.

Lemma pair_text_count_eq k v : strings.CountByte (pair_text k v) "=" = 1.
Proof.
  unfold pair_text. rewrite CountByte_app. cbn [append strings.CountByte].
  rewrite (CountByte_none escaped_byte (url.QueryEscape k)),
    (CountByte_none escaped_byte (url.QueryEscape v));
    try apply QueryEscape_bytes; reflexivity.
Qed.

Lemma pair_text_count_amp k v : strings.CountByte (pair_text k v) "&" = 0.
Proof.
  unfold pair_text. rewrite CountByte_app. cbn [append strings.CountByte].
  rewrite (CountByte_none escaped_byte (url.QueryEscape k)),
    (CountByte_none escaped_byte (url.QueryEscape v));
    try apply QueryEscape_bytes; reflexivity.
Qed.

Lemma escaped_query_byte c : escaped_byte c = true -> query_byte c = true.
Proof. unfold query_byte. intros ->. reflexivity. Qed.

Lemma pair_text_bytes k v : all_bytes query_byte (pair_text k v) = true.
Proof.
  unfold pair_text. rewrite all_bytes_app. cbn [append all_bytes].
  rewrite !(all_bytes_impl _ _ _ escaped_query_byte (QueryEscape_bytes _)). reflexivity.
Qed.

Lemma query_of_bytes params : all_bytes query_byte (query_of params) = true.
Proof.
  rewrite query_of_pairs. apply Join_bytes; [reflexivity|].
  intros x Hx. apply in_map_iff in Hx as (k & <- & _). apply pair_text_bytes.
Qed.

(** X7. The query that [buildUrl] writes lists every parameter exactly
    once, as the escaped key, an equals sign and the escaped value, and
    the pairs stand in the byte order of their keys, joined by [&]: the
    order in which the map is walked does not show. *)
Theorem query_lists_each_parameter_once_in_key_order params :
  query_of params
  = strings.Join
      (map (fun k => pair_text k (default "" (params !! k))) (sorted_keys params)) "&"
  /\ Sorted (fun a b => String.leb a b = true) (sorted_keys params)
  /\ NoDup (sorted_keys params)
  /\ (forall k, k ∈ sorted_keys params <-> is_Some (params !! k)).
Proof.
  split; [apply query_of_pairs|].
  split; [apply sort_strings_sorted|].
  split; [|apply sorted_keys_elem].
  unfold sorted_keys. rewrite sort_strings_perm. apply NoDup_fst_map_to_list.
Qed.

(** X8. No key and no value can add a separator of its own to the query:
    the query holds one equals sign for each parameter and one ampersand
    between two parameters, and every other byte is an unreserved byte, a
    percent sign or a plus sign. *)
Theorem query_separators_come_from_encode_only params :
  strings.CountByte (query_of params) "=" = size params
  /\ strings.CountByte (query_of params) "&" = size params - 1
  /\ all_bytes query_byte (query_of params) = true.
Proof.
  rewrite query_of_pairs.
  split; [|split].
  - rewrite (Join_count _ "&" "=" 1).
    + rewrite length_map, sorted_keys_length. cbn. lia.
    + intros p Hp. apply in_map_iff in Hp as (k & <- & _). apply pair_text_count_eq.
  - rewrite (Join_count _ "&" "&" 0).
    + rewrite length_map, sorted_keys_length. cbn. lia.
    + intros p Hp. apply in_map_iff in Hp as (k & <- & _). apply pair_text_count_amp.
  - rewrite <- query_of_pairs. apply query_of_bytes.
Qed.

(** X9. What [buildUrl] writes for a key or a value reads back as it was:
    unescaping the query escape of any byte string gives the string. *)
Theorem query_escape_round_trip (s : string) :
  url.unescape (url.QueryEscape s) url.encodeQueryComponent = Ok s.
Proof. apply QueryEscape_unescape. Qed.

(** * Slashes in the host and in the endpoint *)

Lemma token_bytes t : token t = true -> all_bytes path_byte t = true.
Proof.
  unfold token. intros [H|H]%orb_prop.
  - apply String.eqb_eq in H as ->. reflexivity.
  - destruct (plain_element_inv _ H) as (_ & Hb & _).
    exact (all_bytes_impl _ _ _ element_path_byte Hb).
Qed.

Lemma Join_token_bytes L :
  forallb token L = true -> all_bytes path_byte (strings.Join L "/") = true.
Proof.
  intros H. apply Join_bytes; [reflexivity|].
  intros x Hx. apply token_bytes. rewrite forallb_forall in H. apply H, Hx.
Qed.

Lemma path_of_app A B : path_of (A ++ B) = path_of A ++ path_of B.
Proof.
  induction A as [|a A IH]; [reflexivity|].
  cbn [app path_of]. rewrite IH, !app_assoc_s. reflexivity.
Qed.

Lemma path_of_token_bytes L :
  forallb token L = true -> all_bytes path_byte (path_of L) = true.
Proof.
  intros H. destruct L as [|e L]; [reflexivity|].
  rewrite path_of_Join by discriminate. cbn [append all_bytes].
  change (path_byte "/") with true. cbn [andb]. apply Join_token_bytes, H.
Qed.

Lemma filter_tokens L :
  forallb token L = true -> forallb plain_element (List.filter url.nonempty L) = true.
Proof.
  induction L as [|t L IH]; [reflexivity|]. cbn [forallb List.filter].
  intros [Ht HL]%andb_prop. destruct (url.nonempty t) eqn:E; [|exact (IH HL)].
  cbn [forallb]. rewrite (IH HL), andb_true_r.
  unfold token in Ht. apply orb_prop in Ht as [Ht|Ht]; [|exact Ht].
  unfold url.nonempty in E. rewrite Ht in E. discriminate.
Qed.

(** The empty string is the join of the one empty token only. *)
Lemma Join_empty L :
  strings.Join L "/" = "" -> List.filter url.nonempty L = [].
Proof.
  destruct L as [|x [|y L]]; [reflexivity | |].
  - cbn. intros ->. reflexivity.
  - rewrite Join_cons. destruct x; discriminate.
Qed.

Lemma Join_nonempty_list L : url.nonempty (strings.Join L "/") = true -> L <> [].
Proof. destruct L; [discriminate | discriminate]. Qed.

(** What [path.Join] makes of the host path, [apiBase] and the endpoint:
    the elements of the three that are not empty, behind one slash each. *)
Lemma Join_api_tokens HT ET :
  forallb token HT = true -> forallb token ET = true ->
  path.Join [(if url.nonempty (path_of HT) then path_of HT else "/");
             apiBase; strings.Join ET "/"]
  = "/" ++ strings.Join
             (List.filter url.nonempty HT ++ apiElements ++ List.filter url.nonempty ET) "/".
Proof.
  intros HHT HET.
  pose (B := [""; "api"; "v2.0"; "indexers"; ""]).
  assert (forallb token B = true) as HB by (vm_compute; reflexivity).
  assert (strings.Join B "/" = apiBase) as HBs by reflexivity.
  assert (List.filter url.nonempty B = apiElements) as HBf by reflexivity.
  pose (HT' := match HT with [] => [""] | _ => HT end).
  assert (forallb token HT' = true) as HHT' by (destruct HT; [reflexivity | exact HHT]).
  assert (HT' <> []) as HHTn by (destruct HT; discriminate).
  assert ((if url.nonempty (path_of HT) then path_of HT else "/")
          = strings.Join ("" :: HT') "/") as Hfirst.
  { destruct HT as [|x HT]; [reflexivity|].
    assert (url.nonempty (path_of (x :: HT)) = true) as -> by reflexivity.
    rewrite path_of_Join by discriminate. reflexivity. }
  assert (List.filter url.nonempty HT' = List.filter url.nonempty HT) as HHTf
    by (destruct HT; reflexivity).
  rewrite Hfirst. unfold path.Join. cbn [List.filter].
  assert (negb (String.eqb (strings.Join ("" :: HT') "/") "") = true) as ->.
  { destruct HT' as [|y l]; [contradiction | reflexivity]. }
  change (negb (String.eqb apiBase "")) with true. cbv iota.
  fold (url.nonempty (strings.Join ET "/")).
  destruct (url.nonempty (strings.Join ET "/")) eqn:HE.
  - pose proof (Join_nonempty_list _ HE) as HETn.
    assert (strings.Join [strings.Join ("" :: HT') "/"; apiBase; strings.Join ET "/"] "/"
            = strings.Join ("" :: (HT' ++ B ++ ET)) "/") as ->.
    { change ("" :: (HT' ++ B ++ ET))%list with (("" :: HT') ++ (B ++ ET))%list.
      rewrite (Join_app ("" :: HT') (B ++ ET)) by (discriminate || (destruct B; discriminate)).
      rewrite (Join_app B ET) by (discriminate || exact HETn).
      rewrite HBs. reflexivity. }
    rewrite Clean_tokens.
    + rewrite !List.filter_app, HHTf, HBf. reflexivity.
    + destruct HT'; discriminate.
    + rewrite !forallb_app, HHT', HB, HET. reflexivity.
  - assert (List.filter url.nonempty ET = []) as ->.
    { apply Join_empty. unfold url.nonempty in HE.
      destruct (String.eqb_spec (strings.Join ET "/") ""); [assumption | discriminate]. }
    assert (strings.Join [strings.Join ("" :: HT') "/"; apiBase] "/"
            = strings.Join ("" :: (HT' ++ B)) "/") as ->.
    { change ("" :: (HT' ++ B))%list with (("" :: HT') ++ B)%list.
      rewrite (Join_app ("" :: HT') B) by discriminate.
      rewrite HBs. reflexivity. }
    rewrite Clean_tokens.
    + rewrite !List.filter_app, HHTf, HBf, app_nil_r. reflexivity.
    + destruct HT'; discriminate.
    + rewrite !forallb_app, HHT', HB. reflexivity.
Qed.

Lemma HasPrefix_first a s :
  Ascii.eqb "/" a = false -> strings.HasPrefix (String a s) "/" = false.
Proof.
  intros H. unfold strings.HasPrefix. cbn [String.prefix].
  destruct (ascii_dec "/" a) as [<-|]; [discriminate H | reflexivity].
Qed.

Lemma trailing_slash_bytes e : all_bytes path_byte (trailing_slash e) = true.
Proof. unfold trailing_slash. destruct (strings.HasSuffixByte e "/"); reflexivity. Qed.

Lemma api_elements_plain A B :
  forallb token A = true -> forallb token B = true ->
  forallb plain_element (List.filter url.nonempty A ++ apiElements ++ List.filter url.nonempty B)
  = true.
Proof.
  intros HA HB. rewrite !forallb_app, (filter_tokens _ HA), (filter_tokens _ HB). reflexivity.
Qed.

(** [URL.JoinPath] with [apiBase] and an endpoint, for a host path and an
    endpoint made of tokens. *)
Lemma URL_JoinPath_tokens h HT ET :
  forallb token HT = true -> forallb token ET = true ->
  url.URL_JoinPath (plain_url h (path_of HT)) [apiBase; strings.Join ET "/"]
  = plain_url h
      ((if url.nonempty (path_of HT) then "/" else "")
       ++ strings.Join
            (List.filter url.nonempty HT ++ apiElements ++ List.filter url.nonempty ET) "/"
       ++ trailing_slash (strings.Join ET "/")).
Proof.
  intros HHT HET.
  pose proof (api_elements_plain _ _ HHT HET) as Hplain.
  pose proof (Join_path_bytes _ Hplain) as Hjb.
  pose proof (Join_no_trailing_slash _ Hplain) as Hns.
  pose proof (Join_api_tokens HT ET HHT HET) as HJ.
  set (J := strings.Join
              (List.filter url.nonempty HT ++ apiElements ++ List.filter url.nonempty ET) "/") in *.
  unfold url.URL_JoinPath.
  rewrite (EscapedPath_plain _ _ (path_of_token_bytes _ HHT)).
  destruct HT as [|x HT'] eqn:E.
  - cbn [path_of] in *. change (url.nonempty "") with false in *.
    change (strings.HasPrefix "" "/") with false. cbn [negb].
    change ("/" ++ "") with "/". cbn [List.last].
    rewrite HJ. change (strings.drop 1 ("/" ++ J)) with J.
    rewrite Hns. cbn [negb]. rewrite andb_true_r.
    assert ((if strings.HasSuffixByte (strings.Join ET "/") "/" then J ++ "/" else J)
            = J ++ trailing_slash (strings.Join ET "/")) as ->.
    { unfold trailing_slash. destruct (strings.HasSuffixByte (strings.Join ET "/") "/");
        [reflexivity | rewrite app_nil_r_s; reflexivity]. }
    rewrite setPath_plain; [reflexivity|].
    rewrite all_bytes_app, Hjb. apply trailing_slash_bytes.
  - assert (url.nonempty (path_of (x :: HT')) = true) as Hn by reflexivity.
    rewrite Hn in *.
    assert (strings.HasPrefix (path_of (x :: HT')) "/" = true) as ->
      by (apply (HasPrefix_slash (x ++ path_of HT'))).
    cbn [negb List.last].
    rewrite HJ.
    assert (strings.HasSuffixByte ("/" ++ J) "/" = false) as ->.
    { unfold strings.HasSuffixByte in *.
      assert (url.nonempty J = true) as HJn.
      { unfold J. destruct (List.filter url.nonempty (x :: HT')) as [|y l] eqn:F;
          [reflexivity|].
        apply Join_nonempty. destruct (plain_element_inv y) as (Hy & _); [|exact Hy].
        cbn [app forallb] in Hplain. apply andb_prop in Hplain as [Hy _]. exact Hy. }
      destruct (nonempty_inv _ HJn) as (a & s & HJe).
      change ("/" ++ J) with (String "/" J). cbn [strings.last_byte].
      rewrite HJe. rewrite <- HJe. exact Hns. }
    cbn [negb]. rewrite andb_true_r.
    assert ((if strings.HasSuffixByte (strings.Join ET "/") "/"
             then ("/" ++ J) ++ "/" else "/" ++ J)
            = "/" ++ J ++ trailing_slash (strings.Join ET "/")) as ->.
    { unfold trailing_slash. destruct (strings.HasSuffixByte (strings.Join ET "/") "/");
        [reflexivity | rewrite app_nil_r_s; reflexivity]. }
    rewrite setPath_plain; [reflexivity|].
    cbn [append all_bytes]. change (path_byte "/") with true. cbn [andb].
    rewrite all_bytes_app, Hjb. apply trailing_slash_bytes.
Qed.

(** The URL that [buildUrl] resolves for a plain host whose path, and an
    endpoint, are made of tokens. *)
Lemma buildUrl_tokens h c HT ET params :
  plain h = true ->
  Host (cfg c) = origin_of h ++ path_of HT ->
  forallb token HT = true -> forallb token ET = true ->
  buildUrl c (strings.Join ET "/") params
  = Ret (origin_of h
         ++ path_of (List.filter url.nonempty HT ++ apiElements ++ List.filter url.nonempty ET)
         ++ trailing_slash (strings.Join ET "/")
         ++ query_suffix (query_of params)).
Proof.
  intros Hpl Hhost HHT HET.
  pose proof (api_elements_plain _ _ HHT HET) as Hplain.
  pose proof (Join_path_bytes _ Hplain) as Hjb.
  set (X := (List.filter url.nonempty HT ++ apiElements ++ List.filter url.nonempty ET)%list) in *.
  assert (X <> []) as HXn.
  { unfold X. destruct (List.filter url.nonempty HT); discriminate. }
  set (J := strings.Join X "/") in *.
  set (T := trailing_slash (strings.Join ET "/")).
  assert (all_bytes path_byte ("/" ++ J ++ T) = true) as Hjb'.
  { cbn [append all_bytes]. change (path_byte "/") with true. cbn [andb].
    rewrite all_bytes_app, Hjb. apply trailing_slash_bytes. }
  assert (exists a s, J = String a s /\ Ascii.eqb "/" a = false) as (a & s & HJe & Ha).
  { unfold J. destruct X as [|y l]; [contradiction|].
    cbn [forallb] in Hplain. apply andb_prop in Hplain as [Hy _].
    destruct (plain_element_inv _ Hy) as (Hyn & Hyb & _).
    destruct (nonempty_inv _ Hyn) as (a & s & ->).
    cbn [all_bytes] in Hyb. apply andb_prop in Hyb as [Ha _].
    exists a. destruct l; cbn; eauto using element_not_slash. }
  unfold buildUrl, url.JoinPath. rewrite Hhost. unfold origin_of.
  rewrite app_assoc_s, app_assoc_s.
  rewrite (Parse_plain h Hpl _ (path_of_token_bytes _ HHT) (path_of_shape _)).
  rewrite (URL_JoinPath_tokens h HT ET HHT HET). fold X. fold J. fold T.
  assert (url.String
            (plain_url h ((if url.nonempty (path_of HT) then "/" else "") ++ J ++ T))
          = scheme h ++ "://" ++ authority_of h ++ "/" ++ J ++ T) as ->.
  { match goal with |- url.String ?u = _ =>
      change (url.String u) with (url.String (url.with_query u "")) end.
    destruct (url.nonempty (path_of HT)) eqn:Hp.
    - rewrite (String_plain h Hpl) by assumption.
      assert (strings.HasPrefix ("/" ++ J ++ T) "/" = true) as -> by apply HasPrefix_slash.
      rewrite andb_false_r.
      change (query_suffix "") with "". rewrite app_nil_r_s. reflexivity.
    - cbn [append].
      assert (all_bytes path_byte (J ++ T) = true) as HJT
        by (rewrite all_bytes_app, Hjb; apply trailing_slash_bytes).
      rewrite (String_plain h Hpl) by assumption.
      assert (url.nonempty (J ++ T) = true) as -> by (rewrite HJe; reflexivity).
      assert (strings.HasPrefix (J ++ T) "/" = false) as ->
        by (rewrite HJe; apply HasPrefix_first, Ha).
      cbn [andb negb].
      change (query_suffix "") with "". rewrite app_nil_r_s. reflexivity. }
  rewrite (Parse_plain h Hpl ("/" ++ J ++ T) Hjb') by (right; cbn; eauto).
  fold (query_of params).
  rewrite (String_plain h Hpl _ _ Hjb').
  assert (strings.HasPrefix ("/" ++ J ++ T) "/" = true) as -> by apply HasPrefix_slash.
  rewrite andb_false_r. unfold J.
  rewrite (path_of_Join X HXn).
  repeat rewrite app_assoc_s. cbn [append]. repeat rewrite app_assoc_s. reflexivity.
Qed.

Lemma host_text h p : host_of h ++ p = origin_of h ++ path_of (segments h) ++ p.
Proof. unfold host_of, origin_of. rewrite !app_assoc_s. reflexivity. Qed.

(** X10. [buildUrl] drops the empty path elements, those that doubled,
    leading or trailing slashes make, from the path of the host and from
    the endpoint: for a host with a plain origin, the URL is the origin,
    the elements of the host path, of [apiBase] and of the endpoint that
    are not empty, each behind one slash, one slash at the end if the
    endpoint ends in one, and the query. *)
Theorem buildUrl_drops_empty_path_elements c h hostElems endElems params :
  plain h = true ->
  Host (cfg c) = origin_of h ++ path_of hostElems ->
  forallb token hostElems = true -> forallb token endElems = true ->
  buildUrl c (strings.Join endElems "/") params
  = Ret (origin_of h
         ++ path_of (List.filter url.nonempty hostElems ++ apiElements
                     ++ List.filter url.nonempty endElems)
         ++ trailing_slash (strings.Join endElems "/")
         ++ query_suffix (query_of params)).
Proof. intros Hpl Hh HHT HET. apply buildUrl_tokens; assumption. Qed.

(** X10, at a sample: the host [https://example.org//jackett/] and the
    endpoint [/all//results/]. *)
Lemma buildUrl_drops_empty_path_elements_witness :
  buildUrl (sampleClient "https://example.org//jackett/" false notFoundServer)
    (strings.Join [""; "all"; ""; "results"; ""] "/") {[ "t" := "search" ]}
  = Ret (origin_of behindProxy
         ++ path_of (List.filter url.nonempty [""; "jackett"; ""] ++ apiElements
                     ++ List.filter url.nonempty [""; "all"; ""; "results"; ""])
         ++ trailing_slash (strings.Join [""; "all"; ""; "results"; ""] "/")
         ++ query_suffix (query_of {[ "t" := "search" ]})).
Proof.
  apply (buildUrl_drops_empty_path_elements
           (sampleClient "https://example.org//jackett/" false notFoundServer)
           behindProxy [""; "jackett"; ""] [""; "all"; ""; "results"; ""] {[ "t" := "search" ]});
    reflexivity.
Defined.

(** X11. A slash at the end of the configured host and a slash at the
    start of the endpoint change nothing: with or without them,
    [buildUrl] resolves the same URL. *)
Theorem buildUrl_ignores_slashes_at_the_joints c h es endpoint params :
  plain h = true ->
  Host (cfg c) = host_of h \/ Host (cfg c) = host_of h ++ "/" ->
  es <> [] -> forallb plain_element es = true ->
  endpoint = strings.Join es "/" \/ endpoint = "/" ++ strings.Join es "/" ->
  buildUrl c endpoint params
  = Ret (host_of h ++ apiBase ++ strings.Join es "/" ++ query_suffix (query_of params)).
Proof.
  intros Hpl Hh Hne Hes He.
  destruct (plain_parts h Hpl) as (_ & _ & _ & _ & _ & Hsegs).
  assert (exists HT, Host (cfg c) = origin_of h ++ path_of HT
                     /\ forallb token HT = true
                     /\ List.filter url.nonempty HT = segments h) as (HT & HhT & HtT & HfT).
  { destruct Hh as [Hh|Hh].
    - exists (segments h). split; [|split].
      + rewrite Hh. unfold host_of, origin_of. rewrite !app_assoc_s. reflexivity.
      + apply plain_tokens, Hsegs.
      + apply plain_filter, Hsegs.
    - exists (segments h ++ [""])%list. split; [|split].
      + rewrite Hh, path_of_app. unfold host_of, origin_of. cbn [path_of].
        rewrite !app_assoc_s. reflexivity.
      + rewrite forallb_app, (plain_tokens _ Hsegs). reflexivity.
      + rewrite List.filter_app, (plain_filter _ Hsegs). cbn. apply app_nil_r. }
  assert (exists ET, endpoint = strings.Join ET "/"
                     /\ forallb token ET = true
                     /\ List.filter url.nonempty ET = es
                     /\ trailing_slash endpoint = "") as (ET & HeT & HtE & HfE & Htr).
  { assert (trailing_slash (strings.Join es "/") = "") as Hts
      by (unfold trailing_slash; rewrite (Join_no_trailing_slash _ Hes); reflexivity).
    destruct He as [He|He].
    - exists es. rewrite He. split; [reflexivity|]. split; [apply plain_tokens, Hes|].
      split; [apply plain_filter, Hes | exact Hts].
    - exists ("" :: es). split; [|split; [|split]].
      + rewrite He. destruct es; [contradiction | reflexivity].
      + cbn [forallb]. rewrite (plain_tokens _ Hes). reflexivity.
      + cbn. apply plain_filter, Hes.
      + rewrite He. unfold trailing_slash, strings.HasSuffixByte.
        destruct es as [|e es']; [contradiction|].
        cbn [forallb] in Hes. apply andb_prop in Hes as [He1 Hes'].
        destruct (plain_element_inv _ He1) as (Hn & _).
        pose proof (Join_nonempty e es' "/" Hn) as HJ.
        destruct (nonempty_inv _ HJ) as (a & s & E). rewrite E.
        rewrite (last_byte_app "/" a s). rewrite <- E.
        assert (forallb plain_element (e :: es') = true) as Hall
          by (cbn [forallb]; rewrite He1, Hes'; reflexivity).
        pose proof (Join_no_trailing_slash _ Hall) as Hns.
        unfold strings.HasSuffixByte in Hns. rewrite Hns. reflexivity. }
  rewrite HeT in *.
  rewrite (buildUrl_tokens h c HT ET params Hpl HhT HtT HtE), HfT, HfE, Htr.
  rewrite path_of_Join by (destruct (segments h); discriminate).
  rewrite (joined_text _ _ Hne).
  rewrite host_text, !app_assoc_s. reflexivity.
Qed.

(** X11, at a sample: the host [https://example.org/jackett/] and the
    endpoint [/all/results/torznab/api]. *)
Lemma buildUrl_ignores_slashes_at_the_joints_witness :
  buildUrl (sampleClient "https://example.org/jackett/" false notFoundServer)
    "/all/results/torznab/api" {[ "t" := "search" ]}
  = Ret (host_of behindProxy ++ apiBase ++ strings.Join ["all"; "results"; "torznab"; "api"] "/"
         ++ query_suffix (query_of {[ "t" := "search" ]})).
Proof.
  apply (buildUrl_ignores_slashes_at_the_joints
           (sampleClient "https://example.org/jackett/" false notFoundServer)
           behindProxy ["all"; "results"; "torznab"; "api"] "/all/results/torznab/api"
           {[ "t" := "search" ]}).
  - reflexivity.
  - right. reflexivity.
  - discriminate.
  - reflexivity.
  - right. reflexivity.
Defined.

(** * The URL of [buildUrl], parsed again *)

Lemma query_byte_not_hash c : query_byte c = true -> Ascii.eqb "#" c = false.
Proof. by_bytes c. Qed.

Lemma query_byte_not_question c : query_byte c = true -> Ascii.eqb c "?" = false.
Proof. by_bytes c. Qed.

Lemma query_byte_not_ctl c :
  query_byte c = true -> ((byte_of c <? 32)%N || (byte_of c =? 127)%N) = false.
Proof. by_bytes c. Qed.

Lemma digit_no_colon c : is_digit c = true -> Ascii.eqb c ":" = false.
Proof. by_bytes c. Qed.

Lemma last_byte_in (p : ascii -> bool) s :
  url.nonempty s = true -> all_bytes p s = true ->
  exists c, strings.last_byte s = Some c /\ p c = true.
Proof.
  induction s as [|x s IH]; [discriminate|]. intros _ H.
  cbn [all_bytes] in H. apply andb_prop in H as [Hx Hs].
  destruct s as [|y s]; [exists x; auto|].
  destruct (IH eq_refl Hs) as (c & Hc & Hp). exists c. auto.
Qed.

(** A string that ends in a text of bytes other than [x] does not end in
    [x]. *)
Lemma HasSuffixByte_tail (p : ascii -> bool) a s x :
  (forall c, p c = true -> Ascii.eqb c x = false) ->
  url.nonempty s = true -> all_bytes p s = true ->
  strings.HasSuffixByte (a ++ s) x = false.
Proof.
  intros Hp Hn Hs. unfold strings.HasSuffixByte.
  destruct (last_byte_in p s Hn Hs) as (c & Hc & Hpc).
  destruct (nonempty_inv _ Hn) as (y & s' & ->).
  rewrite last_byte_app, Hc. apply Hp, Hpc.
Qed.

Section PlainRequest.

Variable h : PlainHost.
Hypothesis plain_h : plain h = true.

(** The authority of a plain host does not end in a colon:
    [removeEmptyPort] leaves it alone. *)
Lemma removeEmptyPort_plain : http.removeEmptyPort (authority_of h) = authority_of h.
Proof.
  destruct (plain_parts h plain_h) as (_ & _ & _ & Hn & Hp & _).
  unfold http.removeEmptyPort, authority_of, port_suffix.
  destruct (url.nonempty (port h)) eqn:Hport.
  - assert (strings.HasSuffixByte (name h ++ ":" ++ port h) ":" = false) as ->.
    { rewrite <- app_assoc_s.
      apply (HasSuffixByte_tail is_digit (name h ++ ":") (port h) ":" digit_no_colon Hport Hp). }
    reflexivity.
  - rewrite app_nil_r_s.
    rewrite HasSuffixByte_none; [reflexivity|].
    apply (all_bytes_none name_byte); [apply name_not_colon | exact Hn].
Qed.

(** [url.Parse] on the text of a plain host with a path and a query. *)
Lemma Parse_plain_query p q :
  all_bytes path_byte p = true ->
  (p = "" \/ exists p', p = String "/" p') ->
  all_bytes query_byte q = true ->
  url.Parse (origin_of h ++ p ++ query_suffix q) = Ok (url.with_query (plain_url h p) q).
Proof.
  intros Hp Hshape Hq. unfold origin_of, query_suffix.
  destruct (url.nonempty q) eqn:Hqn.
  2:{ unfold url.nonempty in Hqn. destruct (String.eqb_spec q ""); [subst q | discriminate].
      rewrite app_nil_r_s, !app_assoc_s. apply (Parse_plain h plain_h p Hp Hshape). }
  pose proof (host_text_bytes h plain_h p Hp) as Hall.
  destruct (plain_parts h plain_h) as (Hsn & Hs & _).
  assert (all_bytes path_byte ("//" ++ authority_of h ++ p) = true) as Hrest.
  { rewrite all_bytes_app in Hall. apply andb_prop in Hall as [_ Hall].
    cbn [all_bytes] in Hall. apply andb_prop in Hall as [_ Hall]. exact Hall. }
  set (R := "//" ++ authority_of h ++ p) in *.
  assert ((scheme h ++ "://" ++ authority_of h) ++ p ++ "?" ++ q
          = scheme h ++ String ":" (R ++ String "?" q)) as ->.
  { unfold R. rewrite ?app_assoc_s. cbn [append]. rewrite ?app_assoc_s. reflexivity. }
  assert (any_byte (Ascii.eqb "#") (scheme h ++ String ":" (R ++ String "?" q)) = false) as Hhash.
  { rewrite any_byte_app. cbn [any_byte]. rewrite any_byte_app. cbn [any_byte].
    rewrite all_bytes_app in Hall. apply andb_prop in Hall as [Hsch _].
    rewrite (all_bytes_none _ _ _ path_byte_not_hash Hsch).
    rewrite (all_bytes_none _ _ _ path_byte_not_hash Hrest).
    rewrite (all_bytes_none _ _ _ query_byte_not_hash Hq). reflexivity. }
  assert (any_byte (fun c => (byte_of c <? 32)%N || (byte_of c =? 127)%N)
            (scheme h ++ String ":" (R ++ String "?" q)) = false) as Hctl.
  { rewrite any_byte_app. cbn [any_byte]. rewrite any_byte_app. cbn [any_byte].
    rewrite all_bytes_app in Hall. apply andb_prop in Hall as [Hsch _].
    rewrite (all_bytes_none _ _ _ path_byte_not_ctl Hsch).
    rewrite (all_bytes_none _ _ _ path_byte_not_ctl Hrest).
    rewrite (all_bytes_none _ _ _ query_byte_not_ctl Hq). reflexivity. }
  assert (strings.HasSuffixByte (R ++ String "?" q) "?" = false) as Hsuf.
  { replace (R ++ String "?" q) with ((R ++ "?") ++ q) by (rewrite app_assoc_s; reflexivity).
    apply (HasSuffixByte_tail query_byte _ q "?" query_byte_not_question Hqn Hq). }
  assert (strings.break "?" (R ++ String "?" q) = (R, String "?" q)) as Hbr.
  { apply break_app; [|eauto].
    apply (all_bytes_none _ _ _ path_byte_not_question Hrest). }
  unfold url.Parse. rewrite (Cut_none _ _ Hhash). cbn [String.eqb].
  unfold url.parse, url.stringContainsCTLByte. rewrite Hctl.
  assert (String.eqb (scheme h ++ String ":" (R ++ String "?" q)) "*" = false) as ->.
  { apply String.eqb_neq. destruct (nonempty_inv _ Hsn) as (c & s' & E). rewrite E.
    cbn [append]. intros Heq. injection Heq as Hc _.
    rewrite E in Hs. cbn [all_bytes] in Hs. apply andb_prop in Hs as [Hc' _].
    exact (lower_not_star _ Hc' Hc). }
  rewrite (getScheme_lower _ _ Hsn Hs). cbn [url.bind].
  rewrite (ToLower_lower _ Hs).
  rewrite Hsuf. cbn [andb].
  unfold strings.Cut. rewrite Hbr.
  unfold R.
  rewrite !HasPrefix_slashes, !HasPrefix_slashes1.
  cbn [negb andb]. rewrite Hsn. cbn [orb andb].
  change (strings.drop 2 ("//" ++ authority_of h ++ p)) with (authority_of h ++ p).
  rewrite (break_app "/" (authority_of h) p);
    [| apply (all_bytes_none authority_byte);
       [apply authority_not_slash | apply (authority_bytes h plain_h)]
     | exact Hshape].
  rewrite (parseAuthority_plain h plain_h). cbn [url.bind].
  rewrite setPath_plain by exact Hp. reflexivity.
Qed.

End PlainRequest.

(** X12. [setCookies] hands the jar the cookies for the URL of the API
    base: for a plain host, the URL has the scheme and the authority of
    the host and the path of the host followed by [/api/v2.0/indexers/],
    with the slash at its end. A client without a jar panics. *)
Theorem setCookies_scopes_the_cookies_to_the_api_base
    {Cookie : Type} c h (received : list (JarCall Cookie)) (cookies : list Cookie) :
  plain h = true -> Host (cfg c) = host_of h ->
  setCookies c (Some received) cookies
  = Ret (received
         ++ [{| jarURL := Some (plain_url h (path_of (segments h) ++ apiBase));
                jarCookies := cookies |}])%list
  /\ setCookies c None cookies = Panic "invalid memory address or nil pointer dereference".
Proof.
  intros Hpl Hh.
  destruct (plain_parts h Hpl) as (_ & _ & _ & _ & _ & Hsegs).
  pose proof (buildUrl_tokens h c (segments h) [""; ""] ∅ Hpl) as HB.
  change (strings.Join [""; ""] "/") with "/" in HB.
  rewrite (plain_filter _ Hsegs) in HB.
  cbn [List.filter url.nonempty String.eqb negb] in HB. rewrite app_nil_r in HB.
  change (trailing_slash "/") with "/" in HB. rewrite query_of_empty in HB.
  change (query_suffix "") with "" in HB.
  assert (buildUrl c "/" ∅ = Ret (origin_of h ++ (path_of (segments h) ++ apiBase) ++ query_suffix ""))
    as HB'.
  { rewrite HB.
    - rewrite path_of_app. change (query_suffix "") with "".
      rewrite !app_assoc_s, !app_nil_r_s. reflexivity.
    - rewrite Hh. unfold host_of, origin_of. rewrite !app_assoc_s. reflexivity.
    - apply plain_tokens, Hsegs.
    - reflexivity. }
  assert (url.Parse (origin_of h ++ (path_of (segments h) ++ apiBase) ++ query_suffix "")
          = Ok (plain_url h (path_of (segments h) ++ apiBase))) as HP.
  { apply (Parse_plain_query h Hpl (path_of (segments h) ++ apiBase) "").
    - rewrite all_bytes_app, (path_of_bytes _ Hsegs). reflexivity.
    - right. destruct (segments h); cbn; eauto.
    - reflexivity. }
  unfold setCookies. rewrite HB', HP. split; reflexivity.
Qed.

(** X12, at a sample: the host [https://example.org/jackett] and one
    cookie. *)
Lemma setCookies_scopes_the_cookies_to_the_api_base_witness :
  setCookies (sampleClient "https://example.org/jackett" false notFoundServer)
    (Some []) ["session=1"]
  = Ret ([] ++ [{| jarURL := Some (plain_url behindProxy
                                     (path_of (segments behindProxy) ++ apiBase));
                   jarCookies := ["session=1"] |}])%list
  /\ setCookies (sampleClient "https://example.org/jackett" false notFoundServer)
       None ["session=1"]
     = Panic "invalid memory address or nil pointer dereference".
Proof.
  apply (setCookies_scopes_the_cookies_to_the_api_base
           (sampleClient "https://example.org/jackett" false notFoundServer)
           behindProxy [] ["session=1"]); reflexivity.
Defined.

(** * The requests of [getCtx], [postCtx] and [postBasicCtx] *)

Lemma NewRequest_plain h ctx method p q body :
  plain h = true ->
  all_bytes path_byte p = true ->
  (p = "" \/ exists p', p = String "/" p') ->
  all_bytes query_byte q = true ->
  http.NewRequestWithContext ctx method (origin_of h ++ p ++ query_suffix q) body
  = Ok {| http.Method := method;
          http.URL := url.with_query (plain_url h p) q;
          http.Header := [];
          http.Body := option_map NewBuffer body;
          http.GetBody := option_map (fun b _ => (NewBuffer b, None)) body;
          http.ContentLength := match body with
                                | Some b => Z.of_nat (String.length b)
                                | None => 0
                                end;
          http.Ctx := ctx |}.
Proof.
  intros Hpl Hp Hshape Hq. unfold http.NewRequestWithContext.
  rewrite (Parse_plain_query h Hpl p q Hp Hshape Hq).
  cbn [url.Host url.with_query plain_url]. rewrite (removeEmptyPort_plain h Hpl). reflexivity.
Qed.

Lemma NewRequest_get ctx reqUrl rq :
  http.NewRequestWithContext ctx "GET" reqUrl None = Ok rq ->
  http.Method rq = "GET" /\ http.Body rq = None /\ http.Ctx rq = ctx.
Proof.
  unfold http.NewRequestWithContext. destruct (url.Parse reqUrl); [|discriminate].
  intros [= <-]. auto.
Qed.

Lemma NewRequest_header ctx method reqUrl body rq :
  http.NewRequestWithContext ctx method reqUrl body = Ok rq -> http.Header rq = [].
Proof.
  unfold http.NewRequestWithContext. destruct (url.Parse reqUrl); [|discriminate].
  intros [= <-]. reflexivity.
Qed.

(** The path of the URL that [buildUrl] resolves for a plain host. *)
Lemma api_path_bytes h es :
  plain h = true -> forallb plain_element es = true ->
  all_bytes path_byte (path_of (segments h) ++ apiBase ++ strings.Join es "/") = true.
Proof.
  intros Hpl Hes. destruct (plain_parts h Hpl) as (_ & _ & _ & _ & _ & Hsegs).
  rewrite !all_bytes_app, (path_of_bytes _ Hsegs), (Join_path_bytes _ Hes). reflexivity.
Qed.

Lemma api_path_shape h es :
  exists p', path_of (segments h) ++ apiBase ++ strings.Join es "/" = String "/" p'.
Proof. destruct (segments h); cbn; eauto. Qed.

(** [URL.String] gives back the text that [url.Parse] was given. *)
Lemma api_url_text h es q :
  plain h = true -> forallb plain_element es = true ->
  url.String (url.with_query
                (plain_url h (path_of (segments h) ++ apiBase ++ strings.Join es "/")) q)
  = host_of h ++ apiBase ++ strings.Join es "/" ++ query_suffix q.
Proof.
  intros Hpl Hes.
  rewrite (String_plain h Hpl) by (apply api_path_bytes; assumption).
  assert (strings.HasPrefix (path_of (segments h) ++ apiBase ++ strings.Join es "/") "/" = true)
    as -> by (destruct (api_path_shape h es) as (p' & ->); apply HasPrefix_slash).
  rewrite andb_false_r. unfold host_of. rewrite !app_assoc_s. reflexivity.
Qed.

Lemma withBasicAuth_line c rq :
  http.Method (withBasicAuth c rq) = http.Method rq
  /\ http.URL (withBasicAuth c rq) = http.URL rq
  /\ http.Body (withBasicAuth c rq) = http.Body rq
  /\ http.Ctx (withBasicAuth c rq) = http.Ctx rq.
Proof.
  unfold withBasicAuth.
  destruct (url.nonempty (BasicUser (cfg c)) && url.nonempty (BasicPass (cfg c))); auto.
Qed.

Lemma withBasicAuth_header c rq :
  http.Header (withBasicAuth c rq)
  = if url.nonempty (BasicUser (cfg c)) && url.nonempty (BasicPass (cfg c))
    then (http.Header rq ++ [http.Authorization (BasicUser (cfg c)) (BasicPass (cfg c))])%list
    else http.Header rq.
Proof.
  unfold withBasicAuth.
  destruct (url.nonempty (BasicUser (cfg c)) && url.nonempty (BasicPass (cfg c))); reflexivity.
Qed.

(** The GET request of [getCtx] for a plain host. *)
Lemma get_request_built c ctx h es params :
  plain h = true -> Host (cfg c) = host_of h ->
  es <> [] -> forallb plain_element es = true ->
  buildUrl c (strings.Join es "/") params
  = Ret (host_of h ++ apiBase ++ strings.Join es "/" ++ query_suffix (query_of params))
  /\ http.NewRequestWithContext ctx "GET"
       (host_of h ++ apiBase ++ strings.Join es "/" ++ query_suffix (query_of params)) None
     = Ok {| http.Method := "GET";
             http.URL := url.with_query
                           (plain_url h (path_of (segments h) ++ apiBase ++ strings.Join es "/"))
                           (query_of params);
             http.Header := []; http.Body := None; http.GetBody := None;
             http.ContentLength := 0; http.Ctx := ctx |}.
Proof.
  intros Hpl Hh Hne Hes. split; [apply (buildUrl_plain h Hpl c es params Hh Hne Hes)|].
  assert (host_of h ++ apiBase ++ strings.Join es "/" ++ query_suffix (query_of params)
          = origin_of h ++ (path_of (segments h) ++ apiBase ++ strings.Join es "/")
            ++ query_suffix (query_of params)) as ->
    by (rewrite host_text, !app_assoc_s; reflexivity).
  apply (NewRequest_plain h ctx "GET" _ _ None Hpl (api_path_bytes h es Hpl Hes)
           (or_intror (api_path_shape h es)) (query_of_bytes params)).
Qed.

(** X13. For a plain host and an endpoint of plain elements, every
    attempt of [getCtx] is a GET of the URL that [buildUrl] has resolved,
    the host, [apiBase], the endpoint and the query, with no request
    body; there is at least one attempt. *)
Theorem getCtx_sends_the_resolved_url c ctx h es params w :
  plain h = true -> Host (cfg c) = host_of h ->
  es <> [] -> forallb plain_element es = true ->
  exists w' r tr,
    getCtx c ctx (strings.Join es "/") params w = Ret (w', r)
    /\ trace w' = (trace w ++ tr)%list
    /\ 1 <= attempts_of tr
    /\ Forall (request_line "GET"
                 (host_of h ++ apiBase ++ strings.Join es "/"
                  ++ query_suffix (query_of params))) tr
    /\ Forall without_body tr.
Proof.
  intros Hpl Hh Hne Hes.
  destruct (get_request_built c ctx h es params Hpl Hh Hne Hes) as (HB & HN).
  remember (host_of h ++ apiBase ++ strings.Join es "/" ++ query_suffix (query_of params))
    as U eqn:HUdef.
  unfold getCtx. rewrite HB. unfold getRawCtx. rewrite HN.
  match goal with |- context [retryDo c ctx ?rq w] => set (request := rq) end.
  destruct (withBasicAuth_line c
              {| http.Method := "GET";
                 http.URL := url.with_query
                               (plain_url h (path_of (segments h) ++ apiBase ++ strings.Join es "/"))
                               (query_of params);
                 http.Header := []; http.Body := None; http.GetBody := None;
                 http.ContentLength := 0; http.Ctx := ctx |}) as (Hm & Hu & Hb & _).
  fold request in Hm, Hu, Hb. cbn [http.Method http.URL http.Body] in Hm, Hu, Hb.
  assert (readable request) as Hread by (apply readable_no_body, Hb).
  destruct (retryDo_sends c ctx request w Hread) as (tr & Ht & Hf).
  assert (prepared request = request) as Hprep by (unfold prepared; rewrite Hb; reflexivity).
  rewrite Hprep in Ht, Hf.
  assert (url.String (http.URL request) = U) as HS
    by (rewrite Hu, HUdef; apply (api_url_text h es _ Hpl Hes)).
  rewrite Hm, HS in Ht. unfold http.payload in Ht. rewrite Hb in Ht.
  destruct (retryDo c ctx request w) as [[rq' w'] [r e]]. cbn [fst snd] in Ht.
  exists w'.
  exists (match e with Some _ => None | None => r end,
          match e with
          | Some e' => Some (Wrapped ("error making get request: " ++ U) e')
          | None => None
          end).
  exists (EvSend (calls w) "GET" U "" :: tr).
  split; [destruct e; reflexivity|].
  split; [exact Ht|]. split; [cbn; lia|].
  split.
  - constructor; [split; reflexivity|].
    apply (Forall_impl _ _ _ Hf). intros ev Hev.
    apply about_request_line in Hev. rewrite Hm, HS in Hev. exact Hev.
  - constructor; [reflexivity|].
    apply (Forall_impl _ _ _ Hf). intros ev. apply about_without_body, Hb.
Qed.

(** X13, at a sample: a search behind [http://localhost:9117]. *)
Lemma getCtx_sends_the_resolved_url_witness :
  exists w' r tr,
    getCtx (sampleClient "http://localhost:9117" false notFoundServer) Background
      (strings.Join ["all"; "results"; "torznab"; "api"] "/") {[ "t" := "search" ]} genesis
    = Ret (w', r)
    /\ trace w' = (trace genesis ++ tr)%list
    /\ 1 <= attempts_of tr
    /\ Forall (request_line "GET"
                 (host_of localhost ++ apiBase
                  ++ strings.Join ["all"; "results"; "torznab"; "api"] "/"
                  ++ query_suffix (query_of {[ "t" := "search" ]}))) tr
    /\ Forall without_body tr.
Proof.
  apply (getCtx_sends_the_resolved_url
           (sampleClient "http://localhost:9117" false notFoundServer) Background
           localhost ["all"; "results"; "torznab"; "api"] {[ "t" := "search" ]} genesis);
    try reflexivity. discriminate.
Defined.

(** ** The form request *)

Lemma formRequest_line c ctx h es opts :
  http.Method (formRequest c ctx h es opts) = "POST"
  /\ http.URL (formRequest c ctx h es opts)
     = url.with_query (plain_url h (path_of (segments h) ++ apiBase ++ strings.Join es "/")) ""
  /\ http.Body (formRequest c ctx h es opts) = Some (NewBuffer (query_of opts))
  /\ http.Ctx (formRequest c ctx h es opts) = ctx.
Proof.
  unfold formRequest, withBasicAuth.
  destruct (url.nonempty (BasicUser (cfg c)) && url.nonempty (BasicPass (cfg c))); auto.
Qed.

(** What [postCtx] and [postBasicCtx] do before they send. *)
Lemma form_request_built c ctx h es opts :
  plain h = true -> Host (cfg c) = host_of h ->
  es <> [] -> forallb plain_element es = true ->
  buildUrl c (strings.Join es "/") ∅ = Ret (host_of h ++ apiBase ++ strings.Join es "/")
  /\ http.NewRequestWithContext ctx "POST" (host_of h ++ apiBase ++ strings.Join es "/")
       (Some (query_of opts))
     = Ok {| http.Method := "POST";
             http.URL := url.with_query
                           (plain_url h (path_of (segments h) ++ apiBase ++ strings.Join es "/")) "";
             http.Header := [];
             http.Body := Some (NewBuffer (query_of opts));
             http.GetBody := Some (fun _ => (NewBuffer (query_of opts), None));
             http.ContentLength := Z.of_nat (String.length (query_of opts));
             http.Ctx := ctx |}.
Proof.
  intros Hpl Hh Hne Hes. split.
  - rewrite (buildUrl_plain h Hpl c es ∅ Hh Hne Hes), query_of_empty.
    change (query_suffix "") with "". rewrite app_nil_r_s. reflexivity.
  - assert (host_of h ++ apiBase ++ strings.Join es "/"
            = origin_of h ++ (path_of (segments h) ++ apiBase ++ strings.Join es "/")
              ++ query_suffix "") as ->.
    { change (query_suffix "") with "". rewrite host_text, !app_assoc_s, app_nil_r_s.
      reflexivity. }
    apply (NewRequest_plain h ctx "POST" _ "" (Some (query_of opts)) Hpl
             (api_path_bytes h es Hpl Hes) (or_intror (api_path_shape h es)) eq_refl).
Qed.

Lemma formRequest_text c ctx h es opts :
  plain h = true -> forallb plain_element es = true ->
  url.String (http.URL (formRequest c ctx h es opts))
  = host_of h ++ apiBase ++ strings.Join es "/".
Proof.
  intros Hpl Hes. destruct (formRequest_line c ctx h es opts) as (_ & -> & _).
  rewrite (api_url_text h es "" Hpl Hes). change (query_suffix "") with "".
  rewrite app_nil_r_s. reflexivity.
Qed.

Lemma formRequest_readable c ctx h es opts : readable (formRequest c ctx h es opts).
Proof.
  intros b Hb. destruct (formRequest_line c ctx h es opts) as (_ & _ & Hb' & _).
  rewrite Hb' in Hb. injection Hb as <-. reflexivity.
Qed.

Lemma formRequest_sent c ctx h es opts w :
  plain h = true -> forallb plain_element es = true ->
  sent {| req := prepared (formRequest c ctx h es opts); resp := None; err := None;
          world_of := w |}
  = posted h es opts w.
Proof.
  intros Hpl Hes. unfold sent, posted. cbn [req world_of].
  rewrite prepared_method, prepared_url, (formRequest_text c ctx h es opts Hpl Hes).
  destruct (formRequest_line c ctx h es opts) as (-> & _ & Hb & _).
  rewrite (prepared_payload _ _ Hb eq_refl). reflexivity.
Qed.

(** X14. [postCtx] sends the parameters in the request body, form
    encoded, and none of them in the URL: for a plain host, the first
    attempt is a POST of the host, [apiBase] and the endpoint, without a
    query, whose body is the encoded form, and every later attempt has the
    same request line. *)
Theorem postCtx_sends_the_form_in_the_body c ctx h es opts w :
  plain h = true -> Host (cfg c) = host_of h ->
  es <> [] -> forallb plain_element es = true ->
  exists w' r tr,
    postCtx c ctx (strings.Join es "/") opts w = Ret (w', r)
    /\ trace w'
       = (trace w
          ++ EvSend (calls w) "POST" (host_of h ++ apiBase ++ strings.Join es "/")
               (query_of opts) :: tr)%list
    /\ Forall (request_line "POST" (host_of h ++ apiBase ++ strings.Join es "/")) tr.
Proof.
  intros Hpl Hh Hne Hes.
  destruct (form_request_built c ctx h es opts Hpl Hh Hne Hes) as (HB & HN).
  unfold postCtx. rewrite HB. fold (query_of opts). rewrite HN.
  fold (formRequest c ctx h es opts).
  destruct (formRequest_line c ctx h es opts) as (Hm & Hu & Hb & _).
  destruct (retryDo_sends c ctx _ w (formRequest_readable c ctx h es opts)) as (tr & Ht & Hf).
  rewrite (prepared_payload _ _ Hb eq_refl) in Ht. cbn [pending NewBuffer] in Ht.
  pose proof (formRequest_text c ctx h es opts Hpl Hes) as HS.
  rewrite Hm, HS in Ht.
  destruct (retryDo c ctx (formRequest c ctx h es opts) w) as [[rq' w'] [r e]].
  cbn [fst snd] in Ht.
  exists w'. destruct e as [e|]; eexists _, tr; (split; [reflexivity|]); (split; [exact Ht|]);
    apply (Forall_impl _ _ _ Hf); intros ev Hev; apply about_request_line in Hev;
    rewrite prepared_method, prepared_url, Hm, HS in Hev; exact Hev.
Qed.

(** X14, at a sample: the form [q=ubuntu] over a connection that breaks. *)
Lemma postCtx_sends_the_form_in_the_body_witness :
  exists w' r tr,
    postCtx (sampleClient "http://localhost:9117" false brokenPipe) Background
      (strings.Join ["all"; "results"; "torznab"; "api"] "/") {[ "q" := "ubuntu" ]} genesis
    = Ret (w', r)
    /\ trace w'
       = (trace genesis
          ++ EvSend (calls genesis) "POST"
               (host_of localhost ++ apiBase
                ++ strings.Join ["all"; "results"; "torznab"; "api"] "/")
               (query_of {[ "q" := "ubuntu" ]}) :: tr)%list
    /\ Forall (request_line "POST"
                 (host_of localhost ++ apiBase
                  ++ strings.Join ["all"; "results"; "torznab"; "api"] "/")) tr.
Proof.
  apply (postCtx_sends_the_form_in_the_body
           (sampleClient "http://localhost:9117" false brokenPipe) Background
           localhost ["all"; "results"; "torznab"; "api"] {[ "q" := "ubuntu" ]} genesis);
    try reflexivity. discriminate.
Defined.

(** X15. [postBasicCtx] returns the answer of its one attempt whatever
    its status, where [postCtx] on the same answer returns the response
    only below 500 and an error from 500 on; both have made one attempt
    then. *)
Theorem postBasicCtx_returns_the_answer_unchecked c ctx h es opts w rp :
  plain h = true -> Host (cfg c) = host_of h ->
  es <> [] -> forallb plain_element es = true ->
  (forall rq, http.Ctx rq = ctx ->
     snd (http.Do (transport c) (calls w) rq) = http.DoResp rp) ->
  postBasicCtx c ctx (strings.Join es "/") opts w
  = Ret (posted h es opts w, (Some rp, None))
  /\ postCtx c ctx (strings.Join es "/") opts w
     = Ret (posted h es opts w,
            if (http.StatusCode rp <? 500)%Z then (Some rp, None)
            else (None,
                  Some (Wrapped ("error making post request: "
                                 ++ host_of h ++ apiBase ++ strings.Join es "/")
                          (Wrapped "error making request"
                             (RetryErrors [Some (StatusError (http.StatusCode rp));
                                           None; None; None; None]))))).
Proof.
  intros Hpl Hh Hne Hes Hans.
  destruct (form_request_built c ctx h es opts Hpl Hh Hne Hes) as (HB & HN).
  destruct (formRequest_line c ctx h es opts) as (Hm & Hu & Hb & Hc).
  split.
  - unfold postBasicCtx. rewrite HB. fold (query_of opts). rewrite HN.
    fold (formRequest c ctx h es opts).
    rewrite (Hans _ Hc). unfold posted.
    rewrite Hm, (formRequest_text c ctx h es opts Hpl Hes).
    unfold http.payload. rewrite Hb. reflexivity.
  - unfold postCtx. rewrite HB. fold (query_of opts). rewrite HN.
    fold (formRequest c ctx h es opts).
    rewrite (retryDo_unfold _ _ _ _ (formRequest_readable c ctx h es opts)).
    set (f := {| req := prepared (formRequest c ctx h es opts); resp := None; err := None;
                 world_of := w |}).
    pose proof (Hans (prepared (formRequest c ctx h es opts))
                  (eq_trans (prepared_ctx _) Hc)) as HD.
    destruct (http.Do (transport c) (calls w) (prepared (formRequest c ctx h es opts)))
      as [rq' r] eqn:HD'.
    cbn [snd] in HD. subst r.
    destruct (Z.ltb_spec (http.StatusCode rp) 500) as [Hs|Hs].
    + rewrite (loop_done c f _ 4 0 0 (replicate 5 None) (attempt_below_500 c f rq' rp HD' Hs)).
      cbn [req resp world_of]. unfold f. rewrite (formRequest_sent c ctx h es opts w Hpl Hes).
      reflexivity.
    + rewrite (loop_unrecoverable c f _ _ 4 0 0 (replicate 5 None)
                 (attempt_from_500 c f rq' rp HD' Hs)).
      cbn [req resp world_of]. unfold f. rewrite (formRequest_sent c ctx h es opts w Hpl Hes).
      reflexivity.
Qed.

(** X15, at a sample: a server that answers 503. *)
Lemma postBasicCtx_returns_the_answer_unchecked_witness :
  postBasicCtx (sampleClient "http://localhost:9117" false (answers unavailable)) Background
    (strings.Join ["all"; "results"; "torznab"; "api"] "/") {[ "q" := "ubuntu" ]} genesis
  = Ret (posted localhost ["all"; "results"; "torznab"; "api"] {[ "q" := "ubuntu" ]} genesis,
         (Some unavailable, None))
  /\ postCtx (sampleClient "http://localhost:9117" false (answers unavailable)) Background
       (strings.Join ["all"; "results"; "torznab"; "api"] "/") {[ "q" := "ubuntu" ]} genesis
     = Ret (posted localhost ["all"; "results"; "torznab"; "api"] {[ "q" := "ubuntu" ]} genesis,
            if (http.StatusCode unavailable <? 500)%Z then (Some unavailable, None)
            else (None,
                  Some (Wrapped ("error making post request: "
                                 ++ host_of localhost ++ apiBase
                                 ++ strings.Join ["all"; "results"; "torznab"; "api"] "/")
                          (Wrapped "error making request"
                             (RetryErrors [Some (StatusError (http.StatusCode unavailable));
                                           None; None; None; None]))))).
Proof.
  apply (postBasicCtx_returns_the_answer_unchecked
           (sampleClient "http://localhost:9117" false (answers unavailable)) Background
           localhost ["all"; "results"; "torznab"; "api"] {[ "q" := "ubuntu" ]} genesis
           unavailable); try reflexivity.
  - discriminate.
  - intros rq Hrq. unfold http.Do. rewrite Hrq. reflexivity.
Defined.

(** X16. [postBasicCtx] does not retry: when its one call of [Do] fails
    in the transport, it returns that error, wrapped once, and has made
    one attempt and taken no delay. *)
Theorem postBasicCtx_does_not_retry c ctx h es opts w e :
  plain h = true -> Host (cfg c) = host_of h ->
  es <> [] -> forallb plain_element es = true ->
  (forall rq, http.Ctx rq = ctx ->
     snd (http.Do (transport c) (calls w) rq) = http.DoErr e) ->
  postBasicCtx c ctx (strings.Join es "/") opts w
  = Ret (posted h es opts w,
         (None, Some (Wrapped ("error making post request: "
                               ++ host_of h ++ apiBase ++ strings.Join es "/") e))).
Proof.
  intros Hpl Hh Hne Hes Hans.
  destruct (form_request_built c ctx h es opts Hpl Hh Hne Hes) as (HB & HN).
  destruct (formRequest_line c ctx h es opts) as (Hm & Hu & Hb & Hc).
  unfold postBasicCtx. rewrite HB. fold (query_of opts). rewrite HN.
  fold (formRequest c ctx h es opts).
  rewrite (Hans _ Hc). unfold posted.
  rewrite Hm, (formRequest_text c ctx h es opts Hpl Hes).
  unfold http.payload. rewrite Hb. reflexivity.
Qed.

(** X16, at a sample: a connection that is reset. *)
Lemma postBasicCtx_does_not_retry_witness :
  postBasicCtx (sampleClient "http://localhost:9117" false
                  (refuses (ErrorString "connection reset by peer"))) Background
    (strings.Join ["all"; "results"; "torznab"; "api"] "/") {[ "q" := "ubuntu" ]} genesis
  = Ret (posted localhost ["all"; "results"; "torznab"; "api"] {[ "q" := "ubuntu" ]} genesis,
         (None, Some (Wrapped ("error making post request: "
                               ++ host_of localhost ++ apiBase
                               ++ strings.Join ["all"; "results"; "torznab"; "api"] "/")
                        (ErrorString "connection reset by peer")))).
Proof.
  apply (postBasicCtx_does_not_retry
           (sampleClient "http://localhost:9117" false
              (refuses (ErrorString "connection reset by peer"))) Background
           localhost ["all"; "results"; "torznab"; "api"] {[ "q" := "ubuntu" ]} genesis
           (ErrorString "connection reset by peer")); try reflexivity.
  - discriminate.
  - intros rq Hrq. unfold http.Do. rewrite Hrq. reflexivity.
Defined.

(** ** Basic authentication *)

Lemma is_auth_refl user pass : is_auth user pass (http.Authorization user pass) = true.
Proof. cbn. rewrite !String.eqb_refl. reflexivity. Qed.

(** X17. With a user name and a password configured, every attempt of
    [getRawCtx] and of [postCtx] carries the two in its header: a server
    that answers 401 to any request without them behaves, for these
    calls, as the server behind it. *)
Theorem credentials_go_with_every_attempt c ctx reqUrl endpoint opts w :
  BasicUser (cfg c) <> "" -> BasicPass (cfg c) <> "" ->
  let check := with_credentials (BasicUser (cfg c)) (BasicPass (cfg c)) in
  getRawCtx (behind check c) ctx reqUrl w = getRawCtx c ctx reqUrl w
  /\ postCtx (behind check c) ctx endpoint opts w = postCtx c ctx endpoint opts w.
Proof.
  intros Hu Hp check. split.
  - unfold getRawCtx.
    destruct (http.NewRequestWithContext ctx "GET" reqUrl None) as [rq|e] eqn:HN; [|reflexivity].
    change (withBasicAuth (behind check c) rq) with (withBasicAuth c rq).
    rewrite retryDo_guarded; [reflexivity|].
    rewrite withBasicAuth_header, (nonempty_true _ Hu), (nonempty_true _ Hp).
    rewrite (NewRequest_header _ _ _ _ _ HN). unfold check, with_credentials.
    cbn [andb app existsb]. rewrite is_auth_refl. reflexivity.
  - unfold postCtx.
    change (buildUrl (behind check c) endpoint ∅) with (buildUrl c endpoint ∅).
    destruct (buildUrl c endpoint ∅) as [reqUrl'|msg]; [|reflexivity].
    destruct (http.NewRequestWithContext ctx "POST" reqUrl' _) as [rq|e] eqn:HN; [|reflexivity].
    change (withBasicAuth (behind check c) rq) with (withBasicAuth c rq).
    rewrite retryDo_guarded; [reflexivity|].
    cbn [http.add_header http.Header].
    rewrite withBasicAuth_header, (nonempty_true _ Hu), (nonempty_true _ Hp).
    rewrite (NewRequest_header _ _ _ _ _ HN). unfold check, with_credentials.
    cbn [andb app existsb]. rewrite is_auth_refl. reflexivity.
Qed.

(** X17, at a sample: the credentials of TestBasicAuth, over a connection
    that breaks twice. *)
Lemma credentials_go_with_every_attempt_witness :
  let c := authClient "testuser" "testpass" (dropsThenAnswers 2 200) in
  let check := with_credentials (BasicUser (cfg c)) (BasicPass (cfg c)) in
  getRawCtx (behind check c) Background "http://localhost:9117/dl/1" genesis
  = getRawCtx c Background "http://localhost:9117/dl/1" genesis
  /\ postCtx (behind check c) Background "all/results/torznab/api" {[ "q" := "ubuntu" ]} genesis
     = postCtx c Background "all/results/torznab/api" {[ "q" := "ubuntu" ]} genesis.
Proof.
  intros c.
  apply (credentials_go_with_every_attempt c Background "http://localhost:9117/dl/1"
           "all/results/torznab/api" {[ "q" := "ubuntu" ]} genesis); discriminate.
Defined.



(** * The methods, from the call to the value *)

(** [getRawCtx] when the first call of [Do] is answered. *)
Lemma getRawCtx_first_answer c ctx reqUrl w rq rp :
  http.NewRequestWithContext ctx "GET" reqUrl None = Ok rq ->
  (forall rq', http.Ctx rq' = ctx ->
     snd (http.Do (transport c) (calls w) rq') = http.DoResp rp) ->
  getRawCtx c ctx reqUrl w
  = (fetched (url.String (http.URL rq)) w,
     if (http.StatusCode rp <? 500)%Z then (Some rp, None)
     else (None, Some (Wrapped ("error making get request: " ++ reqUrl)
                         (statusFailure (http.StatusCode rp))))).
Proof.
  intros HN Hans. unfold getRawCtx. rewrite HN.
  destruct (NewRequest_get _ _ _ HN) as (Hm & Hb & Hc).
  destruct (withBasicAuth_line c rq) as (Hm' & Hu' & Hb' & Hc').
  set (request := withBasicAuth c rq) in *.
  rewrite Hm in Hm'. rewrite Hb in Hb'. rewrite Hc in Hc'.
  assert (readable request) as Hread by (apply readable_no_body, Hb').
  assert (prepared request = request) as Hprep by (unfold prepared; rewrite Hb'; reflexivity).
  rewrite (retryDo_unfold _ _ _ _ Hread). rewrite Hprep.
  set (f := {| req := request; resp := None; err := None; world_of := w |}).
  assert (sent f = fetched (url.String (http.URL rq)) w) as Hsent.
  { unfold sent, fetched, f. cbn [req world_of]. rewrite Hm', Hu'.
    unfold http.payload. rewrite Hb'. reflexivity. }
  pose proof (Hans request Hc') as HD.
  destruct (http.Do (transport c) (calls w) request) as [rq' r] eqn:HD'.
  cbn [snd] in HD. subst r.
  destruct (Z.ltb_spec (http.StatusCode rp) 500) as [Hs|Hs].
  - rewrite (loop_done c f _ 4 0 0 (replicate 5 None) (attempt_below_500 c f rq' rp HD' Hs)).
    cbn [req resp world_of]. rewrite Hsent. reflexivity.
  - rewrite (loop_unrecoverable c f _ _ 4 0 0 (replicate 5 None)
               (attempt_from_500 c f rq' rp HD' Hs)).
    cbn [req resp world_of]. rewrite Hsent. reflexivity.
Qed.

(** [getCtx] for a plain host, when the first call of [Do] is answered. *)
Lemma getCtx_first_answer c ctx h es params w rp :
  plain h = true -> Host (cfg c) = host_of h ->
  es <> [] -> forallb plain_element es = true ->
  (forall rq, http.Ctx rq = ctx ->
     snd (http.Do (transport c) (calls w) rq) = http.DoResp rp) ->
  getCtx c ctx (strings.Join es "/") params w
  = Ret (fetched (host_of h ++ apiBase ++ strings.Join es "/"
                  ++ query_suffix (query_of params)) w,
         if (http.StatusCode rp <? 500)%Z then (Some rp, None)
         else (None, Some (Wrapped ("error making get request: "
                                    ++ host_of h ++ apiBase ++ strings.Join es "/"
                                    ++ query_suffix (query_of params))
                             (statusFailure (http.StatusCode rp))))).
Proof.
  intros Hpl Hh Hne Hes Hans.
  destruct (get_request_built c ctx h es params Hpl Hh Hne Hes) as (HB & HN).
  unfold getCtx. rewrite HB.
  rewrite (getRawCtx_first_answer c ctx _ w _ rp HN Hans).
  cbn [http.URL]. rewrite (api_url_text h es _ Hpl Hes). reflexivity.
Qed.

Lemma getRawCtx_shape c ctx reqUrl w : response_or_error (snd (getRawCtx c ctx reqUrl w)).
Proof.
  unfold getRawCtx.
  destruct (http.NewRequestWithContext ctx "GET" reqUrl None) as [rq|e]; [|exact I].
  pose proof (retryDo_shape c ctx (withBasicAuth c rq) w) as H.
  destruct (retryDo c ctx (withBasicAuth c rq) w) as [[rq' w'] [[rp|] [e|]]];
    cbn in *; auto.
Qed.

(** A response that [getCtx] returns is an answer of the transport. *)
Lemma getCtx_answered c ctx endpoint params w w' rp e :
  getCtx c ctx endpoint params w = Ret (w', (Some rp, e)) ->
  exists n rq, http.answer (transport c n rq) = http.DoResp rp.
Proof.
  unfold getCtx, getRawCtx.
  destruct (buildUrl c endpoint params) as [u|]; [|discriminate].
  destruct (http.NewRequestWithContext ctx "GET" u None) as [rq|]; [|discriminate].
  destruct (retryDo c ctx (withBasicAuth c rq) w) as [[rq' w''] [r [e'|]]] eqn:HR;
    [discriminate|].
  intros [= _ -> _]. exact (retryDo_answered _ _ _ _ _ _ _ _ HR).
Qed.

Lemma NewBuffer_pending b : fault b = None -> NewBuffer (pending b) = b.
Proof. destruct b as [p f]. cbn. intros ->. reflexivity. Qed.

(** The query of [GetIndexersCtx], whatever the API key is. *)
Lemma indexersOptions_query c : query_of (indexersOptions c) = indexersQuery c.
Proof.
  unfold indexersOptions, indexersQuery.
  destruct (url.nonempty (APIKey (cfg c))); [|reflexivity].
  rewrite query_of_pairs.
  generalize (APIKey (cfg c)). intros key.
  assert (sorted_keys (<["apikey" := key]> (<["t" := "indexers"]> (<["configured" := "true"]> ∅)))
          = ["apikey"; "configured"; "t"]) as -> by (vm_compute; reflexivity).
  cbn [map]. unfold pair_text.
  rewrite lookup_insert_eq. cbn [default from_option id strings.Join].
  rewrite !app_assoc_s. reflexivity.
Qed.

(** X19. [GetEnclosureCtx] requests the URL that it is given, as it is,
    and does not look at the status below 500: when the first attempt is
    answered with such a status, a 404 as well as a 200, it returns what
    [io.ReadAll] has read of the body together with the error of the read,
    and closes the body. *)
Theorem GetEnclosureCtx_returns_the_body_of_any_answer_below_500 c ctx enclosure m u rp :
  url.Parse enclosure = Ok u ->
  (forall rq, http.Ctx rq = ctx ->
     snd (http.Do (transport c) (calls (world m)) rq) = http.DoResp rp) ->
  (http.StatusCode rp < 500)%Z ->
  GetEnclosureCtx c ctx enclosure m
  = (with_world m
       (emit EvClose
          (fetched (url.String (url.with_host u (http.removeEmptyPort (url.Host u))))
             (world m))),
     Ret (Some (pending (http.ResponseBody rp)), fault (http.ResponseBody rp))).
Proof.
  intros HP Hans Hs. unfold GetEnclosureCtx.
  assert (http.NewRequestWithContext ctx "GET" enclosure None
          = Ok {| http.Method := "GET";
                  http.URL := url.with_host u (http.removeEmptyPort (url.Host u));
                  http.Header := []; http.Body := None; http.GetBody := None;
                  http.ContentLength := 0; http.Ctx := ctx |}) as HN
    by (unfold http.NewRequestWithContext; rewrite HP; reflexivity).
  rewrite (getRawCtx_first_answer c ctx enclosure (world m) _ rp HN Hans).
  destruct (Z.ltb_spec (http.StatusCode rp) 500); [reflexivity | lia].
Qed.

(** X19, at a sample: a server that answers 404 with a page. *)
Lemma GetEnclosureCtx_returns_the_body_of_any_answer_below_500_witness :
  GetEnclosureCtx (sampleClient "http://localhost:9117" false (answers notFound)) Background
    "http://localhost:9117/dl/1.torrent" (sampleMachine ∅)
  = (with_world (sampleMachine ∅)
       (emit EvClose
          (fetched (url.String
                      (url.with_host (plain_url localhost "/dl/1.torrent")
                         (http.removeEmptyPort (url.Host (plain_url localhost "/dl/1.torrent")))))
             (world (sampleMachine ∅)))),
     Ret (Some (pending (http.ResponseBody notFound)), fault (http.ResponseBody notFound))).
Proof.
  apply (GetEnclosureCtx_returns_the_body_of_any_answer_below_500
           (sampleClient "http://localhost:9117" false (answers notFound)) Background
           "http://localhost:9117/dl/1.torrent" (sampleMachine ∅)
           (plain_url localhost "/dl/1.torrent") notFound).
  - reflexivity.
  - intros rq Hrq. unfold http.Do. rewrite Hrq. reflexivity.
  - cbn. lia.
Defined.



(** X21. A search through [GetTorrentsCtx] whose first attempt is
    answered: the request is one GET of the host, the mount segment, the
    indexer, the results suffix and the query of the caller's options with
    the API key. Below 500 the status is not looked at: the body goes to
    the XML decoder, whose value and error are returned, and the body is
    closed. From 500 on the value is zero, the error wraps the status
    three times, and the body is not closed. *)
Theorem GetTorrentsCtx_on_the_first_answer x c ctx h indexer l o m rp :
  plain h = true -> Host (cfg c) = host_of h ->
  plain_element indexer = true ->
  APIKey (cfg c) <> "" ->
  store m !! l = Some o ->
  (forall rq, http.Ctx rq = ctx ->
     snd (http.Do (transport c) (calls (world m)) rq) = http.DoResp rp) ->
  let sentOpts := <["apikey" := APIKey (cfg c)]> o in
  let target := host_of h ++ "/api/v2.0/indexers/" ++ indexer ++ "/results/torznab/api"
                ++ query_suffix (query_of sentOpts) in
  GetTorrentsCtx x c ctx indexer (Some l) m
  = if (http.StatusCode rp <? 500)%Z
    then ({| store := <[l := sentOpts]> (store m);
             world := emit EvClose (fetched target (world m)) |},
          Ret (DecodeRss x (http.ResponseBody rp) Rss_zero))
    else ({| store := <[l := sentOpts]> (store m); world := fetched target (world m) |},
          Ret (Rss_zero,
               Some (Wrapped (indexer ++ " endpoint error")
                       (Wrapped ("error making get request: " ++ target)
                          (statusFailure (http.StatusCode rp)))))).
Proof.
  intros Hpl Hh Hi Hk Hl Hans sentOpts target.
  unfold GetTorrentsCtx. rewrite (nonempty_true _ Hk). unfold assign, entries.
  rewrite Hl. cbn [default from_option id]. rewrite lookup_insert_eq. cbn [default from_option id].
  fold sentOpts.
  pose proof (getCtx_first_answer c ctx h [indexer; "results"; "torznab"; "api"] sentOpts
                (world m) rp Hpl Hh) as HG.
  change (strings.Join [indexer; "results"; "torznab"; "api"] "/")
    with (indexer ++ "/results/torznab/api") in HG.
  rewrite HG; [| discriminate | cbn [forallb]; rewrite Hi; reflexivity | exact Hans].
  assert (host_of h ++ apiBase ++ (indexer ++ "/results/torznab/api")
          ++ query_suffix (query_of sentOpts) = target) as ->.
  { unfold target. rewrite !app_assoc_s. reflexivity. }
  destruct (http.StatusCode rp <? 500)%Z; reflexivity.
Qed.

(** X21, at a sample: a server that answers 404 with a page. *)
Lemma GetTorrentsCtx_on_the_first_answer_witness :
  let c := sampleClient "http://localhost:9117" false (answers notFound) in
  let sentOpts := <["apikey" := APIKey (cfg c)]> {[ "t" := "search" ]} in
  let target := host_of localhost ++ "/api/v2.0/indexers/" ++ "all" ++ "/results/torznab/api"
                ++ query_suffix (query_of sentOpts) in
  GetTorrentsCtx sampleXML c Background "all" (Some 1%positive)
    (sampleMachine {[ "t" := "search" ]})
  = if (http.StatusCode notFound <? 500)%Z
    then ({| store := <[1%positive := sentOpts]> (store (sampleMachine {[ "t" := "search" ]}));
             world := emit EvClose (fetched target (world (sampleMachine {[ "t" := "search" ]}))) |},
          Ret (DecodeRss sampleXML (http.ResponseBody notFound) Rss_zero))
    else ({| store := <[1%positive := sentOpts]> (store (sampleMachine {[ "t" := "search" ]}));
             world := fetched target (world (sampleMachine {[ "t" := "search" ]})) |},
          Ret (Rss_zero,
               Some (Wrapped ("all" ++ " endpoint error")
                       (Wrapped ("error making get request: " ++ target)
                          (statusFailure (http.StatusCode notFound)))))).
Proof.
  intros c.
  apply (GetTorrentsCtx_on_the_first_answer sampleXML c Background
           localhost "all" 1%positive {[ "t" := "search" ]}
           (sampleMachine {[ "t" := "search" ]}) notFound); try reflexivity.
  - discriminate.
  - intros rq Hrq. unfold http.Do. rewrite Hrq. reflexivity.
Defined.

(** X22. [GetIndexersCtx] asks for the configured indexers of all
    trackers: its request is one GET of the host followed by
    [/api/v2.0/indexers/all/results/torznab/api] and the query
    [configured=true&t=indexers], with the escaped API key in front as
    [apikey] when the key is not empty. Below 500 the body goes to the
    XML decoder and is closed; from 500 on the value is zero and the body
    is not closed. *)
Theorem GetIndexersCtx_on_the_first_answer x c ctx h m rp :
  plain h = true -> Host (cfg c) = host_of h ->
  (forall rq, http.Ctx rq = ctx ->
     snd (http.Do (transport c) (calls (world m)) rq) = http.DoResp rp) ->
  let target := host_of h ++ "/api/v2.0/indexers/all/results/torznab/api?"
                ++ indexersQuery c in
  GetIndexersCtx x c ctx m
  = if (http.StatusCode rp <? 500)%Z
    then (with_world m (emit EvClose (fetched target (world m))),
          Ret (DecodeIndexers x (http.ResponseBody rp) Indexers_zero))
    else (with_world m (fetched target (world m)),
          Ret (Indexers_zero,
               Some (Wrapped "all endpoint error"
                       (Wrapped ("error making get request: " ++ target)
                          (statusFailure (http.StatusCode rp)))))).
Proof.
  intros Hpl Hh Hans target.
  unfold GetIndexersCtx.
  pose proof (getCtx_first_answer c ctx h ["all"; "results"; "torznab"; "api"]
                (indexersOptions c) (world m) rp Hpl Hh) as HG.
  change (strings.Join ["all"; "results"; "torznab"; "api"] "/")
    with "all/results/torznab/api" in HG.
  rewrite HG; [| discriminate | reflexivity | exact Hans].
  rewrite indexersOptions_query.
  assert (host_of h ++ apiBase ++ "all/results/torznab/api" ++ query_suffix (indexersQuery c)
          = target) as ->.
  { unfold target, query_suffix, indexersQuery.
    destruct (url.nonempty (APIKey (cfg c))); reflexivity. }
  destruct (http.StatusCode rp <? 500)%Z; reflexivity.
Qed.

(** X22, at a sample: a server that answers 503. *)
Lemma GetIndexersCtx_on_the_first_answer_witness :
  let c := sampleClient "http://localhost:9117" false (answers unavailable) in
  let target := host_of localhost ++ "/api/v2.0/indexers/all/results/torznab/api?"
                ++ indexersQuery c in
  GetIndexersCtx sampleXML c Background (sampleMachine ∅)
  = if (http.StatusCode unavailable <? 500)%Z
    then (with_world (sampleMachine ∅)
            (emit EvClose (fetched target (world (sampleMachine ∅)))),
          Ret (DecodeIndexers sampleXML (http.ResponseBody unavailable) Indexers_zero))
    else (with_world (sampleMachine ∅) (fetched target (world (sampleMachine ∅))),
          Ret (Indexers_zero,
               Some (Wrapped "all endpoint error"
                       (Wrapped ("error making get request: " ++ target)
                          (statusFailure (http.StatusCode unavailable)))))).
Proof.
  intros c.
  apply (GetIndexersCtx_on_the_first_answer sampleXML c Background
           localhost (sampleMachine ∅) unavailable); try reflexivity.
  intros rq Hrq. unfold http.Do. rewrite Hrq. reflexivity.
Defined.

(** X23. Without an API key [GetTorrentsCtx] writes nothing into the
    caller's options, and it accepts the nil map: the call with nil
    options is the call with an empty map. *)
Theorem GetTorrentsCtx_without_key_leaves_the_options x c ctx indexer opts l m :
  APIKey (cfg c) = "" ->
  store m !! l = Some ∅ ->
  store (fst (GetTorrentsCtx x c ctx indexer opts m)) = store m
  /\ GetTorrentsCtx x c ctx indexer None m = GetTorrentsCtx x c ctx indexer (Some l) m.
Proof.
  intros Hk Hl. split.
  - apply GetTorrentsCtx_store. rewrite Hk. reflexivity.
  - unfold GetTorrentsCtx. rewrite Hk. cbn [url.nonempty String.eqb negb].
    unfold entries. rewrite Hl. reflexivity.
Qed.

(** X23, at a sample: a client without a key, the empty map at
    location 1. *)
Lemma GetTorrentsCtx_without_key_leaves_the_options_witness :
  store (fst (GetTorrentsCtx sampleXML (keyless notFoundServer) Background "all"
                (Some 1%positive) (sampleMachine ∅)))
  = store (sampleMachine ∅)
  /\ GetTorrentsCtx sampleXML (keyless notFoundServer) Background "all" None (sampleMachine ∅)
     = GetTorrentsCtx sampleXML (keyless notFoundServer) Background "all" (Some 1%positive)
         (sampleMachine ∅).
Proof.
  apply (GetTorrentsCtx_without_key_leaves_the_options sampleXML (keyless notFoundServer)
           Background "all" (Some 1%positive) 1%positive (sampleMachine ∅)); reflexivity.
Defined.

(** X24. For a plain host, a plain indexer and options that are a map,
    the methods return whatever the transport does: [retryDo] hands back
    a response or an error, never neither, so that no method reads the
    body of a nil response. *)
Theorem methods_return_for_a_plain_host x c ctx h indexer enclosure l o m :
  plain h = true -> Host (cfg c) = host_of h ->
  plain_element indexer = true ->
  store m !! l = Some o ->
  (exists v, snd (GetIndexersCtx x c ctx m) = Ret v)
  /\ (exists v, snd (GetTorrentsCtx x c ctx indexer (Some l) m) = Ret v)
  /\ (exists v, snd (GetEnclosureCtx c ctx enclosure m) = Ret v).
Proof.
  intros Hpl Hh Hi Hl. split; [|split].
  - unfold GetIndexersCtx, getCtx.
    pose proof (buildUrl_plain h Hpl c ["all"; "results"; "torznab"; "api"]
                  (indexersOptions c) Hh) as HB.
    change (strings.Join ["all"; "results"; "torznab"; "api"] "/")
      with "all/results/torznab/api" in HB.
    rewrite HB by (discriminate || reflexivity).
    match goal with |- context [getRawCtx c ctx ?u ?w] =>
      pose proof (getRawCtx_shape c ctx u w) as Hs;
      destruct (getRawCtx c ctx u w) as [w' [[r|] [e|]]] end;
      cbn in Hs; try contradiction; cbn; eauto.
  - unfold GetTorrentsCtx, getCtx.
    assert (exists st, (if url.nonempty (APIKey (cfg c))
                        then assign (Some l) "apikey" (APIKey (cfg c)) (store m)
                        else Ret (store m)) = Ret st) as (st & ->)
      by (destruct (url.nonempty (APIKey (cfg c))); cbn; eauto).
    pose proof (buildUrl_plain h Hpl c [indexer; "results"; "torznab"; "api"]
                  (entries st (Some l)) Hh) as HB.
    change (strings.Join [indexer; "results"; "torznab"; "api"] "/")
      with (indexer ++ "/results/torznab/api") in HB.
    rewrite HB by (discriminate || (cbn [forallb]; rewrite Hi; reflexivity)).
    match goal with |- context [getRawCtx c ctx ?u ?w] =>
      pose proof (getRawCtx_shape c ctx u w) as Hs;
      destruct (getRawCtx c ctx u w) as [w' [[r|] [e|]]] end;
      cbn in Hs; try contradiction; cbn; eauto.
  - unfold GetEnclosureCtx.
    pose proof (getRawCtx_shape c ctx enclosure (world m)) as Hs.
    destruct (getRawCtx c ctx enclosure (world m)) as [w' [[r|] [e|]]];
      cbn in Hs; try contradiction; cbn; eauto.
Qed.

(** X24, at a sample: a connection that breaks twice before the server
    answers. *)
Lemma methods_return_for_a_plain_host_witness :
  let c := sampleClient "http://localhost:9117" false (dropsThenAnswers 2 200) in
  (exists v, snd (GetIndexersCtx sampleXML c Background (sampleMachine ∅)) = Ret v)
  /\ (exists v, snd (GetTorrentsCtx sampleXML c Background "all" (Some 1%positive)
                       (sampleMachine ∅)) = Ret v)
  /\ (exists v, snd (GetEnclosureCtx c Background "http://localhost:9117/dl/1.torrent"
                       (sampleMachine ∅)) = Ret v).
Proof.
  intros c.
  apply (methods_return_for_a_plain_host sampleXML c Background localhost "all"
           "http://localhost:9117/dl/1.torrent" 1%positive ∅ (sampleMachine ∅));
    reflexivity.
Defined.

(** ** The two texts of methods.go *)

(** X25. The text of methods.go that reads the body whole and the text
    that decodes from the stream return the same, and leave the same
    world and store, whenever every body that the server sends can be read
    to its end. *)
Theorem whole_body_methods_agree_on_readable_bodies x c ctx indexer opts m :
  (forall n rq rp, http.answer (transport c n rq) = http.DoResp rp ->
     fault (http.ResponseBody rp) = None) ->
  whole_body.GetIndexersCtx x c ctx m = GetIndexersCtx x c ctx m
  /\ whole_body.GetTorrentsCtx x c ctx indexer opts m = GetTorrentsCtx x c ctx indexer opts m.
Proof.
  intros Hbodies.
  assert (forall endpoint params w r,
            getCtx c ctx endpoint params (world m) = Ret (w, (Some r, None)) ->
            fault (http.ResponseBody r) = None) as Hread.
  { intros endpoint params w r G.
    destruct (getCtx_answered _ _ _ _ _ _ _ _ G) as (n & rq & Ha). exact (Hbodies _ _ _ Ha). }
  split.
  - unfold whole_body.GetIndexersCtx, GetIndexersCtx.
    destruct (getCtx c ctx "all/results/torznab/api" (indexersOptions c) (world m))
      as [[w [[r|] [e|]]]|msg] eqn:G; try reflexivity.
    unfold ReadAll, Peek0. cbn [snd].
    rewrite (Hread _ _ _ _ G), (NewBuffer_pending _ (Hread _ _ _ _ G)). reflexivity.
  - unfold whole_body.GetTorrentsCtx, GetTorrentsCtx.
    destruct (if url.nonempty (APIKey (cfg c)) then _ else _) as [st|msg]; [|reflexivity].
    destruct (getCtx c ctx (indexer ++ "/results/torznab/api") (entries st opts) (world m))
      as [[w [[r|] [e|]]]|msg] eqn:G; try reflexivity.
    unfold ReadAll, Peek0. cbn [snd].
    rewrite (Hread _ _ _ _ G), (NewBuffer_pending _ (Hread _ _ _ _ G)). reflexivity.
Qed.

(** X25, at a sample: a server that sends a document that breaks off, but
    can be read to its end. *)
Lemma whole_body_methods_agree_on_readable_bodies_witness :
  let c := sampleClient "http://localhost:9117" false (documentServer truncatedRss) in
  whole_body.GetIndexersCtx sampleXML c Background (sampleMachine ∅)
  = GetIndexersCtx sampleXML c Background (sampleMachine ∅)
  /\ whole_body.GetTorrentsCtx sampleXML c Background "all" (Some 1%positive) (sampleMachine ∅)
     = GetTorrentsCtx sampleXML c Background "all" (Some 1%positive) (sampleMachine ∅).
Proof.
  intros c.
  apply (whole_body_methods_agree_on_readable_bodies sampleXML c Background "all"
           (Some 1%positive) (sampleMachine ∅)).
  intros n rq rp H. injection H as <-. reflexivity.
Defined.



(** * The repository's tests, on the embedding *)

(** TestBuildURL, proxy mode. *)
Example TestBuildURL_proxy_mode :
  buildUrl (sampleClient "http://localhost:9117" false notFoundServer)
    "all/results/torznab/api" (<["t" := "search"]> {[ "q" := "ubuntu" ]})
  = Ret "http://localhost:9117/api/v2.0/indexers/all/results/torznab/api?q=ubuntu&t=search".
Proof. vm_compute. reflexivity. Qed.

(** TestGetIndexers: the path and the query of the request. *)
Example TestGetIndexers_request :
  trace (world (fst (GetIndexers sampleXML
                       (sampleClient "http://localhost:9117" false (documentServer ""))
                       (sampleMachine ∅))))
  = [EvSend 0 "GET"
       "http://localhost:9117/api/v2.0/indexers/all/results/torznab/api?apikey=test-key&configured=true&t=indexers"
       "";
     EvClose].
Proof. vm_compute. reflexivity. Qed.

(** TestGetTorrents: the request of [GetTorrents("all", opts)]. *)
Example TestGetTorrents_request :
  trace (world (fst (GetTorrents sampleXML
                       (sampleClient "http://localhost:9117" false (documentServer ""))
                       "all" (Some 1%positive)
                       (sampleMachine (<["t" := "search"]> {[ "q" := "ubuntu" ]})))))
  = [EvSend 0 "GET"
       "http://localhost:9117/api/v2.0/indexers/all/results/torznab/api?apikey=test-key&q=ubuntu&t=search"
       "";
     EvClose].
Proof. vm_compute. reflexivity. Qed.

(** TestTorznabItemPeersCalculation: without a [peers] attribute, peers is
    seeders plus leechers. *)
Example TestTorznabItemPeersCalculation :
  torznab.Peers (torznab.NewTorznabItem
                   (itemWith [] [attr "seeders" "30"; attr "leechers" "20"])) = 50%Z.
Proof. vm_compute. reflexivity. Qed.

(** TestTorznabItemHelpers: the integer accessors, the tags and the
    categories. *)
Example TestTorznabItemHelpers :
  let t := torznab.NewTorznabItem
             (itemWith ["5000"; "5040"]
                [attr "seeders" "50"; attr "leechers" "10"; attr "peers" "60";
                 attr "tag" "internal"; attr "tag" "trusted";
                 attr "category" "5000"; attr "category" "5040"]) in
  torznab.Seeders t = 50%Z /\ torznab.Leechers t = 10%Z /\ torznab.Peers t = 60%Z
  /\ torznab.Tags t = ["internal"; "trusted"]
  /\ torznab.Categories t = ["5000"; "5040"]
  /\ torznab.GetAttrInt t "tag" = 0%Z.
Proof. vm_compute. repeat split; reflexivity. Qed.
